(** * Xiaohongshu analytics dashboard: the metric pipeline of [app1.py] and [app2.py]

    Both scripts read exported spreadsheets with pandas, normalise the column
    labels, parse and sort the publish time, derive seven ratios per row, show
    them, and collect the processed frames into one workbook.  This file embeds
    that pipeline: a [DataFrame] is an index plus an ordered list of labelled
    columns, Python exceptions are a [result] type, and the pandas / numpy /
    Python primitives whose code is not part of the repository (the [strptime]
    parser, [to_numeric], the sorting routine, the Unicode character classes)
    are the fields of the class [Library].  Two instances run the pipeline on
    concrete files: [reference], which sorts by insertion, and [numpy], which
    sorts with numpy's quicksort routine.

    The pandas behaviour the embedding relies on:
    - [df[c]] with a label carried by several columns is a frame, which
      [pd.to_datetime] and [pd.to_numeric] refuse;
    - [df[c] = s] overwrites the column(s) labelled [c] where they stand and
      appends a new column otherwise;
    - [df.insert(0, c, s)] raises ValueError when [c] is already a label;
    - [df.sort_values(by=c)] sorts with [kind='quicksort'] unless told
      otherwise, and only [mergesort] and [stable] keep ties in input order;
    - [s.replace(0, pd.NA)] on a column with a zero gives an object column
      holding pd.NA, and a quotient by it holds pd.NA in the same rows;
    - [Series.min()], [Series.max()] and [DataFrame.mean()] skip nulls; the
      minimum of an empty datetime column is NaT, and [NaT.date()] is NaT;
    - a [dict] keeps insertion order and an assignment to a present key
      replaces its value.

    [analyze_and_display] below ends where the means are computed.  Of the
    rendering that follows, the line charts of [app1.py] are modelled as far
    as [plot_with_labels] goes (whether [ax.plot] accepts a column, and the
    point labels); the pie chart, [st.bar_chart], [st.line_chart] and cell
    formatting are not.

    Floating point numbers are idealised as exact rationals extended with the
    two infinities: rounding and overflow are not modelled, and what is proved
    below uses of the arithmetic only that 0 + x is x.  A null (NaN, NaT,
    pd.NA) is [None] / [NA]. *)

From Stdlib Require Import String Ascii.
From Stdlib Require Import List Bool Arith ZArith NArith QArith Lia.
From Stdlib Require Import Permutation Sorted.
Import ListNotations.

Close Scope Q_scope.
Open Scope nat_scope.
Open Scope list_scope.

(* ================================================================== *)
(** ** Python strings *)
(* ================================================================== *)

(** A Python [str] is a sequence of Unicode code points. *)
Definition pystr := list N.

Fixpoint str_eqb (a b : pystr) : bool :=
  match a, b with
  | [], [] => true
  | x :: a', y :: b' => N.eqb x y && str_eqb a' b'
  | _, _ => false
  end.

Definition mem (c : pystr) (cs : list pystr) : bool :=
  existsb (fun l => str_eqb l c) cs.

Definition cont (a : ascii) : N := N_of_ascii a - 128.

(** Source literals are written here as UTF-8 text and decoded to code
    points, so that the labels below read as they do in the scripts. *)
Fixpoint utf8 (s : string) : pystr :=
  match s with
  | EmptyString => []
  | String a s1 =>
      let b0 := N_of_ascii a in
      if (b0 <? 128)%N then b0 :: utf8 s1
      else if (b0 <? 224)%N then
        match s1 with
        | String a1 s2 => ((b0 - 192) * 64 + cont a1)%N :: utf8 s2
        | _ => []
        end
      else if (b0 <? 240)%N then
        match s1 with
        | String a1 (String a2 s3) =>
            ((b0 - 224) * 4096 + cont a1 * 64 + cont a2)%N :: utf8 s3
        | _ => []
        end
      else
        match s1 with
        | String a1 (String a2 (String a3 s4)) =>
            ((b0 - 240) * 262144 + cont a1 * 4096 + cont a2 * 64 + cont a3)%N
              :: utf8 s4
        | _ => []
        end
  end.

(* ================================================================== *)
(** ** Exceptions *)
(* ================================================================== *)

Inductive exn : Type :=
| KeyError
| ValueError
| TypeError
| ZeroDivisionError
| ReadError.

Inductive result (A : Type) : Type :=
| Ok (a : A)
| Raise (e : exn).

Arguments Ok {A} a.
Arguments Raise {A} e.

Definition bind {A B : Type} (m : result A) (f : A -> result B) : result B :=
  match m with
  | Ok a => f a
  | Raise e => Raise e
  end.

Notation "x <- m ;; k" := (bind m (fun x => k))
  (at level 61, m at next level, right associativity).

(* ================================================================== *)
(** ** Numbers, cells, series, frames *)
(* ================================================================== *)

(** A float64 value that is not NaN. *)
Inductive float : Type :=
| Fin (q : Q)
| Inf (negative : bool).

(** A float64 slot: [None] is NaN / pd.NA. *)
Definition nfloat := option float.

Definition fzero : float := Fin 0%Q.

Definition is_zero (x : float) : bool :=
  match x with
  | Fin q => Qeq_bool q 0%Q
  | Inf _ => false
  end.

Definition negative (q : Q) : bool := (Qnum q <? 0)%Z.

(** Addition, exact on finite values: no rounding, no overflow. *)
Definition fadd (x y : float) : nfloat :=
  match x, y with
  | Fin a, Fin b => Some (Fin (a + b)%Q)
  | Inf s, Fin _ => Some (Inf s)
  | Fin _, Inf s => Some (Inf s)
  | Inf s, Inf t => if Bool.eqb s t then Some (Inf s) else None
  end.

(** Division with IEEE's results at zero and at the infinities, exact on
    finite values: no rounding, no overflow.  Signed zeros are not
    distinguished. *)
Definition fdiv (x y : float) : nfloat :=
  match x, y with
  | Fin a, Fin b =>
      if Qeq_bool b 0%Q
      then (if Qeq_bool a 0%Q then None else Some (Inf (negative a)))
      else Some (Fin (a / b)%Q)
  | Fin _, Inf _ => Some (Fin 0%Q)
  | Inf s, Fin b => Some (Inf (xorb s (negative b)))
  | Inf _, Inf _ => None
  end.

Definition nadd (x y : nfloat) : nfloat :=
  match x, y with
  | Some a, Some b => fadd a b
  | _, _ => None
  end.

Definition ndiv (x y : nfloat) : nfloat :=
  match x, y with
  | Some a, Some b => fdiv a b
  | _, _ => None
  end.

Inductive cell : Type :=
| NA
| Str (s : pystr)
| Flt (x : float)
| Time (t : Z).

Definition Series := list cell.
(** Column labels are strings. *)
Abbreviation label := pystr (only parsing).

Record DataFrame : Type := {
  index : list nat;
  columns : list (label * Series)
}.

Definition labels (df : DataFrame) : list label := map fst (columns df).
Definition nrows (df : DataFrame) : nat := length (index df).

Definition notna (c : cell) : bool :=
  match c with
  | NA => false
  | _ => true
  end.

Definition of_nfloat (x : nfloat) : cell :=
  match x with
  | Some v => Flt v
  | None => NA
  end.

(** [df[c]]: every column carrying the label; one column is a Series, more
    than one is a frame. *)
Definition getitem (df : DataFrame) (c : label) : list Series :=
  map snd (filter (fun p => str_eqb (fst p) c) (columns df)).

Definition has_column (df : DataFrame) (c : label) : bool :=
  existsb (fun l => str_eqb l c) (labels df).

(** [df[c] = s]: overwrite the column(s) labelled [c] in place, or append a
    new last column. *)
Definition setitem (df : DataFrame) (c : label) (s : Series) : DataFrame :=
  if has_column df c
  then {| index := index df;
          columns := map (fun p => if str_eqb (fst p) c then (fst p, s) else p)
                         (columns df) |}
  else {| index := index df; columns := columns df ++ [(c, s)] |}.

(** [df.insert(0, c, s)] with the default [allow_duplicates=False]. *)
Definition insert0 (df : DataFrame) (c : label) (s : Series) : result DataFrame :=
  if has_column df c then Raise ValueError
  else Ok {| index := index df; columns := (c, s) :: columns df |}.

Definition take (idx : list nat) (s : Series) : Series :=
  map (fun i => nth i s NA) idx.

Definition take_rows (idx : list nat) (df : DataFrame) : DataFrame :=
  {| index := map (fun i => nth i (index df) 0) idx;
     columns := map (fun p => (fst p, take idx (snd p))) (columns df) |}.

Definition reset_index (df : DataFrame) : DataFrame :=
  {| index := seq 0 (nrows df); columns := columns df |}.

(** [df[cs]]: column selection by a list of labels. *)
Fixpoint select_columns (df : DataFrame) (cs : list label)
  : result (list (label * Series)) :=
  match cs with
  | [] => Ok []
  | c :: cs' =>
      match getitem df c with
      | [] => Raise KeyError
      | sel => rest <- select_columns df cs' ;; Ok (map (pair c) sel ++ rest)
      end
  end.

Definition select (df : DataFrame) (cs : list label) : result DataFrame :=
  cols <- select_columns df cs ;;
  Ok {| index := index df; columns := cols |}.

(* ================================================================== *)
(** ** Library primitives *)
(* ================================================================== *)

(** What the scripts take from Python, pandas and numpy.  [argsort] is numpy's
    [argsort(kind='quicksort')], the default of [sort_values]: it returns the
    positions in ascending key order and promises nothing about ties. *)
Class Library : Type := {
  isspace : N -> bool;
  isalnum : N -> bool;
  strptime_coerce : cell -> option Z;
  numeric_coerce : cell -> nfloat;
  argsort : list Z -> list nat;
  argsort_perm : forall ks, Permutation (argsort ks) (seq 0 (length ks));
  argsort_sorted :
    forall ks, Sorted Z.le (map (fun i => nth i ks 0%Z) (argsort ks))
}.

(* ================================================================== *)
(** ** Labels used by the scripts *)
(* ================================================================== *)

Definition c_seq : label := utf8 "序号".
Definition c_title : label := utf8 "笔记标题".
Definition c_time : label := utf8 "首次发布时间".
Definition c_type : label := utf8 "体裁".
Definition c_exposure : label := utf8 "曝光".
Definition c_views : label := utf8 "观看量".
Definition c_ctr : label := utf8 "封面点击率".
Definition c_likes : label := utf8 "点赞".
Definition c_comments : label := utf8 "评论".
Definition c_favorites : label := utf8 "收藏".
Definition c_follows : label := utf8 "涨粉".
Definition c_shares : label := utf8 "分享".
Definition c_like_rate : label := utf8 "点赞率".
Definition c_favorite_rate : label := utf8 "收藏率".
Definition c_like_fav_ratio : label := utf8 "赞藏比".
Definition c_comment_rate : label := utf8 "评论率".
Definition c_engagement : label := utf8 "互动率".
Definition c_activity : label := utf8 "有效活跃度".
Definition c_follow_rate : label := utf8 "转粉率".

Definition rename_map : list (label * label) :=
  [ (utf8 "曝光量", c_exposure); (utf8 "阅读量", c_views);
    (utf8 "播放量", c_views); (utf8 "观看数", c_views);
    (utf8 "点赞数", c_likes); (utf8 "获赞", c_likes);
    (utf8 "获赞数", c_likes); (utf8 "点赞次数", c_likes);
    (utf8 "收藏数", c_favorites); (utf8 "评论数", c_comments);
    (utf8 "涨粉数", c_follows); (utf8 "净涨粉", c_follows);
    (utf8 "发布形式", c_type) ].

Definition required_cols : list label :=
  [ c_title; c_exposure; c_likes; c_views; c_favorites; c_comments;
    c_follows; c_shares; c_ctr; c_time; c_type ].

Definition numeric_cols : list label :=
  [ c_exposure; c_ctr; c_likes; c_views; c_favorites; c_comments;
    c_follows; c_shares ].

Definition display_cols : list label :=
  [ c_seq; c_title; c_time; c_type; c_exposure; c_views; c_ctr;
    c_likes; c_comments; c_favorites; c_follows; c_shares;
    c_like_rate; c_favorite_rate; c_engagement; c_follow_rate;
    c_like_fav_ratio; c_activity ].

Definition avg_cols : list label :=
  [ c_ctr; c_like_rate; c_favorite_rate; c_engagement; c_follow_rate ].

(** The right-hand sides of the seven metric assignments. *)
Inductive expr : Type :=
| Col (c : label)
| Add (a b : expr).

Record metric : Type := {
  target : label;
  numerator : expr;
  denominator : expr
}.

Definition metrics : list metric :=
  [ {| target := c_like_rate; numerator := Col c_likes;
       denominator := Col c_views |};
    {| target := c_favorite_rate; numerator := Col c_favorites;
       denominator := Col c_views |};
    {| target := c_like_fav_ratio; numerator := Col c_likes;
       denominator := Col c_favorites |};
    {| target := c_comment_rate; numerator := Col c_comments;
       denominator := Col c_views |};
    {| target := c_engagement;
       numerator := Add (Add (Col c_likes) (Col c_comments)) (Col c_favorites);
       denominator := Col c_views |};
    {| target := c_activity; numerator := Col c_comments;
       denominator := Add (Col c_likes) (Col c_favorites) |};
    {| target := c_follow_rate; numerator := Col c_follows;
       denominator := Col c_views |} ].

Fixpoint lookup (m : list (label * label)) (k : label) : option label :=
  match m with
  | [] => None
  | (k', v) :: m' => if str_eqb k' k then Some v else lookup m' k
  end.

Definition rename (l : label) : label :=
  match lookup rename_map l with
  | Some v => v
  | None => l
  end.

Definition rename_columns (df : DataFrame) : DataFrame :=
  {| index := index df;
     columns := map (fun p => (rename (fst p), snd p)) (columns df) |}.

(* ================================================================== *)
(** ** Series operations *)
(* ================================================================== *)

Fixpoint map2 {A B C : Type} (f : A -> B -> C) (l : list A) (l' : list B)
  : list C :=
  match l, l' with
  | x :: t, y :: t' => f x y :: map2 f t t'
  | _, _ => []
  end.

Definition isnull (x : nfloat) : bool :=
  match x with
  | None => true
  | Some _ => false
  end.

Definition nzero (x : nfloat) : bool :=
  match x with
  | Some v => is_zero v
  | None => false
  end.

(** [s.fillna(0)] *)
Definition fillna0 (s : list nfloat) : list nfloat :=
  map (fun x => match x with None => Some fzero | Some v => Some v end) s.

(** [s.replace(0, pd.NA)] *)
Definition replace0 (s : list nfloat) : list nfloat :=
  map (fun x => if nzero x then None else x) s.

Definition series_add (a b : list nfloat) : list nfloat := map2 nadd a b.

(** [a / b].  A divisor holding a null is an object column and is divided by
    the interpreter, where a zero divisor raises; a float64 divisor is divided
    by numpy, where a zero divisor gives an infinity or NaN. *)
Definition truediv (a b : list nfloat) : result (list nfloat) :=
  if existsb isnull b && existsb nzero b then Raise ZeroDivisionError
  else Ok (map2 ndiv a b).

(** A column read as numbers. *)
Fixpoint as_floats (s : Series) : result (list nfloat) :=
  match s with
  | [] => Ok []
  | c :: s' =>
      match c with
      | NA => r <- as_floats s' ;; Ok (None :: r)
      | Flt x => r <- as_floats s' ;; Ok (Some x :: r)
      | Str _ => Raise TypeError
      | Time _ => Raise TypeError
      end
  end.

Definition numeric_col (df : DataFrame) (c : label) : result (list nfloat) :=
  match getitem df c with
  | [] => Raise KeyError
  | [s] => as_floats s
  | _ => Raise TypeError
  end.

Fixpoint eval (df : DataFrame) (e : expr) : result (list nfloat) :=
  match e with
  | Col c => numeric_col df c
  | Add a b => x <- eval df a ;; y <- eval df b ;; Ok (series_add x y)
  end.

(** [s.mean()] as pandas' [nanmean] computes it: nulls are masked and filled
    with 0, the total is divided by the number of unmasked entries, and a
    count of 0 gives NaN. *)
Fixpoint nansum (s : list nfloat) : nfloat :=
  match s with
  | [] => Some fzero
  | x :: s' =>
      nadd (match x with None => Some fzero | Some v => Some v end) (nansum s')
  end.

Definition count_notnull (s : list nfloat) : nat :=
  length s - length (filter isnull s).

Definition of_nat (n : nat) : float := Fin (inject_Z (Z.of_nat n)).

Definition nanmean (s : Series) : result nfloat :=
  v <- as_floats s ;;
  let count := count_notnull v in
  if Nat.eqb count 0 then Ok None
  else Ok (ndiv (nansum v) (Some (of_nat count))).

Fixpoint frame_mean (cols : list (label * Series))
  : result (list (label * nfloat)) :=
  match cols with
  | [] => Ok []
  | (c, s) :: cols' =>
      m <- nanmean s ;; rest <- frame_mean cols' ;; Ok ((c, m) :: rest)
  end.

(** [s.min()] and [s.max()] of a datetime column: nulls are skipped and an
    empty column gives NaT. *)
Fixpoint time_fold (f : Z -> Z -> Z) (s : Series) : option Z :=
  match s with
  | [] => None
  | Time t :: s' =>
      match time_fold f s' with
      | Some u => Some (f t u)
      | None => Some t
      end
  | _ :: s' => time_fold f s'
  end.

Definition ns_per_day : Z := 86400000000000.

(** [Timestamp.date()]; [NaT.date()] is NaT. *)
Definition date (t : option Z) : option Z :=
  match t with
  | Some v => Some (v / ns_per_day)%Z
  | None => None
  end.

(* ================================================================== *)
(** ** The analysis function *)
(* ================================================================== *)

Inductive script : Type := app1 | app2.

(** What [st.error] is called with. *)
Inductive st_error : Type :=
| MissingColumns (filename : option pystr) (missing : list label)
| FileError (filename : pystr) (e : exn).

(** What the page shows for an analysed file: the date range, the table
    [df[display_cols]] and the column means. *)
Record display : Type := {
  date_range : option Z * option Z;
  table : DataFrame;
  avg : list (label * nfloat)
}.

Inductive analysis : Type :=
| ReturnedNone (shown : st_error)
| Returned (shown : display) (df : DataFrame).

(** The text [plot_with_labels] writes beside a point. *)
Inductive label_text : Type :=
| Percent (y : float)
| TwoDecimals (q : Q)
| Whole (z : Z).

Record text_label : Type := {
  at_x : cell;
  at_y : float;
  text : label_text
}.

(** What a plotting call comes to: its labels, an exception of the kinds
    above, or the OverflowError of [int(float('inf'))]. *)
Inductive drawn (A : Type) : Type :=
| Labels (a : A)
| Raises (e : exn)
| RaisesOverflow.

Arguments Labels {A} a.
Arguments Raises {A} e.
Arguments RaisesOverflow {A}.

Section Pipeline.

Context {L : Library}.

(** [str.strip()] *)
Fixpoint lstrip (s : pystr) : pystr :=
  match s with
  | [] => []
  | c :: s' => if isspace c then lstrip s' else s
  end.

Definition strip (s : pystr) : pystr := rev (lstrip (rev (lstrip s))).

Definition strip_columns (df : DataFrame) : DataFrame :=
  {| index := index df;
     columns := map (fun p => (strip (fst p), snd p)) (columns df) |}.

Definition missing_cols (df : DataFrame) : list label :=
  filter (fun c => negb (has_column df c)) required_cols.

(** One value through [pd.to_datetime(..., format=..., errors='coerce')]. *)
Definition parse_cell (c : cell) : cell :=
  match strptime_coerce c with
  | Some t => Time t
  | None => NA
  end.

Definition to_datetime (sel : list Series) : result Series :=
  match sel with
  | [] => Raise KeyError
  | [s] => Ok (map parse_cell s)
  | _ => Raise ValueError
  end.

Definition to_numeric (sel : list Series) : result (list nfloat) :=
  match sel with
  | [] => Raise KeyError
  | [s] => Ok (map numeric_coerce s)
  | _ => Raise TypeError
  end.

(** [df.dropna(subset=[c])] *)
Definition dropna (df : DataFrame) (c : label) : result DataFrame :=
  match getitem df c with
  | [] => Raise KeyError
  | sel =>
      Ok (take_rows
            (filter (fun i => forallb (fun s => notna (nth i s NA)) sel)
                    (seq 0 (nrows df)))
            df)
  end.

Fixpoint time_keys (s : Series) : result (list (option Z)) :=
  match s with
  | [] => Ok []
  | c :: s' =>
      match c with
      | NA => r <- time_keys s' ;; Ok (None :: r)
      | Time t => r <- time_keys s' ;; Ok (Some t :: r)
      | Str _ => Raise TypeError
      | Flt _ => Raise TypeError
      end
  end.

Definition is_some {A : Type} (o : option A) : bool :=
  match o with
  | Some _ => true
  | None => false
  end.

Fixpoint somes {A : Type} (l : list (option A)) : list A :=
  match l with
  | [] => []
  | Some x :: l' => x :: somes l'
  | None :: l' => somes l'
  end.

(** pandas' [nargsort]: the non-null keys are sorted by [argsort], the nulls
    go last. *)
Definition nargsort (items : list (option Z)) : list nat :=
  let idx := seq 0 (length items) in
  let non_nan_idx := filter (fun i => is_some (nth i items None)) idx in
  let nan_idx := filter (fun i => negb (is_some (nth i items None))) idx in
  map (fun j => nth j non_nan_idx 0) (argsort (somes items)) ++ nan_idx.

(** [df.sort_values(by=c, ascending=True)] on a datetime column. *)
Definition sort_values (df : DataFrame) (c : label) : result DataFrame :=
  match getitem df c with
  | [] => Raise KeyError
  | [s] => ks <- time_keys s ;; Ok (take_rows (nargsort ks) df)
  | _ => Raise ValueError
  end.

Definition sequence_numbers (df : DataFrame) : Series :=
  map (fun i => Flt (of_nat (i + 1))) (index df).

(** Date parsing, filtering, sorting and numbering. *)
Definition sanitize (df : DataFrame) : result DataFrame :=
  ts <- to_datetime (getitem df c_time) ;;
  let df := setitem df c_time ts in
  df <- dropna df c_time ;;
  df <- sort_values df c_time ;;
  let df := reset_index df in
  insert0 df c_seq (sequence_numbers df).

Definition time_range (df : DataFrame) : result (option Z * option Z) :=
  match getitem df c_time with
  | [] => Raise KeyError
  | [s] => Ok (date (time_fold Z.min s), date (time_fold Z.max s))
  | _ => Raise TypeError
  end.

Fixpoint coerce_numeric (cols : list label) (df : DataFrame)
  : result DataFrame :=
  match cols with
  | [] => Ok df
  | c :: cols' =>
      s <- to_numeric (getitem df c) ;;
      coerce_numeric cols' (setitem df c (map of_nfloat (fillna0 s)))
  end.

Definition assign_metric (df : DataFrame) (m : metric) : result DataFrame :=
  n <- eval df (numerator m) ;;
  d <- eval df (denominator m) ;;
  r <- truediv n (replace0 d) ;;
  Ok (setitem df (target m) (map of_nfloat r)).

Fixpoint assign_metrics (ms : list metric) (df : DataFrame)
  : result DataFrame :=
  match ms with
  | [] => Ok df
  | m :: ms' => df' <- assign_metric df m ;; assign_metrics ms' df'
  end.

(** Everything up to and including the numeric coercion: the sanitized
    frame with its date range. *)
Definition prepare (df : DataFrame)
  : result ((option Z * option Z) * DataFrame) :=
  df <- sanitize df ;;
  range <- time_range df ;;
  df <- coerce_numeric numeric_cols df ;;
  Ok (range, df).

(** [df[avg_cols].mean()] *)
Definition mean (df : DataFrame) (cs : list label)
  : result (list (label * nfloat)) :=
  sel <- select df cs ;; frame_mean (columns sel).

Definition normalize (df : DataFrame) : DataFrame :=
  rename_columns (strip_columns df).

Definition analyze_and_display (a : script) (df : DataFrame) (filename : pystr)
  : result analysis :=
  let df := normalize df in
  match missing_cols df with
  | _ :: _ =>
      Ok (ReturnedNone
            (MissingColumns (match a with
                             | app1 => Some filename
                             | app2 => None
                             end)
                            (missing_cols df)))
  | [] =>
      p <- prepare df ;;
      df <- assign_metrics metrics (snd p) ;;
      tbl <- select df display_cols ;;
      means <- mean df avg_cols ;;
      Ok (Returned {| date_range := fst p; table := tbl; avg := means |} df)
  end.

(** *** The line charts of [app1.py]

    For each column [plot_with_labels] first draws the line with
    [ax.plot(df["序号"], df[col], ...)] and then writes a text beside every
    point whose value is not null: a percentage when the column name holds
    [%] or [率], two decimals when the value lies strictly between 0 and 1,
    and [int(y)] otherwise.  Of the drawing, what is modelled is whether
    [ax.plot] accepts the column; of the labels, their position and text. *)

(** [ch in col] for a one-character string [ch]. *)
Definition holds (ch : string) (col : pystr) : bool :=
  existsb (N.eqb (hd 0%N (utf8 ch))) col.

Definition is_rate_column (col : label) : bool :=
  holds "%" col || holds "率" col.

Definition Qlt_bool (x y : Q) : bool := negb (Qle_bool y x).

(** [int(y)]: truncation towards zero. *)
Definition int_of (q : Q) : Z := Z.quot (Qnum q) (Zpos (Qden q)).

Definition label_of (col : label) (y : float) : drawn label_text :=
  if is_rate_column col then Labels (Percent y)
  else
    match y with
    | Fin q =>
        if Qlt_bool q 1 && Qlt_bool 0 q then Labels (TwoDecimals q)
        else Labels (Whole (int_of q))
    | Inf _ => RaisesOverflow
    end.

Fixpoint point_labels (col : label) (points : list (cell * nfloat))
  : drawn (list text_label) :=
  match points with
  | [] => Labels []
  | (x, None) :: points' => point_labels col points'
  | (x, Some y) :: points' =>
      match label_of col y with
      | Labels t =>
          match point_labels col points' with
          | Labels l => Labels ({| at_x := x; at_y := y; text := t |} :: l)
          | Raises e => Raises e
          | RaisesOverflow => RaisesOverflow
          end
      | Raises e => Raises e
      | RaisesOverflow => RaisesOverflow
      end
  end.

(** Whether the expression [e] has a zero in some row of [df]. *)
Definition zero_in (df : DataFrame) (e : expr) : bool :=
  match eval df e with
  | Ok s => existsb nzero s
  | Raise _ => false
  end.

(** Whether the column [col] of the processed frame holds pd.NA.  A frame
    here carries one null and no dtype, so this is read off where the scripts
    put pd.NA into the frame: only in the seven metric assignments, where
    [replace(0, pd.NA)] sets it at each zero of the denominator, makes the
    denominator an object column, and the quotient holds pd.NA in the same
    rows.  Every other null of the frame is a float NaN.  The operands of the
    metrics are not overwritten afterwards, so the denominators can be read
    in the processed frame. *)
Definition holds_pd_NA (df : DataFrame) (col : label) : bool :=
  existsb (fun m => str_eqb (target m) col && zero_in df (denominator m))
          metrics.

(** One pass of the loop over [cols].  [ax.plot] hands the column to numpy
    as an array of floats: [float(pd.NA)] raises TypeError, while NaN and the
    infinities are floats and are accepted.  The labels follow. *)
Definition column_labels (df : DataFrame) (col : label)
  : drawn (list text_label) :=
  match getitem df c_seq with
  | [] => Raises KeyError
  | [xs] =>
      match numeric_col df col with
      | Ok ys =>
          if holds_pd_NA df col then Raises TypeError
          else point_labels col (combine xs ys)
      | Raise e => Raises e
      end
  | _ => Raises TypeError
  end.

Fixpoint plot_with_labels (cols : list label) (df : DataFrame)
  : drawn (list text_label) :=
  match cols with
  | [] => Labels []
  | col :: cols' =>
      match column_labels df col with
      | Labels l =>
          match plot_with_labels cols' df with
          | Labels l' => Labels (l ++ l')
          | Raises e => Raises e
          | RaisesOverflow => RaisesOverflow
          end
      | Raises e => Raises e
      | RaisesOverflow => RaisesOverflow
      end
  end.

(** The two charts of [app1.py]. *)
Definition trend_columns : list label :=
  [ c_like_rate; c_favorite_rate; c_engagement ].

Definition base_columns : list label :=
  [ c_exposure; c_views; c_likes; c_favorites; c_shares ].

(* ================================================================== *)
(** ** The upload loops and the workbook *)
(* ================================================================== *)

(** An uploaded file: its name and what [pd.read_excel(file, header=1)]
    gives for it. *)
Record UploadedFile : Type := {
  name : pystr;
  read_excel : result DataFrame
}.

(** [processed_dfs]: a Python dict keeps its keys in insertion order, and an
    assignment to a key already present replaces the value where it is. *)
Definition dict := list (pystr * DataFrame).

Fixpoint dict_set (d : dict) (k : pystr) (v : DataFrame) : dict :=
  match d with
  | [] => [(k, v)]
  | (k', v') :: d' =>
      if str_eqb k' k then (k', v) :: d' else (k', v') :: dict_set d' k v
  end.

Fixpoint dict_get (d : dict) (k : pystr) : option DataFrame :=
  match d with
  | [] => None
  | (k', v') :: d' => if str_eqb k' k then Some v' else dict_get d' k
  end.

(** [''.join(e for e in name if e.isalnum())[:31]] *)
Definition sheet_name (filename : pystr) : pystr :=
  firstn 31 (filter isalnum filename).

Record page : Type := {
  processed_dfs : dict;
  errors : list st_error;
  reports : list (pystr * display)
}.

Definition empty_page : page :=
  {| processed_dfs := []; errors := []; reports := [] |}.

Definition process (a : script) (f : UploadedFile) : result analysis :=
  df_raw <- read_excel f ;;
  analyze_and_display a df_raw (name f).

Definition record_analysis (p : page) (f : UploadedFile) (r : analysis) : page :=
  match r with
  | Returned shown df =>
      {| processed_dfs := dict_set (processed_dfs p) (sheet_name (name f)) df;
         errors := errors p;
         reports := reports p ++ [(name f, shown)] |}
  | ReturnedNone e =>
      {| processed_dfs := processed_dfs p;
         errors := errors p ++ [e];
         reports := reports p |}
  end.

(** [app1.py]: the loop body sits in [try ... except Exception]. *)
Definition app1_step (p : page) (f : UploadedFile) : page :=
  match process app1 f with
  | Ok r => record_analysis p f r
  | Raise e =>
      {| processed_dfs := processed_dfs p;
         errors := errors p ++ [FileError (name f) e];
         reports := reports p |}
  end.

Definition app1_loop (uploaded_files : list UploadedFile) : page :=
  fold_left app1_step uploaded_files empty_page.

(** [app2.py]: the loop body is unguarded, an exception ends the script. *)
Definition app2_step (p : page) (f : UploadedFile) : result page :=
  r <- process app2 f ;; Ok (record_analysis p f r).

Fixpoint app2_from (p : page) (uploaded_files : list UploadedFile)
  : result page :=
  match uploaded_files with
  | [] => Ok p
  | f :: rest => p' <- app2_step p f ;; app2_from p' rest
  end.

Definition app2_loop (uploaded_files : list UploadedFile) : result page :=
  app2_from empty_page uploaded_files.

(** *** The rows that survive, and where they end up

    Stated on the raw publish-time column of the input: the positions whose
    value parses, and those positions in the order the sort leaves them. *)

Definition retained (raw : Series) : list nat :=
  filter (fun i => notna (parse_cell (nth i raw NA))) (seq 0 (length raw)).

Definition time_of (c : cell) : Z :=
  match strptime_coerce c with
  | Some t => t
  | None => 0%Z
  end.

Definition row_order (raw : Series) : list nat :=
  let keep := retained raw in
  map (fun j => nth j keep 0)
      (argsort (map (fun i => time_of (nth i raw NA)) keep)).

(** What a numeric column holds for a raw value. *)
Definition coerce_cell (c : cell) : cell :=
  match numeric_coerce c with
  | Some v => Flt v
  | None => Flt fzero
  end.

(** What the output holds for a raw value of the input column [l]. *)
Definition cell_view (l : label) (c : cell) : cell :=
  if str_eqb l c_time then parse_cell c
  else if mem l numeric_cols then coerce_cell c
  else c.

Definition sequence_column (n : nat) : Series :=
  map (fun i => Flt (of_nat (i + 1))) (seq 0 n).

(** A frame rebuilt from the input frame [df]: the sequence column first,
    then every input column with its rows taken in [order] and its values
    seen through [view]. *)
Definition rebuilt (view : label -> cell -> cell) (order : list nat)
  (df : DataFrame) : DataFrame :=
  {| index := seq 0 (length order);
     columns := (c_seq, sequence_column (length order))
                :: map (fun p => (fst p, map (view (fst p)) (take order (snd p))))
                       (columns df) |}.

Definition time_view (l : label) (c : cell) : cell :=
  if str_eqb l c_time then parse_cell c else c.

(** The columns an expression reads. *)
Fixpoint expr_cols (e : expr) : list label :=
  match e with
  | Col c => [c]
  | Add a b => expr_cols a ++ expr_cols b
  end.

(** The column a metric assignment stores. *)
Definition ratio (num den : list nfloat) : Series :=
  map of_nfloat (map2 ndiv num (replace0 den)).

(** The labels of a frame after [df[c] = ...]. *)
Definition add_label (ls : list label) (c : label) : list label :=
  if mem c ls then ls else ls ++ [c].

(** The spec's reading of a column mean: the arithmetic mean of the entries
    that are not null, and null when there is no such entry. *)
Fixpoint total (xs : list float) : nfloat :=
  match xs with
  | [] => Some fzero
  | x :: xs' => nadd (Some x) (total xs')
  end.

Definition mean_of_non_null (v : list nfloat) : nfloat :=
  match somes v with
  | [] => None
  | xs => ndiv (total xs) (Some (of_nat (length xs)))
  end.

(** *** Notions the statements below use *)

Definition parsed_times (raw : Series) : Series :=
  map parse_cell (take (row_order raw) raw).

Definition coerce_view (cs : list label) (l : label) (x : Series) : Series :=
  if mem l cs then map coerce_cell x else x.

Definition coerce_float (c : cell) : float :=
  match numeric_coerce c with
  | Some v => v
  | None => fzero
  end.

(** The raw numeric columns hold numbers only, one per row. *)
Definition numeric_ready (d : DataFrame) : Prop :=
  forall c, In c numeric_cols ->
    exists v : list float, getitem d c = [map Flt v] /\ length v = nrows d.

Definition metric_ok (m : metric) : Prop :=
  (forall c, In c (expr_cols (numerator m) ++ expr_cols (denominator m)) ->
             In c numeric_cols)
  /\ ~ In (target m) numeric_cols.

Definition mean_entry (col : label * Series) (m : label * nfloat) : Prop :=
  fst m = fst col /\
  exists v, as_floats (snd col) = Ok v /\ snd m = mean_of_non_null v.

(** Every column is as long as the index. *)
Definition rectangular (df : DataFrame) : bool :=
  forallb (fun p => Nat.eqb (length (snd p)) (nrows df)) (columns df).

Definition unique (df : DataFrame) (c : label) : bool :=
  Nat.eqb (length (getitem df c)) 1.

(** A sheet as [read_excel] gives it and as the analysis can take it: a
    rectangular frame in which, once the labels are normalised, every
    required label names exactly one column and none is the sequence
    label. *)
Definition well_formed (df : DataFrame) : bool :=
  rectangular df
  && forallb (unique (normalize df)) required_cols
  && negb (has_column (normalize df) c_seq).

Definition succeeds {A : Type} (r : result A) : bool :=
  match r with
  | Ok _ => true
  | Raise _ => false
  end.

(** The frame the file [f] leaves under the key [k], if it leaves one. *)
Definition writes (a : script) (k : pystr) (f : UploadedFile)
  : option DataFrame :=
  if str_eqb (sheet_name (name f)) k then
    match process a f with
    | Ok (Returned _ df) => Some df
    | _ => None
    end
  else None.

(** The frame of the last file, in upload order, that writes the key. *)
Fixpoint last_write (a : script) (k : pystr) (files : list UploadedFile)
  : option DataFrame :=
  match files with
  | [] => None
  | f :: rest =>
      match last_write a k rest with
      | Some d => Some d
      | None => writes a k f
      end
  end.

(** The page a script ends with, when it reaches the end of the loop. *)
Definition loop_result (a : script) (files : list UploadedFile)
  : option page :=
  match a with
  | app1 => Some (app1_loop files)
  | app2 =>
      match app2_loop files with
      | Ok p => Some p
      | Raise _ => None
      end
  end.

(** *** Further notions *)

(** No canonical label holds a character [str.strip] would remove. *)
Definition canonical_clean : bool :=
  forallb (fun kv => negb (existsb isspace (snd kv))) rename_map.

(** The columns the analysis reads as one Series each, and no sequence
    column yet: what it takes for the analysis not to raise. *)
Definition analysable (df : DataFrame) : bool :=
  forallb (unique df) (c_time :: numeric_cols) && negb (has_column df c_seq).

(** No derived label is carried by more than one column. *)
Definition plain (df : DataFrame) : bool :=
  forallb (fun m => Nat.leb (length (getitem df (target m))) 1) metrics.

(** An expression at one row. *)
Fixpoint eval_row (value : label -> nfloat) (e : expr) : nfloat :=
  match e with
  | Col c => value c
  | Add a b => nadd (eval_row value a) (eval_row value b)
  end.

(** The number a frame holds at row [i] of its only column [c]. *)
Definition number_at (df : DataFrame) (i : nat) (c : label) : nfloat :=
  match getitem df c with
  | [s] =>
      match nth i s NA with
      | Flt x => Some x
      | _ => None
      end
  | _ => None
  end.

(** The ratio of a row: null when the denominator is zero or null. *)
Definition row_ratio (df : DataFrame) (i : nat) (m : metric) : nfloat :=
  let d := eval_row (number_at df i) (denominator m) in
  ndiv (eval_row (number_at df i) (numerator m)) (if nzero d then None else d).

(** The files of an upload that are returned, and what they are filed
    under. *)
Definition returned (a : script) (f : UploadedFile) : bool :=
  match process a f with
  | Ok (Returned _ _) => true
  | _ => false
  end.

Definition raises (a : script) (f : UploadedFile) : bool :=
  negb (succeeds (process a f)).




(** The sheet names of the returned files, in upload order. *)
Definition returned_names (a : script) (files : list UploadedFile)
  : list pystr :=
  map (fun f => sheet_name (name f)) (filter (returned a) files).

End Pipeline.




(* ================================================================== *)
(** ** A reference instance of the library *)
(* ================================================================== *)

(** The instance used to run the pipeline on concrete files.  It reads the
    strings that matter to the scripts as Python and pandas read them:
    [str.isspace], [str.isalnum] on ASCII and CJK ideographs, the publish-time
    format [%Y年%m月%d日%H时%M分%S秒] and plain decimal numerals.  Sorting
    is by insertion. *)
Module Reference.

Definition between (lo hi c : N) : bool := ((lo <=? c) && (c <=? hi))%N.

Definition isspace (c : N) : bool :=
  between 9 13 c || between 28 32 c || N.eqb c 133 || N.eqb c 160
  || N.eqb c 5760 || between 8192 8202 c || between 8232 8233 c
  || N.eqb c 8239 || N.eqb c 8287 || N.eqb c 12288.

Definition isalnum (c : N) : bool :=
  between 48 57 c || between 65 90 c || between 97 122 c
  || between 19968 40959 c.

Definition digit (c : N) : option Z :=
  if between 48 57 c then Some (Z.of_N c - 48)%Z else None.

Definition cp (s : string) : N := hd 0%N (utf8 s).

(** One or two digits up to the separator. *)
Definition field (sep : N) (s : pystr) : option (Z * pystr) :=
  match s with
  | a :: b :: rest =>
      match digit a with
      | None => None
      | Some x =>
          if N.eqb b sep then Some (x, rest)
          else
            match digit b, rest with
            | Some y, c :: rest' =>
                if N.eqb c sep then Some (10 * x + y, rest')%Z else None
            | _, _ => None
            end
      end
  | _ => None
  end.

Definition year_field (sep : N) (s : pystr) : option (Z * pystr) :=
  match s with
  | a :: b :: c :: d :: e :: rest =>
      match digit a, digit b, digit c, digit d with
      | Some x, Some y, Some z, Some w =>
          if N.eqb e sep
          then Some (1000 * x + 100 * y + 10 * z + w, rest)%Z
          else None
      | _, _, _, _ => None
      end
  | _ => None
  end.

Definition leap (y : Z) : bool :=
  ((y mod 4 =? 0) && (negb (y mod 100 =? 0) || (y mod 400 =? 0)))%Z.

Definition days_in_month (y m : Z) : Z :=
  if (m =? 2)%Z then (if leap y then 29 else 28)%Z
  else if ((m =? 4) || (m =? 6) || (m =? 9) || (m =? 11))%Z then 30%Z
  else 31%Z.

Definition days_from_civil (y m d : Z) : Z :=
  let y' := (if m <=? 2 then y - 1 else y)%Z in
  let era := (y' / 400)%Z in
  let yoe := (y' - era * 400)%Z in
  let doy := ((153 * (if m <=? 2 then m + 9 else m - 3) + 2) / 5 + d - 1)%Z in
  let doe := (yoe * 365 + yoe / 4 - yoe / 100 + doy)%Z in
  (era * 146097 + doe - 719468)%Z.

Definition in_range (lo hi v : Z) : bool := ((lo <=? v) && (v <=? hi))%Z.

Definition strptime (s : pystr) : option Z :=
  match year_field (cp "年") s with
  | None => None
  | Some (Y, s1) =>
  match field (cp "月") s1 with
  | None => None
  | Some (m, s2) =>
  match field (cp "日") s2 with
  | None => None
  | Some (d, s3) =>
  match field (cp "时") s3 with
  | None => None
  | Some (H, s4) =>
  match field (cp "分") s4 with
  | None => None
  | Some (M, s5) =>
  match field (cp "秒") s5 with
  | Some (sec, []) =>
      if in_range 1678 2261 Y && in_range 1 12 m
         && in_range 1 (days_in_month Y m) d
         && in_range 0 23 H && in_range 0 59 M && in_range 0 59 sec
      then Some ((((days_from_civil Y m d * 24 + H) * 60 + M) * 60 + sec)
                 * 1000000000)%Z
      else None
  | _ => None
  end end end end end end.

Definition strptime_coerce (c : cell) : option Z :=
  match c with
  | Str s => strptime s
  | Time t => Some t
  | _ => None
  end.

Fixpoint digits (s : pystr) (acc : Z) (n : nat) : Z * nat * pystr :=
  match s with
  | [] => (acc, n, [])
  | c :: s' =>
      match digit c with
      | Some v => digits s' (10 * acc + v)%Z (S n)
      | None => (acc, n, s)
      end
  end.

Definition unsigned_numeral (s : pystr) : option Q :=
  match digits s 0%Z 0 with
  | (_, O, _) => None
  | (v, _, []) => Some (inject_Z v)
  | (v, _, c :: s') =>
      if N.eqb c 46 then
        match digits s' 0%Z 0 with
        | (_, O, _) => None
        | (w, k, []) =>
            Some (inject_Z v + inject_Z w / inject_Z (10 ^ Z.of_nat k))%Q
        | _ => None
        end
      else None
  end.

Definition numeral (s : pystr) : option Q :=
  match s with
  | c :: s' =>
      if N.eqb c 45 then option_map Qopp (unsigned_numeral s')
      else if N.eqb c 43 then unsigned_numeral s'
      else unsigned_numeral s
  | [] => None
  end.

Definition numeric_coerce (c : cell) : nfloat :=
  match c with
  | Str s => option_map Fin (numeral s)
  | Flt x => Some x
  | _ => None
  end.

(** Insertion into a list of positions ordered by key; [before] decides
    whether the new position goes in front of the one met. *)
Fixpoint insert_by (before : Z -> Z -> bool) (ks : list Z) (i : nat)
  (l : list nat) : list nat :=
  match l with
  | [] => [i]
  | j :: l' =>
      if before (nth i ks 0%Z) (nth j ks 0%Z) then i :: l
      else j :: insert_by before ks i l'
  end.

Definition argsort_by (before : Z -> Z -> bool) (ks : list Z) : list nat :=
  fold_right (insert_by before ks) [] (seq 0 (length ks)).

End Reference.

(* ================================================================== *)
(** ** numpy's quicksort *)
(* ================================================================== *)

(** [sort_values] reaches numpy through pandas' [nargsort], as
    [non_nans.argsort(kind='quicksort')] on the datetime64 keys.  For that
    dtype numpy runs [aquicksort_<npy::datetime_tag>] of
    [numpy/_core/src/npysort/quicksort.cpp], an introsort on the array
    [tosort] of positions: a range of more than 17 entries is partitioned
    around the median of its first, middle and last key, a smaller range is
    sorted by insertion, and once [2 * floor(log2 n)] nested partitions are
    used up heapsort takes over.  The functions below follow that routine
    statement by statement; its heapsort branch is not modelled and gives
    [None]. *)
Module Numpy.

Definition SMALL_QUICKSORT : nat := 16.

Section Keys.

Variable v : list Z.

(** [v[*p]] *)
Definition key (tosort : list nat) (p : nat) : Z :=
  nth (nth p tosort 0) v 0%Z.

(** [*p = x] *)
Fixpoint store (tosort : list nat) (p x : nat) : list nat :=
  match tosort, p with
  | [], _ => []
  | _ :: rest, 0 => x :: rest
  | y :: rest, S p' => y :: store rest p' x
  end.

(** [INTP_SWAP( *p, *q )] *)
Definition swap (tosort : list nat) (p q : nat) : list nat :=
  store (store tosort p (nth q tosort 0)) q (nth p tosort 0).

(** [if (LT(v[*p], v[*q])) INTP_SWAP( *p, *q );] *)
Definition swap_if_less (tosort : list nat) (p q : nat) : list nat :=
  if (key tosort p <? key tosort q)%Z then swap tosort p q else tosort.

(** [do { ++pi; } while (LT(v[*pi], vp));], entered after the first [++pi]. *)
Fixpoint scan_up (fuel : nat) (tosort : list nat) (vp : Z) (pi : nat) : nat :=
  match fuel with
  | 0 => pi
  | S fuel' =>
      if (key tosort pi <? vp)%Z then scan_up fuel' tosort vp (S pi) else pi
  end.

(** [do { --pj; } while (LT(vp, v[*pj]));], entered after the first [--pj]. *)
Fixpoint scan_down (fuel : nat) (tosort : list nat) (vp : Z) (pj : nat)
  : nat :=
  match fuel with
  | 0 => pj
  | S fuel' =>
      if (vp <? key tosort pj)%Z then scan_down fuel' tosort vp (pj - 1)
      else pj
  end.

(** [for (;;) { scan up; scan down; if (pi >= pj) break;
    INTP_SWAP( *pi, *pj ); }] *)
Fixpoint exchange (fuel : nat) (tosort : list nat) (vp : Z) (pi pj : nat)
  : list nat * nat :=
  match fuel with
  | 0 => (tosort, pi)
  | S fuel' =>
      let pi' := scan_up (length tosort) tosort vp (S pi) in
      let pj' := scan_down (length tosort) tosort vp (pj - 1) in
      if pj' <=? pi' then (tosort, pi')
      else exchange fuel' (swap tosort pi' pj') vp pi' pj'
  end.

(** One partition of the range [pl..pr]: the median of three goes to
    [pr - 1], the range is exchanged around it, and it is put at [pi]. *)
Definition partition (tosort : list nat) (pl pr : nat) : list nat * nat :=
  let pm := pl + Nat.div2 (pr - pl) in
  let tosort := swap_if_less tosort pm pl in
  let tosort := swap_if_less tosort pr pm in
  let tosort := swap_if_less tosort pm pl in
  let vp := key tosort pm in
  let pj := pr - 1 in
  let tosort := swap tosort pm pj in
  let '(tosort, pi) := exchange (length tosort) tosort vp pl pj in
  (swap tosort pi (pr - 1), pi).

(** [while (pj > pl && LT(vp, v[*pk])) { *pj-- = *pk--; }] with
    [pk = pj - 1] *)
Fixpoint shift (fuel : nat) (tosort : list nat) (pl : nat) (vp : Z)
  (pj : nat) : list nat * nat :=
  match fuel with
  | 0 => (tosort, pj)
  | S fuel' =>
      if (pl <? pj) && (vp <? key tosort (pj - 1))%Z
      then shift fuel' (store tosort pj (nth (pj - 1) tosort 0)) pl vp
                 (pj - 1)
      else (tosort, pj)
  end.

(** The body of the insertion loop for one [pi]. *)
Definition place (pl : nat) (tosort : list nat) (pi : nat) : list nat :=
  let vi := nth pi tosort 0 in
  let '(tosort', pj) := shift (length tosort) tosort pl (nth vi v 0%Z) pi in
  store tosort' pj vi.

(** [for (pi = pl + 1; pi <= pr; ++pi) ...] *)
Definition insertion (tosort : list nat) (pl pr : nat) : list nat :=
  fold_left (place pl) (seq (S pl) (pr - pl)) tosort.

(** [while ((pr - pl) > SMALL_QUICKSORT) ...]: partition, push the larger
    part with the depth left, go on with the smaller. *)
Fixpoint partitions (fuel : nat) (tosort : list nat) (pl pr : nat)
  (cdepth : Z) (stack : list (nat * nat * Z))
  : list nat * nat * nat * list (nat * nat * Z) :=
  match fuel with
  | 0 => (tosort, pl, pr, stack)
  | S fuel' =>
      if SMALL_QUICKSORT <? pr - pl then
        let '(tosort', pi) := partition tosort pl pr in
        let cdepth' := (cdepth - 1)%Z in
        if pi - pl <? pr - pi
        then partitions fuel' tosort' pl (pi - 1) cdepth'
                        ((pi + 1, pr, cdepth') :: stack)
        else partitions fuel' tosort' (pi + 1) pr cdepth'
                        ((pl, pi - 1, cdepth') :: stack)
      else (tosort, pl, pr, stack)
  end.

(** The outer [while (1)]: the depth check, the partitions, the insertion
    sort of what is left, and the next range from the stack. *)
Fixpoint sort (fuel : nat) (tosort : list nat) (pl pr : nat) (cdepth : Z)
  (stack : list (nat * nat * Z)) : option (list nat) :=
  match fuel with
  | 0 => None
  | S fuel' =>
      if (cdepth <? 0)%Z then None
      else
        let '(tosort1, pl1, pr1, stack1) :=
          partitions (length tosort) tosort pl pr cdepth stack in
        let tosort2 := insertion tosort1 pl1 pr1 in
        match stack1 with
        | [] => Some tosort2
        | (l, r, d) :: rest => sort fuel' tosort2 l r d rest
        end
  end.

End Keys.

(** [npy_get_msb] *)
Definition get_msb (num : nat) : Z := Z.log2 (Z.of_nat num).

(** [argsort] fills [tosort] with [0 .. num-1] and sorts it. *)
Definition aquicksort (v : list Z) : option (list nat) :=
  let num := length v in
  sort v (S num) (seq 0 num) 0 (num - 1) (2 * get_msb num)%Z [].

(** What [aquicksort] has to return: the positions, each once, in ascending
    key order. *)
Fixpoint ascending (l : list Z) : bool :=
  match l with
  | x :: (y :: _) as rest => (x <=? y)%Z && ascending rest
  | _ => true
  end.

Fixpoint distinct (l : list nat) : bool :=
  match l with
  | [] => true
  | x :: rest => negb (existsb (Nat.eqb x) rest) && distinct rest
  end.

Definition sorts (v : list Z) (r : list nat) : bool :=
  (length v <=? length r)
  && forallb (fun i => i <? length v) r
  && distinct r
  && ascending (map (fun i => nth i v 0%Z) r).

End Numpy.

(* ================================================================== *)
(** ** The reference sorts meet the library's contract *)
(* ================================================================== *)

Section InsertionSort.

Variable before : Z -> Z -> bool.
Variable ks : list Z.

Hypothesis before_le : forall a b, before a b = true -> (a <= b)%Z.
Hypothesis before_ge : forall a b, before a b = false -> (b <= a)%Z.

Let key (i : nat) : Z := nth i ks 0%Z.

Lemma insert_by_perm (i : nat) (l : list nat) :
  Permutation (Reference.insert_by before ks i l) (i :: l).
Proof.
  induction l as [|j l IH]; simpl; [apply Permutation_refl|].
  destruct (before _ _); [apply Permutation_refl|].
  apply perm_trans with (j :: i :: l); [now apply perm_skip | apply perm_swap].
Qed.

Lemma insertion_perm (xs : list nat) :
  Permutation (fold_right (Reference.insert_by before ks) [] xs) xs.
Proof.
  induction xs as [|i xs IH]; simpl; [apply Permutation_refl|].
  apply perm_trans with (i :: fold_right (Reference.insert_by before ks) [] xs).
  - apply insert_by_perm.
  - now apply perm_skip.
Qed.

Lemma insert_by_hd (a : Z) (i : nat) (l : list nat) :
  (a <= key i)%Z -> HdRel Z.le a (map key l) ->
  HdRel Z.le a (map key (Reference.insert_by before ks i l)).
Proof.
  intros Ha H. destruct l as [|j l]; simpl.
  - now constructor.
  - destruct (before _ _); simpl; constructor; [assumption|].
    now inversion H.
Qed.

Lemma insert_by_sorted (i : nat) (l : list nat) :
  Sorted Z.le (map key l) ->
  Sorted Z.le (map key (Reference.insert_by before ks i l)).
Proof.
  induction l as [|j l IH]; intros H; simpl.
  - repeat constructor.
  - destruct (before (nth i ks 0%Z) (nth j ks 0%Z)) eqn:E; simpl.
    + constructor; [assumption|]. constructor. now apply before_le.
    + inversion H as [|? ? Hs Hh]; subst. constructor; [now apply IH|].
      apply insert_by_hd; [now apply before_ge | assumption].
Qed.

Lemma insertion_sorted (xs : list nat) :
  Sorted Z.le (map key (fold_right (Reference.insert_by before ks) [] xs)).
Proof.
  induction xs as [|i xs IH]; simpl; [constructor|].
  now apply insert_by_sorted.
Qed.

End InsertionSort.

Lemma argsort_by_perm before ks :
  Permutation (Reference.argsort_by before ks) (seq 0 (length ks)).
Proof. apply insertion_perm. Qed.

Lemma leb_sorted ks :
  Sorted Z.le (map (fun i => nth i ks 0%Z) (Reference.argsort_by Z.leb ks)).
Proof.
  apply insertion_sorted; intros a b H.
  - now apply Z.leb_le.
  - apply Z.leb_gt in H. lia.
Qed.

(** The reference library, with a sort that keeps equal keys in input
    order. *)
Definition reference : Library :=
  {| isspace := Reference.isspace;
     isalnum := Reference.isalnum;
     strptime_coerce := Reference.strptime_coerce;
     numeric_coerce := Reference.numeric_coerce;
     argsort := Reference.argsort_by Z.leb;
     argsort_perm := argsort_by_perm Z.leb;
     argsort_sorted := leb_sorted |}.

Lemma ascending_sorted (l : list Z) :
  Numpy.ascending l = true -> Sorted Z.le l.
Proof.
  induction l as [|x [|y l] IH]; intros H.
  - constructor.
  - repeat constructor.
  - cbn [Numpy.ascending] in H. apply andb_true_iff in H as [Hxy Hr].
    constructor; [now apply IH|]. constructor. now apply Z.leb_le.
Qed.

Lemma distinct_NoDup (l : list nat) : Numpy.distinct l = true -> NoDup l.
Proof.
  induction l as [|x l IH]; intros H; [constructor|].
  cbn [Numpy.distinct] in H. apply andb_true_iff in H as [Hx Hl].
  constructor; [|now apply IH]. intros Hin.
  apply negb_true_iff in Hx.
  assert (K : existsb (Nat.eqb x) l = true).
  { apply existsb_exists. exists x. split; [assumption | apply Nat.eqb_refl]. }
  congruence.
Qed.

Lemma sorts_sound (v : list Z) (r : list nat) :
  Numpy.sorts v r = true ->
  Permutation r (seq 0 (length v)) /\
  Sorted Z.le (map (fun i => nth i v 0%Z) r).
Proof.
  unfold Numpy.sorts. intros H.
  apply andb_true_iff in H as [H Ha]. apply andb_true_iff in H as [H Hd].
  apply andb_true_iff in H as [Hl Hb].
  split; [|now apply ascending_sorted].
  apply NoDup_Permutation_bis.
  - now apply distinct_NoDup.
  - rewrite length_seq. now apply Nat.leb_le.
  - intros i Hi. rewrite forallb_forall in Hb.
    apply in_seq. specialize (Hb i Hi). apply Nat.ltb_lt in Hb. lia.
Qed.

(** numpy's [argsort(kind='quicksort')] on datetime64 keys.  The result of
    the routine is checked to be what a sort returns, which stands in for a
    correctness proof of the routine; where the check fails or the routine
    hands over to heapsort the positions are those of the reference sort. *)
Definition numpy_argsort (ks : list Z) : list nat :=
  match Numpy.aquicksort ks with
  | Some r => if Numpy.sorts ks r then r else Reference.argsort_by Z.leb ks
  | None => Reference.argsort_by Z.leb ks
  end.

Lemma numpy_argsort_perm ks :
  Permutation (numpy_argsort ks) (seq 0 (length ks)).
Proof.
  unfold numpy_argsort.
  destruct (Numpy.aquicksort ks) as [r|]; [|apply argsort_by_perm].
  destruct (Numpy.sorts ks r) eqn:E; [|apply argsort_by_perm].
  now apply sorts_sound.
Qed.

Lemma numpy_argsort_sorted ks :
  Sorted Z.le (map (fun i => nth i ks 0%Z) (numpy_argsort ks)).
Proof.
  unfold numpy_argsort.
  destruct (Numpy.aquicksort ks) as [r|]; [|apply leb_sorted].
  destruct (Numpy.sorts ks r) eqn:E; [|apply leb_sorted].
  now apply sorts_sound.
Qed.

(** The reference library with numpy's own sort. *)
Definition numpy : Library :=
  {| isspace := Reference.isspace;
     isalnum := Reference.isalnum;
     strptime_coerce := Reference.strptime_coerce;
     numeric_coerce := Reference.numeric_coerce;
     argsort := numpy_argsort;
     argsort_perm := numpy_argsort_perm;
     argsort_sorted := numpy_argsort_sorted |}.

(* ================================================================== *)
(** ** Sample files *)
(* ================================================================== *)

(** The frame [pd.read_excel] builds from a sheet: the columns under a
    fresh [RangeIndex]. *)
Definition frame (cols : list (pystr * Series)) : DataFrame :=
  {| index := seq 0 (match cols with
                     | [] => 0
                     | c :: _ => length (snd c)
                     end);
     columns := cols |}.

Definition num (z : Z) : cell := Flt (Fin (inject_Z z)).
Definition txt (s : string) : cell := Str (utf8 s).

(** An export with synonym headers and a padded label; row 2 has an
    unreadable date, row 1 no views, row 3 text in numeric cells and the
    publish time of row 0. *)
Definition posts : DataFrame :=
  frame
    [ (utf8 "笔记标题", [txt "B"; txt "A"; txt "C"; txt "D"]);
      (utf8 " 首次发布时间 ",
        [txt "2024年03月02日10时00分00秒"; txt "2024年03月01日09时30分00秒";
         txt "2024-03-03 08:00"; txt "2024年03月02日10时00分00秒"]);
      (utf8 "发布形式", [txt "图文"; txt "视频"; txt "图文"; txt "图文"]);
      (utf8 "曝光量", [num 1000; num 500; num 300; txt "abc"]);
      (utf8 "阅读量", [num 200; num 0; num 30; num 100]);
      (utf8 "封面点击率", [Flt (Fin (1 # 10)); Flt (Fin (1 # 5)); NA; txt "—"]);
      (utf8 "点赞数", [num 20; num 0; num 3; num 5]);
      (utf8 "评论数", [num 4; num 0; num 1; txt "n/a"]);
      (utf8 "收藏数", [num 10; num 0; num 0; num 5]);
      (utf8 "涨粉数", [num 2; num 0; num 0; num 1]);
      (utf8 "分享", [num 1; num 0; num 0; num 0]) ].

Definition posts_name : pystr := utf8 "笔记列表明细表 (1).xlsx".

(** An export whose publish times are written in another format. *)
Definition undated : DataFrame :=
  frame
    [ (utf8 "笔记标题", [txt "E"; txt "F"]);
      (utf8 "首次发布时间", [txt "2024-03-01 10:00:00"; txt "2024/03/02"]);
      (utf8 "体裁", [txt "图文"; txt "视频"]);
      (utf8 "曝光", [num 100; num 200]);
      (utf8 "观看量", [num 10; num 20]);
      (utf8 "封面点击率", [Flt (Fin (1 # 10)); Flt (Fin (1 # 5))]);
      (utf8 "点赞", [num 1; num 2]);
      (utf8 "评论", [num 0; num 1]);
      (utf8 "收藏", [num 1; num 0]);
      (utf8 "涨粉", [num 0; num 0]);
      (utf8 "分享", [num 0; num 1]) ].

Definition undated_name : pystr := utf8 "undated.xlsx".

Definition posts_file : UploadedFile :=
  {| name := posts_name; read_excel := Ok posts |}.

(** Eighteen posts in the order they were published, one a day, except that
    the tenth, "P10", went out in the same second as the ninth, "P09". *)
Definition diary : DataFrame :=
  frame
    [ (utf8 "笔记标题",
        map txt [ "P01"; "P02"; "P03"; "P04"; "P05"; "P06"; "P07"; "P08";
                  "P09"; "P10"; "P11"; "P12"; "P13"; "P14"; "P15"; "P16";
                  "P17"; "P18" ]%string);
      (utf8 "首次发布时间",
        map txt [ "2024年05月01日12时00分00秒"; "2024年05月02日12时00分00秒";
                  "2024年05月03日12时00分00秒"; "2024年05月04日12时00分00秒";
                  "2024年05月05日12时00分00秒"; "2024年05月06日12时00分00秒";
                  "2024年05月07日12时00分00秒"; "2024年05月08日12时00分00秒";
                  "2024年05月09日12时00分00秒"; "2024年05月09日12时00分00秒";
                  "2024年05月11日12时00分00秒"; "2024年05月12日12时00分00秒";
                  "2024年05月13日12时00分00秒"; "2024年05月14日12时00分00秒";
                  "2024年05月15日12时00分00秒"; "2024年05月16日12时00分00秒";
                  "2024年05月17日12时00分00秒"; "2024年05月18日12时00分00秒" ]%string);
      (utf8 "体裁", repeat (txt "图文") 18);
      (utf8 "曝光", repeat (num 1000) 18);
      (utf8 "观看量", repeat (num 100) 18);
      (utf8 "封面点击率", repeat (Flt (Fin (1 # 10))) 18);
      (utf8 "点赞", repeat (num 10) 18);
      (utf8 "评论", repeat (num 2) 18);
      (utf8 "收藏", repeat (num 5) 18);
      (utf8 "涨粉", repeat (num 1) 18);
      (utf8 "分享", repeat (num 3) 18) ].

Definition diary_name : pystr := utf8 "diary.xlsx".

(** A later export whose name differs from [posts_name] only in characters
    that a sheet name drops. *)
Definition later : DataFrame :=
  frame
    [ (utf8 "笔记标题", [txt "G"]);
      (utf8 "首次发布时间", [txt "2024年04月01日08时00分00秒"]);
      (utf8 "体裁", [txt "视频"]);
      (utf8 "曝光", [num 900]);
      (utf8 "观看量", [num 300]);
      (utf8 "封面点击率", [Flt (Fin (3 # 10))]);
      (utf8 "点赞", [num 30]);
      (utf8 "评论", [num 3]);
      (utf8 "收藏", [num 6]);
      (utf8 "涨粉", [num 1]);
      (utf8 "分享", [num 2]) ].

Definition later_file : UploadedFile :=
  {| name := utf8 "笔记列表明细表(1).xlsx"; read_excel := Ok later |}.

(** The sample export with a sequence column already in it. *)
Definition numbered : DataFrame :=
  frame ((utf8 "序号", [num 1; num 2; num 3; num 4]) :: columns posts).

Definition numbered_file : UploadedFile :=
  {| name := utf8 "numbered.xlsx"; read_excel := Ok numbered |}.

(** The sample export without its favorites column. *)
Definition no_favorites : DataFrame :=
  frame (filter (fun p => negb (str_eqb (fst p) (utf8 "收藏数")))
                (columns posts)).

Definition no_favorites_file : UploadedFile :=
  {| name := utf8 "nofav.xlsx"; read_excel := Ok no_favorites |}.

Definition two_uploads : list UploadedFile := [posts_file; later_file].

Definition mixed_uploads : list UploadedFile :=
  [posts_file; no_favorites_file; later_file].

(** An export in which one exposure count is infinite. *)
Definition unbounded : DataFrame :=
  frame
    [ (utf8 "笔记标题", [txt "H"; txt "I"]);
      (utf8 "首次发布时间",
        [txt "2024年05月01日08时00分00秒"; txt "2024年05月02日08时00分00秒"]);
      (utf8 "体裁", [txt "图文"; txt "视频"]);
      (utf8 "曝光", [num 100; Flt (Inf false)]);
      (utf8 "观看量", [num 10; num 20]);
      (utf8 "封面点击率", [Flt (Fin (1 # 10)); Flt (Fin (1 # 5))]);
      (utf8 "点赞", [num 1; num 2]);
      (utf8 "评论", [num 0; num 1]);
      (utf8 "收藏", [num 1; num 0]);
      (utf8 "涨粉", [num 0; num 0]);
      (utf8 "分享", [num 0; num 1]) ].

(* ================================================================== *)
(** ** Labels and columns *)
(* ================================================================== *)

Lemma str_eqb_refl (a : pystr) : str_eqb a a = true.
Proof.
  induction a as [|x a IH]; simpl; [reflexivity|].
  now rewrite N.eqb_refl, IH.
Qed.

Lemma str_eqb_eq (a b : pystr) : str_eqb a b = true <-> a = b.
Proof.
  split.
  - revert b; induction a as [|x a IH]; intros [|y b] H; simpl in H;
      try discriminate; [reflexivity|].
    apply andb_true_iff in H as [Hx Hr].
    apply N.eqb_eq in Hx. apply IH in Hr. now subst.
  - intros ->. apply str_eqb_refl.
Qed.

Lemma str_eqb_neq (a b : pystr) : str_eqb a b = false <-> a <> b.
Proof.
  split.
  - intros H E. apply str_eqb_eq in E. congruence.
  - intros H. destruct (str_eqb a b) eqn:E; [|reflexivity].
    apply str_eqb_eq in E. contradiction.
Qed.

Lemma str_eqb_sym (a b : pystr) : str_eqb a b = str_eqb b a.
Proof.
  destruct (str_eqb a b) eqn:E.
  - apply str_eqb_eq in E. subst. symmetry. apply str_eqb_refl.
  - symmetry. apply str_eqb_neq. apply str_eqb_neq in E. congruence.
Qed.

Lemma mem_In (c : label) (cs : list label) : mem c cs = true <-> In c cs.
Proof.
  unfold mem. rewrite existsb_exists. split.
  - intros (l & Hl & E). apply str_eqb_eq in E. now subst.
  - intros H. exists c. split; [assumption | apply str_eqb_refl].
Qed.

Lemma mem_not_In (c : label) (cs : list label) : mem c cs = false <-> ~ In c cs.
Proof.
  rewrite <- mem_In. destruct (mem c cs); split; congruence.
Qed.

Lemma has_column_In (df : DataFrame) (c : label) :
  has_column df c = true <-> In c (labels df).
Proof. apply mem_In. Qed.

(** A frame whose columns are rewritten one by one, labels kept. *)
Definition map_columns (f : label -> Series -> Series) (df : DataFrame)
  : DataFrame :=
  {| index := index df;
     columns := map (fun p => (fst p, f (fst p) (snd p))) (columns df) |}.

Lemma labels_map_columns f df : labels (map_columns f df) = labels df.
Proof.
  unfold labels, map_columns; simpl. rewrite map_map. reflexivity.
Qed.

Lemma getitem_cols_map (f : label -> Series -> Series) cols c :
  map snd (filter (fun p => str_eqb (fst p) c)
             (map (fun p : label * Series => (fst p, f (fst p) (snd p))) cols))
  = map (f c) (map snd (filter (fun p => str_eqb (fst p) c) cols)).
Proof.
  induction cols as [|[l s] cols IH]; simpl; [reflexivity|].
  destruct (str_eqb l c) eqn:E; simpl; [|exact IH].
  apply str_eqb_eq in E. subst l. now rewrite IH.
Qed.

Lemma getitem_map_columns f df c :
  getitem (map_columns f df) c = map (f c) (getitem df c).
Proof. unfold getitem, map_columns; simpl. apply getitem_cols_map. Qed.

Lemma getitem_nil_iff df c : getitem df c = [] <-> has_column df c = false.
Proof.
  unfold getitem, has_column, labels.
  induction (columns df) as [|[l s] cols IH]; simpl; [tauto|].
  destruct (str_eqb l c); simpl; [split; discriminate | exact IH].
Qed.

Lemma has_column_getitem df c : has_column df c = true <-> getitem df c <> [].
Proof.
  rewrite <- not_false_iff_true, <- getitem_nil_iff. tauto.
Qed.

Lemma setitem_present df c s :
  has_column df c = true ->
  setitem df c s = map_columns (fun l x => if str_eqb l c then s else x) df.
Proof.
  intros H. unfold setitem, map_columns. rewrite H. f_equal.
  apply map_ext. intros [l x]; simpl. now destruct (str_eqb l c).
Qed.

Lemma labels_setitem df c s :
  labels (setitem df c s)
  = if has_column df c then labels df else labels df ++ [c].
Proof.
  destruct (has_column df c) eqn:H.
  - rewrite setitem_present by assumption. apply labels_map_columns.
  - unfold setitem. rewrite H. unfold labels; simpl.
    now rewrite map_app.
Qed.

Lemma index_setitem df c s : index (setitem df c s) = index df.
Proof. unfold setitem. now destruct (has_column df c). Qed.

Lemma getitem_setitem_other df c s c' :
  c <> c' -> getitem (setitem df c s) c' = getitem df c'.
Proof.
  intros N. destruct (has_column df c) eqn:H.
  - rewrite setitem_present, getitem_map_columns by assumption.
    rewrite str_eqb_sym.
    replace (str_eqb c c') with false by (symmetry; now apply str_eqb_neq).
    apply map_id.
  - unfold setitem. rewrite H. unfold getitem; simpl.
    rewrite filter_app, map_app. simpl.
    replace (str_eqb c c') with false by (symmetry; now apply str_eqb_neq).
    simpl. apply app_nil_r.
Qed.

Lemma getitem_setitem_same df c s :
  getitem (setitem df c s) c
  = if has_column df c then map (fun _ => s) (getitem df c) else [s].
Proof.
  destruct (has_column df c) eqn:H.
  - rewrite setitem_present, getitem_map_columns by assumption.
    now rewrite str_eqb_refl.
  - unfold setitem. rewrite H.
    apply getitem_nil_iff in H. unfold getitem in *.
    cbn [columns]. rewrite filter_app, map_app, H.
    cbn [filter fst]. now rewrite str_eqb_refl.
Qed.

Lemma has_column_setitem df c s c' :
  has_column (setitem df c s) c' = has_column df c' || str_eqb c c'.
Proof.
  unfold has_column at 1. rewrite labels_setitem.
  destruct (has_column df c) eqn:H.
  - fold (has_column df c'). destruct (str_eqb c c') eqn:E.
    + apply str_eqb_eq in E. subst. now rewrite H.
    + now rewrite orb_false_r.
  - rewrite existsb_app. simpl. now rewrite orb_false_r.
Qed.

(** The only column labelled [c]. *)
Lemma single_column df c s l x :
  getitem df c = [s] -> In (l, x) (columns df) -> l = c -> x = s.
Proof.
  unfold getitem. intros H Hin ->.
  assert (Hx : In x (map snd (filter (fun p => str_eqb (fst p) c) (columns df)))).
  { apply in_map_iff. exists (c, x). split; [reflexivity|].
    apply filter_In. split; [assumption | apply str_eqb_refl]. }
  rewrite H in Hx. destruct Hx as [E|[]]. now subst.
Qed.

Lemma map_columns_ext f g df :
  (forall l x, In (l, x) (columns df) -> f l x = g l x) ->
  map_columns f df = map_columns g df.
Proof.
  intros H. unfold map_columns. f_equal.
  apply map_ext_in. intros [l x] Hin; simpl. now rewrite H.
Qed.

Lemma map_columns_compose f g df :
  map_columns f (map_columns g df)
  = map_columns (fun l x => f l (g l x)) df.
Proof.
  unfold map_columns; simpl. f_equal. rewrite map_map. reflexivity.
Qed.

Lemma labels_take_rows idx df : labels (take_rows idx df) = labels df.
Proof. unfold labels, take_rows; simpl. rewrite map_map. reflexivity. Qed.

Lemma getitem_take_rows idx df c :
  getitem (take_rows idx df) c = map (take idx) (getitem df c).
Proof.
  unfold getitem, take_rows; simpl.
  apply (getitem_cols_map (fun _ => take idx)).
Qed.

Lemma nrows_take_rows idx df : nrows (take_rows idx df) = length idx.
Proof. unfold nrows, take_rows; simpl. apply length_map. Qed.

Lemma length_take idx s : length (take idx s) = length idx.
Proof. apply length_map. Qed.

Lemma take_take (i1 i2 : list nat) (s : Series) :
  (forall j, In j i2 -> j < length i1) ->
  take i2 (take i1 s) = take (map (fun j => nth j i1 0) i2) s.
Proof.
  intros H. unfold take. rewrite map_map. apply map_ext_in.
  intros j Hj. apply H in Hj.
  rewrite (nth_indep _ NA (nth 0 s NA)) by (now rewrite length_map).
  now rewrite (map_nth (fun i => nth i s NA)).
Qed.

Lemma take_map (f : cell -> cell) (idx : list nat) (s : Series) :
  (forall i, In i idx -> i < length s) ->
  take idx (map f s) = map f (take idx s).
Proof.
  intros H. unfold take. rewrite map_map. apply map_ext_in.
  intros i Hi. apply H in Hi.
  rewrite (nth_indep _ NA (f NA)) by (now rewrite length_map).
  apply map_nth.
Qed.

(* ================================================================== *)
(** ** The row sanitizer in closed form *)
(* ================================================================== *)

Section Sanitizer.

Context {L : Library}.

Lemma in_argsort (ks : list Z) (j : nat) : In j (argsort ks) -> j < length ks.
Proof.
  intros H. apply (Permutation_in _ (argsort_perm ks)) in H.
  apply in_seq in H. lia.
Qed.

Lemma map_nth_seq (A : Type) (l : list A) (d : A) :
  map (fun j => nth j l d) (seq 0 (length l)) = l.
Proof.
  induction l as [|x l IH]; simpl; [reflexivity|].
  f_equal. rewrite <- seq_shift, map_map. exact IH.
Qed.

Lemma row_order_perm (raw : Series) :
  Permutation (row_order raw) (retained raw).
Proof.
  unfold row_order.
  set (keep := retained raw).
  set (ks := map (fun i => time_of (nth i raw NA)) keep).
  apply perm_trans with (map (fun j => nth j keep 0) (seq 0 (length ks))).
  - apply Permutation_map, argsort_perm.
  - unfold ks. rewrite length_map, map_nth_seq. apply Permutation_refl.
Qed.

Lemma row_order_times (raw : Series) :
  map (fun i => time_of (nth i raw NA)) (row_order raw)
  = map (fun j => nth j (map (fun i => time_of (nth i raw NA)) (retained raw)) 0%Z)
        (argsort (map (fun i => time_of (nth i raw NA)) (retained raw))).
Proof.
  unfold row_order. rewrite map_map. apply map_ext_in.
  intros j Hj. apply in_argsort in Hj. rewrite length_map in Hj.
  rewrite (nth_indep _ 0%Z (time_of (nth 0 raw NA)))
    by (now rewrite length_map).
  symmetry. apply (map_nth (fun i => time_of (nth i raw NA))).
Qed.

Lemma row_order_sorted (raw : Series) :
  Sorted Z.le (map (fun i => time_of (nth i raw NA)) (row_order raw)).
Proof. rewrite row_order_times. apply argsort_sorted. Qed.

Lemma in_retained (raw : Series) (i : nat) :
  In i (retained raw)
  <-> i < length raw /\ strptime_coerce (nth i raw NA) <> None.
Proof.
  unfold retained. rewrite filter_In, in_seq. unfold parse_cell.
  destruct (strptime_coerce (nth i raw NA)); simpl; split;
    intros [H1 H2]; split; try lia; congruence.
Qed.

Lemma in_row_order (raw : Series) (i : nat) :
  In i (row_order raw)
  <-> i < length raw /\ strptime_coerce (nth i raw NA) <> None.
Proof.
  rewrite <- in_retained. split; apply Permutation_in.
  - apply row_order_perm.
  - apply Permutation_sym, row_order_perm.
Qed.

Lemma NoDup_retained (raw : Series) : NoDup (retained raw).
Proof. apply NoDup_filter, seq_NoDup. Qed.

Lemma NoDup_row_order (raw : Series) : NoDup (row_order raw).
Proof.
  apply (Permutation_NoDup (Permutation_sym (row_order_perm raw))).
  apply NoDup_retained.
Qed.

Lemma length_row_order (raw : Series) :
  length (row_order raw) = length (retained raw).
Proof. apply Permutation_length, row_order_perm. Qed.

(** The sorted keys of a column of parsed times. *)
Lemma time_keys_parsed (raw : Series) (idx : list nat) :
  (forall i, In i idx -> strptime_coerce (nth i raw NA) <> None) ->
  time_keys (map (fun i => parse_cell (nth i raw NA)) idx)
  = Ok (map Some (map (fun i => time_of (nth i raw NA)) idx)).
Proof.
  induction idx as [|i idx IH]; intros H; simpl; [reflexivity|].
  assert (Hi := H i (or_introl eq_refl)).
  unfold parse_cell at 1, time_of at 1.
  destruct (strptime_coerce (nth i raw NA)); [|congruence].
  rewrite IH by (intros; apply H; now right). reflexivity.
Qed.

Lemma somes_map_Some (A : Type) (l : list A) : somes (map Some l) = l.
Proof. induction l; simpl; congruence. Qed.

Lemma filter_all (A : Type) (f : A -> bool) (l : list A) :
  (forall x, In x l -> f x = true) -> filter f l = l.
Proof.
  induction l as [|x l IH]; intros H; simpl; [reflexivity|].
  rewrite (H x) by now left. f_equal. apply IH. intros; apply H; now right.
Qed.

Lemma filter_none (A : Type) (f : A -> bool) (l : list A) :
  (forall x, In x l -> f x = false) -> filter f l = [].
Proof.
  induction l as [|x l IH]; intros H; simpl; [reflexivity|].
  rewrite (H x) by now left. apply IH. intros; apply H; now right.
Qed.

Lemma nargsort_all_some (ks : list Z) : nargsort (map Some ks) = argsort ks.
Proof.
  unfold nargsort. rewrite somes_map_Some, length_map.
  assert (E : forall i, In i (seq 0 (length ks)) ->
                        is_some (nth i (map Some ks) None) = true).
  { intros i Hi. apply in_seq in Hi.
    rewrite (nth_indep _ None (Some 0%Z)) by (rewrite length_map; lia).
    now rewrite (map_nth Some). }
  rewrite (filter_all _ _ _ E).
  rewrite filter_none by (intros i Hi; now rewrite (E i Hi)).
  rewrite app_nil_r.
  rewrite <- (map_id (argsort ks)) at 2. apply map_ext_in.
  intros j Hj. apply in_argsort in Hj. now rewrite seq_nth.
Qed.

Lemma has_column_take_rows idx df c :
  has_column (take_rows idx df) c = has_column df c.
Proof. unfold has_column. now rewrite labels_take_rows. Qed.

Lemma has_column_reset_index df c :
  has_column (reset_index df) c = has_column df c.
Proof. reflexivity. Qed.

Lemma nth_map_in_range (f : cell -> cell) (s : Series) (i : nat) :
  i < length s -> nth i (map f s) NA = f (nth i s NA).
Proof.
  intros H. rewrite (nth_indep _ NA (f NA)) by (now rewrite length_map).
  apply map_nth.
Qed.

Lemma dropna_positions (raw : Series) :
  filter (fun i => forallb (fun s => notna (nth i s NA)) [map parse_cell raw])
         (seq 0 (length raw))
  = retained raw.
Proof.
  unfold retained. apply filter_ext_in. intros i Hi. apply in_seq in Hi.
  simpl. rewrite andb_true_r, nth_map_in_range by lia. reflexivity.
Qed.

Lemma sanitize_eval (nd : DataFrame) (raw : Series) :
  getitem nd c_time = [raw] ->
  length raw = nrows nd ->
  sanitize nd = if has_column nd c_seq then Raise ValueError
                else Ok (rebuilt time_view (row_order raw) nd).
Proof.
  intros Hget Hlen.
  assert (Hhas : has_column nd c_time = true).
  { apply has_column_getitem. rewrite Hget. discriminate. }
  unfold sanitize. rewrite Hget. cbn [to_datetime bind].
  set (ts := map parse_cell raw).
  set (df1 := setitem nd c_time ts).
  assert (G1 : getitem df1 c_time = [ts]).
  { unfold df1. rewrite getitem_setitem_same, Hhas, Hget. reflexivity. }
  unfold dropna. rewrite G1.
  replace (nrows df1) with (length raw)
    by (unfold df1, nrows; now rewrite index_setitem).
  unfold ts at 1. rewrite dropna_positions. cbn [bind].
  unfold sort_values. rewrite getitem_take_rows, G1. cbn [map].
  assert (Ek : take (retained raw) ts
               = map (fun i => parse_cell (nth i raw NA)) (retained raw)).
  { unfold take. apply map_ext_in. intros i Hi.
    apply in_retained in Hi. unfold ts. now apply nth_map_in_range. }
  rewrite Ek, time_keys_parsed by (intros i Hi; now apply in_retained in Hi).
  cbn [bind]. rewrite nargsort_all_some.
  set (ks := map (fun i => time_of (nth i raw NA)) (retained raw)).
  unfold insert0.
  replace (has_column
             (reset_index (take_rows (argsort ks) (take_rows (retained raw) df1)))
             c_seq) with (has_column nd c_seq).
  2:{ symmetry. rewrite has_column_reset_index, !has_column_take_rows.
      unfold df1. rewrite has_column_setitem. apply orb_false_r. }
  destruct (has_column nd c_seq); [reflexivity|].
  f_equal. unfold rebuilt, reset_index, sequence_numbers.
  cbn [index columns]. rewrite nrows_take_rows.
  assert (El : length (row_order raw) = length (argsort ks)).
  { unfold row_order. now rewrite length_map. }
  rewrite El. f_equal. f_equal.
  unfold take_rows. cbn [columns]. rewrite !map_map. cbn [fst snd].
  unfold df1. rewrite setitem_present by assumption.
  unfold map_columns. cbn [columns]. rewrite map_map. cbn [fst snd].
  apply map_ext_in. intros [l x] Hin. cbn [fst snd]. f_equal.
  rewrite take_take
    by (intros j Hj; apply in_argsort in Hj; unfold ks in Hj;
        now rewrite length_map in Hj).
  fold (row_order raw). unfold time_view.
  destruct (str_eqb l c_time) eqn:E.
  - apply str_eqb_eq in E.
    rewrite (single_column nd c_time raw l x Hget Hin E). unfold ts.
    apply take_map. intros i Hi. now apply in_row_order in Hi.
  - symmetry. apply map_id.
Qed.

Lemma rectangular_length (df : DataFrame) (c : label) (s : Series) :
  rectangular df = true -> In s (getitem df c) -> length s = nrows df.
Proof.
  unfold rectangular, getitem. intros R H.
  apply in_map_iff in H as ([l x] & <- & Hin).
  apply filter_In in Hin as [Hin _].
  rewrite forallb_forall in R. apply R in Hin. now apply Nat.eqb_eq in Hin.
Qed.

Lemma sanitize_inv (nd d : DataFrame) :
  rectangular nd = true ->
  sanitize nd = Ok d ->
  exists raw,
    getitem nd c_time = [raw] /\ length raw = nrows nd /\
    has_column nd c_seq = false /\
    d = rebuilt time_view (row_order raw) nd.
Proof.
  intros R H.
  destruct (getitem nd c_time) as [|raw [|raw' rest]] eqn:G;
    try (unfold sanitize in H; rewrite G in H; discriminate H).
  assert (Hlen : length raw = nrows nd).
  { apply (rectangular_length nd c_time raw R). rewrite G. now left. }
  rewrite (sanitize_eval nd raw G Hlen) in H.
  destruct (has_column nd c_seq); [discriminate|].
  exists raw. repeat split; congruence.
Qed.

Lemma getitem_rebuilt view order nd c :
  getitem (rebuilt view order nd) c
  = (if str_eqb c_seq c then [sequence_column (length order)] else [])
    ++ map (fun s => map (view c) (take order s)) (getitem nd c).
Proof.
  unfold getitem, rebuilt. cbn [columns filter fst].
  rewrite <- (getitem_cols_map (fun l s => map (view l) (take order s))).
  now destruct (str_eqb c_seq c).
Qed.

Lemma labels_rebuilt view order nd :
  labels (rebuilt view order nd) = c_seq :: labels nd.
Proof.
  unfold labels, rebuilt. cbn [columns map fst]. f_equal.
  rewrite map_map. reflexivity.
Qed.

Lemma nrows_rebuilt view order nd : nrows (rebuilt view order nd) = length order.
Proof. unfold nrows, rebuilt. cbn [index]. apply length_seq. Qed.

(** *** Numeric coercion *)

Lemma unique_getitem df c : unique df c = true <-> exists s, getitem df c = [s].
Proof.
  unfold unique. rewrite Nat.eqb_eq. split.
  - destruct (getitem df c) as [|s [|]]; simpl; try discriminate. eauto.
  - intros [s ->]. reflexivity.
Qed.

Lemma coerce_cells (s : Series) :
  map of_nfloat (fillna0 (map numeric_coerce s)) = map coerce_cell s.
Proof.
  unfold fillna0. rewrite !map_map. apply map_ext. intros c.
  unfold coerce_cell. now destruct (numeric_coerce c).
Qed.

Lemma to_numeric_inv sel v :
  to_numeric sel = Ok v -> exists s, sel = [s] /\ v = map numeric_coerce s.
Proof.
  destruct sel as [|s [|]]; simpl; try discriminate.
  intros [= <-]. eauto.
Qed.

Lemma coerce_numeric_closed (cs : list label) :
  NoDup cs ->
  forall d d', coerce_numeric cs d = Ok d' -> d' = map_columns (coerce_view cs) d.
Proof.
  induction 1 as [|c cs Hc Hnd IH]; intros d d' H; simpl in H.
  - injection H as <-. unfold map_columns.
    destruct d as [ix cols]. cbn. f_equal.
    rewrite <- (map_id cols) at 1. apply map_ext. now intros [l x].
  - destruct (to_numeric (getitem d c)) as [v|e] eqn:T; [|discriminate].
    apply to_numeric_inv in T as (s & G & ->). cbn [bind] in H.
    apply IH in H. subst d'.
    assert (Hhas : has_column d c = true).
    { apply has_column_getitem. rewrite G. discriminate. }
    rewrite setitem_present, map_columns_compose by assumption.
    apply map_columns_ext. intros l x Hin. unfold coerce_view.
    cbn [mem existsb]. fold (mem l cs). rewrite (str_eqb_sym c l).
    destruct (str_eqb l c) eqn:E.
    + apply str_eqb_eq in E. subst l.
      replace (mem c cs) with false by (symmetry; now apply mem_not_In).
      cbn [orb]. rewrite coerce_cells. f_equal.
      symmetry. eapply single_column; eauto.
    + reflexivity.
Qed.

Lemma length_getitem_setitem df c s c' :
  has_column df c = true ->
  length (getitem (setitem df c s) c') = length (getitem df c').
Proof.
  intros H. rewrite setitem_present, getitem_map_columns by assumption.
  apply length_map.
Qed.

Lemma coerce_numeric_succeeds (cs : list label) :
  forall d, (forall c, In c cs -> unique d c = true) ->
            exists d', coerce_numeric cs d = Ok d'.
Proof.
  induction cs as [|c cs IH]; intros d H; simpl; [eauto|].
  destruct (proj1 (unique_getitem d c) (H c (or_introl eq_refl))) as [s G].
  rewrite G. cbn [to_numeric bind]. apply IH.
  intros c' Hc'. unfold unique. rewrite length_getitem_setitem.
  - apply H. now right.
  - apply has_column_getitem. rewrite G. discriminate.
Qed.

(** *** The prepared frame *)

Lemma time_range_rebuilt (raw : Series) (nd : DataFrame) :
  getitem nd c_time = [raw] ->
  time_range (rebuilt time_view (row_order raw) nd)
  = Ok (date (time_fold Z.min (parsed_times raw)),
        date (time_fold Z.max (parsed_times raw))).
Proof.
  intros G. unfold time_range. rewrite getitem_rebuilt, G.
  replace (str_eqb c_seq c_time) with false by reflexivity.
  cbn [app map]. unfold time_view.
  replace (str_eqb c_time c_time) with true by reflexivity.
  reflexivity.
Qed.

Lemma rebuilt_coerced (order : list nat) (nd : DataFrame) :
  map_columns (coerce_view numeric_cols) (rebuilt time_view order nd)
  = rebuilt cell_view order nd.
Proof.
  unfold map_columns, rebuilt. cbn [index columns map fst snd]. f_equal.
  change (coerce_view numeric_cols c_seq (sequence_column (length order)))
    with (sequence_column (length order)).
  f_equal.
  rewrite map_map. apply map_ext. intros [l x]. cbn [fst snd]. f_equal.
  unfold coerce_view, time_view, cell_view.
  destruct (str_eqb l c_time) eqn:E.
  - apply str_eqb_eq in E. subst l.
    replace (mem c_time numeric_cols) with false by reflexivity.
    reflexivity.
  - destruct (mem l numeric_cols); [|reflexivity].
    rewrite map_map. reflexivity.
Qed.

Lemma prepare_inv (nd : DataFrame) p :
  rectangular nd = true ->
  prepare nd = Ok p ->
  exists raw,
    getitem nd c_time = [raw] /\ length raw = nrows nd /\
    has_column nd c_seq = false /\
    snd p = rebuilt cell_view (row_order raw) nd /\
    fst p = (date (time_fold Z.min (parsed_times raw)),
             date (time_fold Z.max (parsed_times raw))).
Proof.
  intros R H. unfold prepare in H.
  destruct (sanitize nd) as [d|e] eqn:S; [|discriminate].
  apply sanitize_inv in S as (raw & G & Hlen & Hseq & ->); [|assumption].
  cbn [bind] in H. rewrite (time_range_rebuilt raw nd G) in H.
  cbn [bind] in H.
  destruct (coerce_numeric numeric_cols _) as [d'|e] eqn:C; [|discriminate].
  apply coerce_numeric_closed in C.
  2:{ unfold numeric_cols. repeat constructor; cbn [In];
      intros K; repeat destruct K as [K|K]; try discriminate K; exact K. }
  rewrite rebuilt_coerced in C. subst d'.
  cbn [bind] in H. injection H as <-.
  exists raw. cbn [fst snd]. repeat split; assumption.
Qed.

Lemma unique_rebuilt view order nd c :
  str_eqb c_seq c = false ->
  unique (rebuilt view order nd) c = unique nd c.
Proof.
  intros E. unfold unique. rewrite getitem_rebuilt, E. cbn [app].
  now rewrite length_map.
Qed.

Lemma prepare_succeeds (nd : DataFrame) :
  rectangular nd = true ->
  forallb (unique nd) required_cols = true ->
  has_column nd c_seq = false ->
  exists p, prepare nd = Ok p.
Proof.
  intros R U Hseq. rewrite forallb_forall in U.
  assert (Ut : unique nd c_time = true).
  { apply U. unfold required_cols. cbn [In]. tauto. }
  apply unique_getitem in Ut as [raw G].
  assert (Hlen : length raw = nrows nd).
  { apply (rectangular_length nd c_time raw R). rewrite G. now left. }
  unfold prepare. rewrite (sanitize_eval nd raw G Hlen), Hseq.
  cbn [bind]. rewrite (time_range_rebuilt raw nd G). cbn [bind].
  destruct (coerce_numeric_succeeds numeric_cols
              (rebuilt time_view (row_order raw) nd)) as [d' ->].
  - intros c Hc. rewrite unique_rebuilt.
    + apply U. unfold numeric_cols in Hc. unfold required_cols. cbn [In] in *.
      tauto.
    + unfold numeric_cols in Hc. cbn [In] in Hc.
      repeat destruct Hc as [<-|Hc]; try reflexivity. destruct Hc.
  - cbn [bind]. eauto.
Qed.

End Sanitizer.

(* ================================================================== *)
(** ** The metric calculator *)
(* ================================================================== *)

Section Calculator.

Context {L : Library}.

Lemma as_floats_Flt (v : list float) : as_floats (map Flt v) = Ok (map Some v).
Proof.
  induction v as [|x v IH]; simpl; [reflexivity|]. now rewrite IH.
Qed.

Lemma length_map2 (A B C : Type) (f : A -> B -> C) (l : list A) (l' : list B) :
  length l = length l' -> length (map2 f l l') = length l.
Proof.
  revert l'; induction l as [|x l IH]; intros [|y l'] H; simpl in *;
    try discriminate; [reflexivity|].
  f_equal. apply IH. now injection H.
Qed.

Lemma nth_map2 (A B C : Type) (f : A -> B -> C) (l : list A) (l' : list B)
  (i : nat) (a : A) (b : B) (c : C) :
  length l = length l' -> i < length l ->
  nth i (map2 f l l') c = f (nth i l a) (nth i l' b).
Proof.
  revert l' i; induction l as [|x l IH]; intros [|y l'] i H Hi; simpl in *;
    try discriminate; try lia.
  destruct i as [|i]; [reflexivity|].
  apply IH; [now injection H | lia].
Qed.

Lemma eval_ready (d : DataFrame) (e : expr) :
  numeric_ready d ->
  (forall c, In c (expr_cols e) -> In c numeric_cols) ->
  exists v, eval d e = Ok v /\ length v = nrows d.
Proof.
  intros R. induction e as [c|a IHa b IHb]; intros H; simpl.
  - destruct (R c) as (v & G & Hl); [apply H; now left|].
    unfold numeric_col. rewrite G, as_floats_Flt.
    eexists; split; [reflexivity|]. now rewrite length_map.
  - destruct IHa as (x & -> & Hx);
      [intros c Hc; apply H; simpl; apply in_or_app; now left|].
    destruct IHb as (y & -> & Hy);
      [intros c Hc; apply H; simpl; apply in_or_app; now right|].
    cbn [bind]. eexists; split; [reflexivity|].
    unfold series_add. rewrite length_map2; congruence.
Qed.

Lemma eval_ext (d d' : DataFrame) (e : expr) :
  (forall c, In c (expr_cols e) -> getitem d c = getitem d' c) ->
  eval d e = eval d' e.
Proof.
  induction e as [c|a IHa b IHb]; intros H; simpl.
  - unfold numeric_col. rewrite (H c); [reflexivity | now left].
  - rewrite IHa, IHb; [reflexivity| |];
      intros c Hc; apply H; simpl; apply in_or_app; tauto.
Qed.

Lemma no_zero_after_replace (den : list nfloat) :
  existsb nzero (replace0 den) = false.
Proof.
  unfold replace0. induction den as [|x den IH]; simpl; [reflexivity|].
  rewrite IH, orb_false_r. now destruct (nzero x) eqn:E.
Qed.

Lemma truediv_guarded (num den : list nfloat) :
  truediv num (replace0 den) = Ok (map2 ndiv num (replace0 den)).
Proof.
  unfold truediv. now rewrite no_zero_after_replace, andb_false_r.
Qed.

Lemma numeric_ready_setitem (d : DataFrame) (t : label) (s : Series) :
  numeric_ready d -> ~ In t numeric_cols -> numeric_ready (setitem d t s).
Proof.
  intros R Ht c Hc. destruct (R c Hc) as (v & G & Hl).
  exists v. rewrite getitem_setitem_other by (intros ->; contradiction).
  unfold nrows. rewrite index_setitem. auto.
Qed.

Lemma assign_metric_ok (d : DataFrame) (m : metric) :
  numeric_ready d -> metric_ok m ->
  exists num den,
    eval d (numerator m) = Ok num /\ eval d (denominator m) = Ok den /\
    length num = nrows d /\ length den = nrows d /\
    assign_metric d m = Ok (setitem d (target m) (ratio num den)).
Proof.
  intros R [Hc Ht].
  destruct (eval_ready d (numerator m) R) as (num & En & Ln).
  { intros c Hin. apply Hc, in_or_app. now left. }
  destruct (eval_ready d (denominator m) R) as (den & Ed & Ld).
  { intros c Hin. apply Hc, in_or_app. now right. }
  exists num, den. repeat split; try assumption.
  unfold assign_metric. rewrite En, Ed. cbn [bind].
  now rewrite truediv_guarded.
Qed.

Lemma assign_metrics_spec (ms : list metric) :
  forall d,
    numeric_ready d -> Forall metric_ok ms -> NoDup (map target ms) ->
    exists out,
      assign_metrics ms d = Ok out /\
      index out = index d /\
      numeric_ready out /\
      (forall c, ~ In c (map target ms) -> getitem out c = getitem d c) /\
      labels out = fold_left add_label (map target ms) (labels d) /\
      (forall m, In m ms ->
         exists num den,
           eval out (numerator m) = Ok num /\
           eval out (denominator m) = Ok den /\
           length num = nrows out /\ length den = nrows out /\
           getitem out (target m) <> [] /\
           forall col, In col (getitem out (target m)) -> col = ratio num den).
Proof.
  induction ms as [|m ms IH]; intros d R Hok Hnd.
  - exists d. simpl. repeat split; auto. intros m [].
  - inversion Hok as [|? ? Hm Hms]; subst.
    inversion Hnd as [|? ? Hnt Hnd']; subst.
    destruct (assign_metric_ok d m R Hm) as (num & den & En & Ed & Ln & Ld & A).
    set (d1 := setitem d (target m) (ratio num den)) in *.
    assert (R1 : numeric_ready d1)
      by (apply numeric_ready_setitem; [assumption | apply Hm]).
    destruct (IH d1 R1 Hms Hnd') as (out & Ho & Hix & Ro & Hget & Hlab & Hall).
    exists out. cbn [assign_metrics]. rewrite A. cbn [bind].
    assert (Hnr : nrows out = nrows d).
    { unfold nrows. rewrite Hix. unfold d1. now rewrite index_setitem. }
    assert (Hnum : forall e,
               (forall c, In c (expr_cols e) -> In c numeric_cols) ->
               eval out e = eval d e).
    { intros e He. apply eval_ext. intros c Hc.
      assert (Hcn := He c Hc).
      rewrite Hget.
      - unfold d1. apply getitem_setitem_other.
        intros E. rewrite <- E in Hcn. now apply (proj2 Hm).
      - intros Hin. apply in_map_iff in Hin as (m' & Hm' & Hin).
        rewrite Forall_forall in Hms. apply (proj2 (Hms m' Hin)).
        now rewrite Hm'. }
    repeat split; try assumption.
    + rewrite Hix. unfold d1. apply index_setitem.
    + intros c Hc. cbn [map In] in Hc. rewrite Hget by tauto.
      unfold d1. apply getitem_setitem_other. intros E. tauto.
    + rewrite Hlab. cbn [map fold_left]. f_equal.
      unfold d1. rewrite labels_setitem. reflexivity.
    + intros m' [<-|Hin]; [|now apply Hall].
      exists num, den.
      rewrite !Hnum, Hnr, Hget by
        (assumption || (intros c Hc; apply (proj1 Hm), in_or_app; tauto)).
      unfold d1. rewrite getitem_setitem_same.
      repeat split; try assumption.
      * destruct (has_column d (target m)) eqn:Hh; [|discriminate].
        apply has_column_getitem in Hh.
        destruct (getitem d (target m)); [contradiction | discriminate].
      * intros col Hcol. destruct (has_column d (target m)).
        -- apply in_map_iff in Hcol as (? & <- & _). reflexivity.
        -- destruct Hcol as [<-|[]]. reflexivity.
Qed.

End Calculator.

(* ================================================================== *)
(** ** The analysis as a whole *)
(* ================================================================== *)

Section Analysis.

Context {L : Library}.

Lemma rectangular_normalize (df : DataFrame) :
  rectangular (normalize df) = rectangular df.
Proof.
  unfold rectangular, normalize, rename_columns, strip_columns, nrows.
  cbn [index columns]. rewrite !map_map. cbn [fst snd].
  induction (columns df) as [|[l x] cols IH]; simpl; [reflexivity|].
  now rewrite IH.
Qed.

Lemma missing_cols_nil (nd : DataFrame) :
  missing_cols nd = [] <->
  forall c, In c required_cols -> has_column nd c = true.
Proof.
  unfold missing_cols. split.
  - intros H c Hc. destruct (has_column nd c) eqn:E; [reflexivity|].
    assert (K : In c (filter (fun c => negb (has_column nd c)) required_cols)).
    { apply filter_In. split; [assumption|]. now rewrite E. }
    rewrite H in K. destruct K.
  - intros H. apply filter_none. intros c Hc. now rewrite (H c Hc).
Qed.

Lemma coerce_numeric_unique (cs : list label) :
  forall d d', coerce_numeric cs d = Ok d' ->
               forall c, In c cs -> unique d c = true.
Proof.
  induction cs as [|c0 cs IH]; intros d d' H c Hc; [destruct Hc|].
  simpl in H.
  destruct (to_numeric (getitem d c0)) as [v|e] eqn:T; [|discriminate].
  apply to_numeric_inv in T as (s & G & ->). cbn [bind] in H.
  destruct Hc as [<-|Hc].
  - apply unique_getitem. eauto.
  - specialize (IH _ _ H c Hc). unfold unique in *.
    rewrite length_getitem_setitem in IH; [assumption|].
    apply has_column_getitem. rewrite G. discriminate.
Qed.

Lemma prepare_numeric_unique (nd : DataFrame) p :
  rectangular nd = true -> prepare nd = Ok p ->
  forall c, In c numeric_cols -> unique nd c = true.
Proof.
  intros R H c Hc. unfold prepare in H.
  destruct (sanitize nd) as [d|e] eqn:S; [|discriminate].
  apply sanitize_inv in S as (raw & G & Hlen & Hseq & ->); [|assumption].
  cbn [bind] in H. rewrite (time_range_rebuilt raw nd G) in H.
  cbn [bind] in H.
  destruct (coerce_numeric numeric_cols _) as [d'|e] eqn:C; [|discriminate].
  pose proof (coerce_numeric_unique _ _ _ C c Hc) as U.
  rewrite unique_rebuilt in U; [assumption|].
  unfold numeric_cols in Hc. cbn [In] in Hc.
  repeat destruct Hc as [<-|Hc]; try reflexivity. destruct Hc.
Qed.

Lemma coerce_cell_float (c : cell) : coerce_cell c = Flt (coerce_float c).
Proof. unfold coerce_cell, coerce_float. now destruct (numeric_coerce c). Qed.

Lemma cell_view_numeric (c : label) :
  In c numeric_cols -> cell_view c = coerce_cell.
Proof.
  intros Hc. unfold numeric_cols in Hc. cbn [In] in Hc.
  repeat destruct Hc as [<-|Hc]; try reflexivity. destruct Hc.
Qed.

Lemma numeric_ready_rebuilt (order : list nat) (nd : DataFrame) :
  (forall c, In c numeric_cols -> unique nd c = true) ->
  numeric_ready (rebuilt cell_view order nd).
Proof.
  intros U c Hc.
  destruct (proj1 (unique_getitem nd c) (U c Hc)) as [s G].
  exists (map coerce_float (take order s)).
  rewrite getitem_rebuilt, G, nrows_rebuilt, cell_view_numeric by assumption.
  replace (str_eqb c_seq c) with false.
  - cbn [app map]. split.
    + f_equal. rewrite map_map. apply map_ext, coerce_cell_float.
    + now rewrite length_map, length_take.
  - unfold numeric_cols in Hc. cbn [In] in Hc.
    repeat destruct Hc as [<-|Hc]; try reflexivity. destruct Hc.
Qed.

Lemma metrics_ok : Forall metric_ok metrics.
Proof.
  unfold metrics, metric_ok.
  repeat (apply Forall_cons || apply Forall_nil); split;
    cbn [numerator denominator target expr_cols app];
    try (apply mem_not_In; reflexivity);
    intros c H; cbn [In] in H;
    repeat destruct H as [<-|H]; try (apply mem_In; reflexivity);
    destruct H.
Qed.

Lemma metrics_targets_NoDup : NoDup (map target metrics).
Proof.
  unfold metrics. cbn [map target].
  repeat constructor; cbn [In];
    intros K; repeat destruct K as [K|K]; try discriminate K; exact K.
Qed.

(** *** Column selection and means *)

Lemma select_columns_ok (d : DataFrame) (cs : list label) :
  (forall c, In c cs -> has_column d c = true) ->
  select_columns d cs
  = Ok (flat_map (fun c => map (pair c) (getitem d c)) cs).
Proof.
  induction cs as [|c cs IH]; intros H; simpl; [reflexivity|].
  rewrite IH by (intros; apply H; now right). cbn [bind].
  assert (Hc := H c (or_introl eq_refl)).
  apply has_column_getitem in Hc.
  destruct (getitem d c); [contradiction | reflexivity].
Qed.

Lemma as_floats_of_nfloat (v : list nfloat) :
  as_floats (map of_nfloat v) = Ok v.
Proof.
  induction v as [|[x|] v IH]; simpl; [reflexivity| |]; now rewrite IH.
Qed.

Lemma nadd_zero_l (y : nfloat) : nadd (Some fzero) y = y.
Proof.
  destruct y as [[[n d]|s]|]; cbn; try reflexivity.
  unfold Qplus. cbn. rewrite Z.mul_1_r. reflexivity.
Qed.

Lemma nansum_total (v : list nfloat) : nansum v = total (somes v).
Proof.
  induction v as [|[x|] v IH]; simpl; [reflexivity| |].
  - now rewrite IH.
  - rewrite IH. apply nadd_zero_l.
Qed.

Lemma count_somes (v : list nfloat) : count_notnull v = length (somes v).
Proof.
  unfold count_notnull.
  induction v as [|[x|] v IH]; cbn [somes filter isnull length];
    [reflexivity| |].
  - assert (length (filter isnull v) <= length v) by apply filter_length_le.
    lia.
  - exact IH.
Qed.

(** pandas' [nanmean] computes the mean of the non-null entries. *)
Lemma nanmean_spec (s : Series) (v : list nfloat) :
  as_floats s = Ok v -> nanmean s = Ok (mean_of_non_null v).
Proof.
  intros H. unfold nanmean, mean_of_non_null. rewrite H. cbn [bind].
  rewrite count_somes, nansum_total.
  destruct (somes v); reflexivity.
Qed.

Lemma frame_mean_spec (cols : list (label * Series)) :
  (forall col, In col cols -> exists v, as_floats (snd col) = Ok v) ->
  exists means, frame_mean cols = Ok means /\ Forall2 mean_entry cols means.
Proof.
  induction cols as [|[c s] cols IH]; intros H; simpl.
  - exists []. split; [reflexivity | constructor].
  - destruct (H (c, s) (or_introl eq_refl)) as [v Hv]. cbn [snd] in Hv.
    rewrite (nanmean_spec s v Hv). cbn [bind].
    destruct IH as (means & -> & F); [intros; apply H; now right|].
    cbn [bind]. eexists; split; [reflexivity|].
    constructor; [|assumption]. split; [reflexivity|].
    exists v. split; [assumption | reflexivity].
Qed.

Lemma frame_mean_inv (cols : list (label * Series)) :
  forall means, frame_mean cols = Ok means -> Forall2 mean_entry cols means.
Proof.
  induction cols as [|[c s] cols IH]; intros means H; simpl in H.
  - injection H as <-. constructor.
  - unfold nanmean in H.
    destruct (as_floats s) as [v|e] eqn:Hv; [|discriminate].
    pose proof (nanmean_spec s v Hv) as N. unfold nanmean in N.
    rewrite Hv in N. cbn [bind] in H, N.
    destruct (Nat.eqb (count_notnull v) 0);
      injection N as N; cbn [bind] in H;
      (destruct (frame_mean cols) as [rest|e] eqn:F; [|discriminate]);
      injection H as <-;
      (constructor; [|now apply IH]);
      (split; [reflexivity|]); exists v; (split; [assumption|]);
      exact N.
Qed.

(** The frame the metric calculator returns for a prepared frame. *)
Lemma calculated (nd : DataFrame) p :
  rectangular nd = true ->
  missing_cols nd = [] ->
  prepare nd = Ok p ->
  exists raw out,
    getitem nd c_time = [raw] /\
    (length raw = nrows nd /\ has_column nd c_seq = false /\
     (forall c, In c numeric_cols -> unique nd c = true) /\
     fst p = (date (time_fold Z.min (parsed_times raw)),
              date (time_fold Z.max (parsed_times raw)))) /\
    snd p = rebuilt cell_view (row_order raw) nd /\
    assign_metrics metrics (snd p) = Ok out /\
    nrows out = length (row_order raw) /\
    numeric_ready out /\
    (forall c, ~ In c (map target metrics) ->
               getitem out c = getitem (snd p) c) /\
    labels out
    = fold_left add_label (map target metrics) (c_seq :: labels nd) /\
    (forall m, In m metrics ->
       exists num den,
         eval out (numerator m) = Ok num /\
         eval out (denominator m) = Ok den /\
         length num = nrows out /\ length den = nrows out /\
         getitem out (target m) <> [] /\
         forall col, In col (getitem out (target m)) -> col = ratio num den).
Proof.
  intros R M H.
  pose proof (prepare_numeric_unique nd p R H) as U.
  destruct (prepare_inv nd p R H) as (raw & G & Hlen & Hseq & Hp & Hr).
  pose proof (numeric_ready_rebuilt (row_order raw) nd U) as NR.
  rewrite <- Hp in NR.
  destruct (assign_metrics_spec metrics (snd p) NR metrics_ok
              metrics_targets_NoDup)
    as (out & A & Hix & Ro & Hget & Hlab & Hall).
  exists raw, out. repeat split; try assumption.
  - unfold nrows. rewrite Hix. fold (nrows (snd p)).
    rewrite Hp. apply nrows_rebuilt.
  - rewrite Hlab, Hp, labels_rebuilt. reflexivity.
Qed.

Lemma analysis_returned (a : script) (df : DataFrame) (filename : pystr) p :
  rectangular df = true ->
  missing_cols (normalize df) = [] ->
  prepare (normalize df) = Ok p ->
  exists out tbl means,
    assign_metrics metrics (snd p) = Ok out /\
    select out display_cols = Ok tbl /\
    mean out avg_cols = Ok means /\
    analyze_and_display a df filename
    = Ok (Returned {| date_range := fst p; table := tbl; avg := means |} out).
Proof.
  intros R M H. rewrite <- rectangular_normalize in R.
  destruct (calculated _ p R M H)
    as (raw & out & G & _ & Hp & A & Hn & Ro & Hget & Hlab & Hall).
  assert (Hreq : forall c, In c required_cols -> has_column out c = true).
  { intros c Hc. apply has_column_getitem. rewrite Hget, Hp, getitem_rebuilt.
    - pose proof (proj1 (missing_cols_nil _) M c Hc) as K.
      apply has_column_getitem in K.
      destruct (getitem (normalize df) c); [contradiction|].
      destruct (str_eqb c_seq c); discriminate.
    - apply mem_not_In. unfold required_cols in Hc. cbn [In] in Hc.
      repeat destruct Hc as [<-|Hc]; try reflexivity. destruct Hc. }
  assert (Hsq : has_column out c_seq = true).
  { apply has_column_getitem. rewrite Hget, Hp, getitem_rebuilt.
    - rewrite str_eqb_refl. discriminate.
    - apply mem_not_In. reflexivity. }
  assert (Htg : forall t, In t (map target metrics) -> has_column out t = true).
  { intros t Ht. apply in_map_iff in Ht as (m & <- & Hm).
    destruct (Hall m Hm) as (? & ? & _ & _ & _ & _ & Hne & _).
    now apply has_column_getitem. }
  assert (Hdisp : forall c, In c display_cols -> has_column out c = true).
  { intros c Hc. unfold display_cols in Hc. cbn [In] in Hc.
    repeat destruct Hc as [<-|Hc];
      first [ exact Hsq
            | apply Hreq, mem_In; reflexivity
            | apply Htg, mem_In; reflexivity
            | destruct Hc ]. }
  assert (Havg : forall c, In c avg_cols -> has_column out c = true).
  { intros c Hc. unfold avg_cols in Hc. cbn [In] in Hc.
    repeat destruct Hc as [<-|Hc];
      first [ apply Hreq, mem_In; reflexivity
            | apply Htg, mem_In; reflexivity
            | destruct Hc ]. }
  pose proof (select_columns_ok out display_cols Hdisp) as Sd.
  pose proof (select_columns_ok out avg_cols Havg) as Sa.
  destruct (frame_mean_spec
              (flat_map (fun c => map (pair c) (getitem out c)) avg_cols))
    as (means & Fm & _).
  { intros [c s] Hin. apply in_flat_map in Hin as (c' & Hc' & Hin).
    apply in_map_iff in Hin as (s' & [= E1 E2] & Hs). subst c s'.
    cbn [snd].
    unfold avg_cols in Hc'. cbn [In] in Hc'.
    destruct Hc' as [<-|Hc'].
    - destruct (Ro c_ctr) as (v & Gv & _); [apply mem_In; reflexivity|].
      rewrite Gv in Hs. destruct Hs as [<-|[]].
      exists (map Some v). apply as_floats_Flt.
    - assert (Ht : In c' (map target metrics)).
      { repeat destruct Hc' as [<-|Hc']; try (apply mem_In; reflexivity).
        destruct Hc'. }
      apply in_map_iff in Ht as (m & <- & Hm).
      destruct (Hall m Hm) as (num & den & _ & _ & _ & _ & _ & Hcol).
      rewrite (Hcol s Hs). eexists. apply as_floats_of_nfloat. }
  eexists out, _, means. split; [exact A|].
  unfold analyze_and_display, select, mean, select.
  rewrite M, H. cbn [bind]. rewrite A. cbn [bind].
  rewrite Sd, Sa. cbn [bind columns]. rewrite Fm. cbn [bind].
  repeat split; reflexivity.
Qed.

End Analysis.

(* ================================================================== *)
(** ** What a returned analysis tells *)
(* ================================================================== *)

Section Returned.

Context {L : Library}.

Lemma analysis_inv (a : script) (df : DataFrame) (filename : pystr)
  (shown : display) (out : DataFrame) :
  analyze_and_display a df filename = Ok (Returned shown out) ->
  missing_cols (normalize df) = [] /\
  exists p,
    prepare (normalize df) = Ok p /\
    assign_metrics metrics (snd p) = Ok out /\
    date_range shown = fst p /\
    select out display_cols = Ok (table shown) /\
    mean out avg_cols = Ok (avg shown).
Proof.
  unfold analyze_and_display. intros H.
  destruct (missing_cols (normalize df)); [|discriminate].
  split; [reflexivity|].
  destruct (prepare (normalize df)) as [p|e]; [|discriminate].
  cbn [bind] in H.
  destruct (assign_metrics metrics (snd p)) as [d|e] eqn:A; [|discriminate].
  cbn [bind] in H.
  destruct (select d display_cols) as [tbl|e] eqn:S; [|discriminate].
  cbn [bind] in H.
  destruct (mean d avg_cols) as [means|e] eqn:M; [|discriminate].
  cbn [bind] in H. injection H as <- <-.
  exists p. cbn [date_range table avg]. repeat split; auto.
Qed.

(** The returned frame in terms of the input frame. *)
Lemma analysis_facts (a : script) (df : DataFrame) (filename : pystr)
  (shown : display) (out : DataFrame) :
  rectangular df = true ->
  analyze_and_display a df filename = Ok (Returned shown out) ->
  exists raw,
    getitem (normalize df) c_time = [raw] /\
    length raw = nrows df /\
    has_column (normalize df) c_seq = false /\
    (forall c, In c numeric_cols -> unique (normalize df) c = true) /\
    nrows out = length (row_order raw) /\
    (forall c, ~ In c (map target metrics) ->
       getitem out c
       = (if str_eqb c_seq c
          then [sequence_column (length (row_order raw))] else [])
         ++ map (fun s => map (cell_view c) (take (row_order raw) s))
                (getitem (normalize df) c)) /\
    labels out
    = fold_left add_label (map target metrics) (c_seq :: labels (normalize df))
    /\
    date_range shown = (date (time_fold Z.min (parsed_times raw)),
                        date (time_fold Z.max (parsed_times raw))) /\
    (forall m, In m metrics ->
       exists num den,
         length num = nrows out /\ length den = nrows out /\
         forall col, In col (getitem out (target m)) -> col = ratio num den).
Proof.
  intros R H. apply analysis_inv in H as (M & p & P & A & D & _).
  pose proof R as R'. rewrite <- rectangular_normalize in R'.
  destruct (calculated _ p R' M P)
    as (raw & out' & G & (Hlen & Hseq & U & Hd) & Hp & A' & Hn & _ & Hget
        & Hlab & Hall).
  rewrite A in A'. injection A' as <-.
  exists raw. repeat split; try assumption; try congruence.
  2:{ intros m Hm.
      destruct (Hall m Hm) as (num & den & _ & _ & Ln & Ld & _ & Hcol).
      eauto. }
  intros c Hc. rewrite Hget, Hp by assumption. apply getitem_rebuilt.
Qed.

End Returned.

(* ================================================================== *)
(** ** Derived metrics *)
(* ================================================================== *)

Section Metrics.

Context {L : Library}.

Lemma nth_ratio (num den : list nfloat) (i : nat) :
  length num = length den -> i < length num ->
  nth i (ratio num den) NA
  = of_nfloat (ndiv (nth i num None)
                    (if nzero (nth i den None) then None else nth i den None)).
Proof.
  intros Hl Hi. unfold ratio.
  change NA with (of_nfloat None). rewrite map_nth. f_equal.
  rewrite (nth_map2 _ _ _ ndiv num (replace0 den) i None None None);
    [| unfold replace0; now rewrite length_map | assumption].
  f_equal. unfold replace0.
  exact (map_nth (fun x : nfloat => if nzero x then None else x) den None i).
Qed.

Lemma length_ratio (num den : list nfloat) :
  length num = length den -> length (ratio num den) = length num.
Proof.
  intros H. unfold ratio, replace0. rewrite length_map.
  apply length_map2. now rewrite length_map.
Qed.



End Metrics.


(* ================================================================== *)
(** ** Rows: which are kept, in what order, with what values *)
(* ================================================================== *)

Section Rows.

Context {L : Library}.


Lemma parsed_cells (raw : Series) :
  map parse_cell (take (row_order raw) raw)
  = map (fun i => Time (time_of (nth i raw NA))) (row_order raw).
Proof.
  unfold take. rewrite map_map. apply map_ext_in. intros i Hi.
  apply in_row_order in Hi as [_ Hi]. unfold parse_cell, time_of.
  destruct (strptime_coerce (nth i raw NA)); [reflexivity | congruence].
Qed.

(** C2, as the code has it.  In a returned frame the sequence column is
    1..N, N the number of rows whose publish time parses; the rows are those
    rows, each once, and their parsed times ascend with the sequence number.
    The order among rows of equal publish time is whatever [sort_values]
    leaves with its default, unstable, kind. *)
Theorem sequence_follows_publish_time :
  forall (a : script) (df : DataFrame) (filename : pystr)
         (shown : display) (out : DataFrame),
    rectangular df = true ->
    analyze_and_display a df filename = Ok (Returned shown out) ->
    exists raw,
      getitem (normalize df) c_time = [raw] /\
      Permutation (row_order raw) (retained raw) /\
      nrows out = length (retained raw) /\
      getitem out c_seq = [sequence_column (nrows out)] /\
      getitem out c_time
      = [map (fun i => Time (time_of (nth i raw NA))) (row_order raw)] /\
      Sorted Z.le (map (fun i => time_of (nth i raw NA)) (row_order raw)).
Proof.
  intros a df filename shown out R H.
  destruct (analysis_facts a df filename shown out R H)
    as (raw & G & Hlen & Hseq & _ & Hn & Hget & _).
  exists raw. split; [assumption|].
  split; [apply row_order_perm|].
  split; [rewrite Hn; apply length_row_order|].
  split; [|split].
  - rewrite Hget by (apply mem_not_In; reflexivity).
    rewrite str_eqb_refl, Hn.
    apply getitem_nil_iff in Hseq. rewrite Hseq. reflexivity.
  - rewrite Hget by (apply mem_not_In; reflexivity).
    replace (str_eqb c_seq c_time) with false by reflexivity.
    rewrite G. cbn [app map]. f_equal.
    change (cell_view c_time) with parse_cell. apply parsed_cells.
  - apply row_order_sorted.
Qed.

(** C8.  The rows of a returned frame are exactly the input rows whose
    publish time parses, each once: the row at position [j] of every carried
    column is the input row [row_order raw] names at [j], and that list holds
    a position if and only if the value there parses. *)
Theorem unparseable_rows_are_dropped :
  forall (a : script) (df : DataFrame) (filename : pystr)
         (shown : display) (out : DataFrame),
    rectangular df = true ->
    analyze_and_display a df filename = Ok (Returned shown out) ->
    exists raw,
      getitem (normalize df) c_time = [raw] /\
      NoDup (row_order raw) /\
      (forall i, In i (row_order raw)
                 <-> i < nrows df /\ strptime_coerce (nth i raw NA) <> None) /\
      nrows out = length (row_order raw) /\
      (forall c, c <> c_seq -> ~ In c (map target metrics) ->
         getitem out c
         = map (fun s => map (cell_view c) (take (row_order raw) s))
               (getitem (normalize df) c)) /\
      (forall m col, In m metrics -> In col (getitem out (target m)) ->
         length col = length (row_order raw)).
Proof.
  intros a df filename shown out R H.
  destruct (analysis_facts a df filename shown out R H)
    as (raw & G & Hlen & Hseq & _ & Hn & Hget & _ & _ & Hall).
  exists raw. split; [assumption|].
  split; [apply NoDup_row_order|].
  split; [intros i; rewrite <- Hlen; apply in_row_order|].
  split; [assumption|]. split.
  - intros c Hc Ht. rewrite Hget by assumption.
    replace (str_eqb c_seq c) with false; [reflexivity|].
    symmetry. apply str_eqb_neq. congruence.
  - intros m col Hm Hcol.
    destruct (Hall m Hm) as (num & den & Ln & Ld & Hr).
    rewrite (Hr col Hcol), length_ratio; congruence.
Qed.

Lemma well_formed_parts (df : DataFrame) :
  well_formed df = true ->
  rectangular df = true /\
  (forall c, In c required_cols -> unique (normalize df) c = true) /\
  has_column (normalize df) c_seq = false /\
  missing_cols (normalize df) = [].
Proof.
  unfold well_formed. intros H.
  apply andb_true_iff in H as [H Hs]. apply andb_true_iff in H as [R U].
  apply negb_true_iff in Hs. rewrite forallb_forall in U.
  repeat split; try assumption.
  apply missing_cols_nil. intros c Hc.
  apply has_column_getitem.
  destruct (proj1 (unique_getitem _ c) (U c Hc)) as [s ->]. discriminate.
Qed.

(** A well-formed sheet is always analysed: nothing in its cells can make
    the analysis raise or return [None]. *)
Lemma well_formed_returns (a : script) (df : DataFrame) (filename : pystr) :
  well_formed df = true ->
  exists shown out, analyze_and_display a df filename = Ok (Returned shown out).
Proof.
  intros W. destruct (well_formed_parts df W) as (R & U & Hs & M).
  destruct (prepare_succeeds (normalize df)) as [p P].
  - now rewrite rectangular_normalize.
  - now apply forallb_forall.
  - assumption.
  - destruct (analysis_returned a df filename p R M P)
      as (out & tbl & means & _ & _ & _ & An).
    eauto.
Qed.


(** C10, as the code has it.  When no publish time of a well-formed sheet
    parses, no row is retained, the minimum and maximum of the empty time
    column are null and so are their dates, and the analysis returns a frame
    with no rows. *)
Theorem unparseable_file_gives_empty_frame :
  forall (a : script) (df : DataFrame) (filename : pystr),
    well_formed df = true ->
    (forall raw x, getitem (normalize df) c_time = [raw] -> In x raw ->
                   strptime_coerce x = None) ->
    exists shown out,
      analyze_and_display a df filename = Ok (Returned shown out) /\
      nrows out = 0 /\
      date_range shown = (None, None) /\
      forall c col, In col (getitem out c) -> col = [].
Proof.
  intros a df filename W Hnone.
  destruct (well_formed_returns a df filename W) as (shown & out & H).
  destruct (well_formed_parts df W) as (R & _).
  destruct (analysis_facts a df filename shown out R H)
    as (raw & G & Hlen & Hseq & U & Hn & Hget & _ & Hd & Hall).
  assert (Ho : row_order raw = []).
  { apply length_zero_iff_nil. rewrite length_row_order.
    unfold retained. rewrite filter_none; [reflexivity|].
    intros i Hi. apply in_seq in Hi. unfold parse_cell.
    rewrite (Hnone raw (nth i raw NA) G); [reflexivity|].
    apply nth_In. lia. }
  exists shown, out. split; [assumption|].
  rewrite Ho in *. cbn [length] in Hn.
  split; [assumption|]. split.
  { rewrite Hd. unfold parsed_times. rewrite Ho. reflexivity. }
  intros c col Hcol.
  destruct (mem c (map target metrics)) eqn:Ht.
  - apply mem_In in Ht. apply in_map_iff in Ht as (m & <- & Hm).
    destruct (Hall m Hm) as (num & den & Ln & Ld & Hr).
    rewrite (Hr col Hcol). rewrite Hn in Ln.
    apply length_zero_iff_nil in Ln. now subst num.
  - apply mem_not_In in Ht. rewrite (Hget c Ht) in Hcol.
    apply in_app_or in Hcol as [Hcol|Hcol].
    + destruct (str_eqb c_seq c); [|destruct Hcol].
      destruct Hcol as [<-|[]]. reflexivity.
    + apply in_map_iff in Hcol as (s & <- & _). reflexivity.
Qed.

End Rows.

Lemma sequence_follows_publish_time_witness :
  exists shown out,
    @analyze_and_display reference app1 posts posts_name
    = Ok (Returned shown out) /\
    exists raw,
      getitem (@normalize reference posts) c_time = [raw] /\
      Permutation (@row_order reference raw) (@retained reference raw) /\
      nrows out = length (@retained reference raw) /\
      getitem out c_seq = [sequence_column (nrows out)] /\
      getitem out c_time
      = [map (fun i => Time (@time_of reference (nth i raw NA)))
             (@row_order reference raw)] /\
      Sorted Z.le (map (fun i => @time_of reference (nth i raw NA))
                       (@row_order reference raw)).
Proof.
  eexists. eexists. split.
  - vm_compute. reflexivity.
  - eapply (@sequence_follows_publish_time reference app1 posts posts_name).
    + vm_compute. reflexivity.
    + vm_compute. reflexivity.
Defined.

(** Rows 8 ("P09") and 9 ("P10") of [diary] carry the same publish time.
    Eighteen keys are more than numpy's quicksort sorts by insertion: it
    partitions them around the key of row 8, and the exchange that brings the
    pivot back leaves row 9 in front of row 8.  The processed frame lists
    "P10" as number 9 and "P09" as number 10: input order is not kept. *)
Lemma ties_not_kept_counterexample :
  exists shown out raw,
    @analyze_and_display numpy app1 diary diary_name
    = Ok (Returned shown out) /\
    getitem (@normalize numpy diary) c_time = [raw] /\
    @time_of numpy (nth 8 raw NA) = @time_of numpy (nth 9 raw NA) /\
    Numpy.aquicksort (map (@time_of numpy) raw)
    = Some [0; 1; 2; 3; 4; 5; 6; 7; 9; 8; 10; 11; 12; 13; 14; 15; 16; 17] /\
    @row_order numpy raw
    = [0; 1; 2; 3; 4; 5; 6; 7; 9; 8; 10; 11; 12; 13; 14; 15; 16; 17] /\
    nth 8 (concat (getitem out c_title)) NA = txt "P10" /\
    nth 9 (concat (getitem out c_title)) NA = txt "P09" /\
    getitem out c_seq = [map (fun i => num (Z.of_nat i)) (seq 1 18)].
Proof.
  eexists. eexists. eexists. split; [vm_compute; reflexivity|].
  split; [vm_compute; reflexivity|].
  split; [vm_compute; reflexivity|].
  split; [vm_compute; reflexivity|].
  split; [vm_compute; reflexivity|].
  split; [vm_compute; reflexivity|].
  split; vm_compute; reflexivity.
Qed.

(** Up to seventeen keys the routine is an insertion sort, which keeps
    ties, and gives what the reference sort gives; eighteen equal keys come
    back out of order. *)
Example numpy_small_ranges_keep_ties :
  Numpy.aquicksort [3; 1; 2; 3]%Z = Some [1; 2; 0; 3] /\
  numpy_argsort [3; 1; 2; 3]%Z = Reference.argsort_by Z.leb [3; 1; 2; 3]%Z /\
  Numpy.aquicksort (repeat 5%Z 18)
  = Some [0; 15; 14; 13; 12; 11; 10; 9; 8; 7; 6; 5; 4; 3; 2; 1; 16; 17].
Proof.
  split; [vm_compute; reflexivity|].
  split; vm_compute; reflexivity.
Qed.

Lemma unparseable_rows_are_dropped_witness :
  exists shown out,
    @analyze_and_display reference app2 posts posts_name
    = Ok (Returned shown out) /\
    exists raw,
      getitem (@normalize reference posts) c_time = [raw] /\
      NoDup (@row_order reference raw) /\
      (forall i, In i (@row_order reference raw)
                 <-> i < nrows posts
                     /\ @strptime_coerce reference (nth i raw NA) <> None) /\
      nrows out = length (@row_order reference raw) /\
      (forall c, c <> c_seq -> ~ In c (map target metrics) ->
         getitem out c
         = map (fun s => map (@cell_view reference c)
                             (take (@row_order reference raw) s))
               (getitem (@normalize reference posts) c)) /\
      (forall m col, In m metrics -> In col (getitem out (target m)) ->
         length col = length (@row_order reference raw)).
Proof.
  eexists. eexists. split.
  - vm_compute. reflexivity.
  - eapply (@unparseable_rows_are_dropped reference app2 posts posts_name).
    + vm_compute. reflexivity.
    + vm_compute. reflexivity.
Defined.


Lemma unparseable_file_gives_empty_frame_witness :
  exists shown out,
    @analyze_and_display reference app1 undated undated_name
    = Ok (Returned shown out) /\
    nrows out = 0 /\
    date_range shown = (None, None) /\
    forall c col, In col (getitem out c) -> col = [].
Proof.
  apply (@unparseable_file_gives_empty_frame reference app1 undated
           undated_name).
  - vm_compute. reflexivity.
  - intros raw x G Hin. vm_compute in G. injection G as <-.
    cbn [In] in Hin. destruct Hin as [<-|[<-|[]]]; vm_compute; reflexivity.
Defined.

(** The sheet [undated] passes the column check, none of its publish times
    parses, and both scripts return its empty frame with a null date range:
    no exception is raised. *)
Lemma empty_frame_is_returned_counterexample :
  @missing_cols (@normalize reference undated) = [] /\
  (exists raw,
     getitem (@normalize reference undated) c_time = [raw] /\
     map (@strptime_coerce reference) raw = [None; None]) /\
  (exists shown out,
     @analyze_and_display reference app1 undated undated_name
     = Ok (Returned shown out) /\
     nrows out = 0 /\ date_range shown = (None, None)) /\
  (exists shown out,
     @analyze_and_display reference app2 undated undated_name
     = Ok (Returned shown out) /\
     nrows out = 0 /\ date_range shown = (None, None)).
Proof.
  split; [vm_compute; reflexivity|].
  split.
  { eexists. split; [vm_compute; reflexivity|]. vm_compute. reflexivity. }
  split.
  - eexists. eexists. split; [vm_compute; reflexivity|].
    split; vm_compute; reflexivity.
  - eexists. eexists. split; [vm_compute; reflexivity|].
    split; vm_compute; reflexivity.
Qed.

(* ================================================================== *)
(** ** Column means *)
(* ================================================================== *)

Section Means.

Context {L : Library}.

Lemma select_columns_inv (d : DataFrame) (cs : list label) :
  forall cols,
    select_columns d cs = Ok cols ->
    cols = flat_map (fun c => map (pair c) (getitem d c)) cs /\
    forall c, In c cs -> getitem d c <> [].
Proof.
  induction cs as [|c cs IH]; intros cols H; simpl in H.
  - injection H as <-. split; [reflexivity | intros c []].
  - destruct (getitem d c) as [|s sel] eqn:G; [discriminate|].
    destruct (select_columns d cs) as [rest|e]; [|discriminate].
    cbn [bind] in H. injection H as <-.
    destruct (IH rest eq_refl) as [-> Hne]. split.
    + cbn [flat_map]. now rewrite G.
    + intros c' [<-|Hc']; [rewrite G; discriminate | now apply Hne].
Qed.

Lemma all_null_mean (v : list nfloat) :
  Forall (fun x => x = None) v -> mean_of_non_null v = None.
Proof.
  intros H. unfold mean_of_non_null.
  replace (somes v) with (@nil float); [reflexivity|].
  induction H as [|x v -> _ IH]; simpl; [reflexivity | exact IH].
Qed.

(** C9.  The means a returned analysis shows are, for cover-click-rate,
    like-rate, favorite-rate, engagement-rate and follow-conversion-rate in
    this order, the arithmetic mean of the non-null entries of that column of
    the returned frame, and null when every entry of the column is null. *)
Theorem column_means_skip_nulls :
  forall (a : script) (df : DataFrame) (filename : pystr)
         (shown : display) (out : DataFrame),
    analyze_and_display a df filename = Ok (Returned shown out) ->
    (forall c, In c avg_cols -> getitem out c <> []) /\
    Forall2
      (fun (col : label * Series) (m : label * nfloat) =>
         fst m = fst col /\
         exists v,
           as_floats (snd col) = Ok v /\
           snd m = mean_of_non_null v /\
           (Forall (fun x => x = None) v -> snd m = None))
      (flat_map (fun c => map (pair c) (getitem out c)) avg_cols)
      (avg shown).
Proof.
  intros a df filename shown out H.
  apply analysis_inv in H as (_ & p & _ & _ & _ & _ & M).
  unfold mean, select in M.
  destruct (select_columns out avg_cols) as [cols|e] eqn:S; [|discriminate].
  cbn [bind columns] in M.
  apply select_columns_inv in S as [-> Hne]. split; [assumption|].
  apply frame_mean_inv in M.
  induction M as [|col m cols means [E (v & Hv & Hm)] _ IH]; constructor.
  - split; [assumption|]. exists v. repeat split; try assumption.
    intros Hall. rewrite Hm. now apply all_null_mean.
  - exact IH.
Qed.

End Means.

Lemma column_means_skip_nulls_witness :
  exists shown out,
    @analyze_and_display reference app1 posts posts_name
    = Ok (Returned shown out) /\
    (forall c, In c avg_cols -> getitem out c <> []) /\
    Forall2
      (fun (col : label * Series) (m : label * nfloat) =>
         fst m = fst col /\
         exists v,
           as_floats (snd col) = Ok v /\
           snd m = mean_of_non_null v /\
           (Forall (fun x => x = None) v -> snd m = None))
      (flat_map (fun c => map (pair c) (getitem out c)) avg_cols)
      (avg shown).
Proof.
  eexists. eexists. split.
  - vm_compute. reflexivity.
  - eapply (@column_means_skip_nulls reference app1 posts posts_name).
    vm_compute. reflexivity.
Defined.

(* ================================================================== *)
(** ** The report mapping *)
(* ================================================================== *)

Lemma dict_get_set (d : dict) (k k' : pystr) (v : DataFrame) :
  dict_get (dict_set d k v) k'
  = if str_eqb k k' then Some v else dict_get d k'.
Proof.
  induction d as [|[k0 v0] d IH]; simpl.
  - reflexivity.
  - destruct (str_eqb k0 k) eqn:E; simpl.
    + apply str_eqb_eq in E. subst k0. now destruct (str_eqb k k').
    + destruct (str_eqb k0 k') eqn:E'; [|exact IH].
      apply str_eqb_eq in E'. subst k0.
      rewrite str_eqb_sym in E. now rewrite E.
Qed.

Lemma keys_dict_set (d : dict) (k : pystr) (v : DataFrame) :
  map fst (dict_set d k v) = add_label (map fst d) k.
Proof.
  unfold add_label, mem.
  induction d as [|[k0 v0] d IH]; simpl; [reflexivity|].
  destruct (str_eqb k0 k); simpl; [reflexivity|].
  rewrite IH. now destruct (existsb (fun l => str_eqb l k) (map fst d)).
Qed.

Lemma NoDup_add_label (ls : list pystr) (k : pystr) :
  NoDup ls -> NoDup (add_label ls k).
Proof.
  intros H. unfold add_label. destruct (mem k ls) eqn:E; [assumption|].
  apply mem_not_In in E.
  apply (Permutation_NoDup (l := k :: ls)).
  - apply Permutation_cons_append.
  - now constructor.
Qed.



Section Loops.

Context {L : Library}.


Lemma sheet_name_alnum (filename : pystr) :
  Forall (fun ch => isalnum ch = true) (sheet_name filename).
Proof.
  unfold sheet_name. apply Forall_forall. intros ch H.
  assert (K : In ch (filter isalnum filename)).
  { rewrite <- (firstn_skipn 31). apply in_or_app. now left. }
  now apply filter_In in K.
Qed.

Lemma keys_record_analysis (p : page) (f : UploadedFile) (r : analysis) :
  NoDup (map fst (processed_dfs p)) ->
  NoDup (map fst (processed_dfs (record_analysis p f r))).
Proof.
  intros N. destruct r as [e|shown d]; cbn [record_analysis processed_dfs].
  - assumption.
  - rewrite keys_dict_set. now apply NoDup_add_label.
Qed.

Lemma get_record_analysis (a : script) (p : page) (f : UploadedFile)
  (r : analysis) (k : pystr) :
  process a f = Ok r ->
  dict_get (processed_dfs (record_analysis p f r)) k
  = match writes a k f with
    | Some d => Some d
    | None => dict_get (processed_dfs p) k
    end.
Proof.
  intros H. unfold writes. rewrite H.
  destruct r as [e|shown d]; cbn [record_analysis processed_dfs].
  - now destruct (str_eqb (sheet_name (name f)) k).
  - rewrite dict_get_set.
    now destruct (str_eqb (sheet_name (name f)) k).
Qed.

Lemma app1_step_get (p : page) (f : UploadedFile) (k : pystr) :
  dict_get (processed_dfs (app1_step p f)) k
  = match writes app1 k f with
    | Some d => Some d
    | None => dict_get (processed_dfs p) k
    end.
Proof.
  unfold app1_step. destruct (process app1 f) as [r|e] eqn:H.
  - now apply get_record_analysis.
  - unfold writes. rewrite H. cbn [processed_dfs].
    now destruct (str_eqb (sheet_name (name f)) k).
Qed.

Lemma app1_step_keys (p : page) (f : UploadedFile) :
  NoDup (map fst (processed_dfs p)) ->
  NoDup (map fst (processed_dfs (app1_step p f))).
Proof.
  intros N. unfold app1_step. destruct (process app1 f) as [r|e].
  - now apply keys_record_analysis.
  - assumption.
Qed.

Lemma app1_fold (files : list UploadedFile) :
  forall p0,
    NoDup (map fst (processed_dfs p0)) ->
    NoDup (map fst (processed_dfs (fold_left app1_step files p0))) /\
    forall k,
      dict_get (processed_dfs (fold_left app1_step files p0)) k
      = match last_write app1 k files with
        | Some d => Some d
        | None => dict_get (processed_dfs p0) k
        end.
Proof.
  induction files as [|f files IH]; intros p0 N; simpl.
  - split; [assumption | reflexivity].
  - destruct (IH (app1_step p0 f) (app1_step_keys p0 f N)) as [N' G].
    split; [assumption|]. intros k. rewrite G.
    destruct (last_write app1 k files); [reflexivity|].
    apply app1_step_get.
Qed.

Lemma app2_fold (files : list UploadedFile) :
  forall p0 p,
    app2_from p0 files = Ok p ->
    NoDup (map fst (processed_dfs p0)) ->
    NoDup (map fst (processed_dfs p)) /\
    forall k,
      dict_get (processed_dfs p) k
      = match last_write app2 k files with
        | Some d => Some d
        | None => dict_get (processed_dfs p0) k
        end.
Proof.
  induction files as [|f files IH]; intros p0 p H N; simpl in H.
  - injection H as <-. split; [assumption | reflexivity].
  - unfold app2_step in H.
    destruct (process app2 f) as [r|e] eqn:P; [|discriminate].
    cbn [bind] in H.
    destruct (IH _ _ H (keys_record_analysis p0 f r N)) as [N' G].
    split; [assumption|]. intros k. rewrite G. cbn [last_write].
    destruct (last_write app2 k files); [reflexivity|].
    now apply get_record_analysis.
Qed.


(** The report mapping at the end of either loop. *)
Lemma loop_mapping (a : script) (files : list UploadedFile) (p : page) :
  loop_result a files = Some p ->
  NoDup (map fst (processed_dfs p)) /\
  forall k, dict_get (processed_dfs p) k = last_write a k files.
Proof.
  assert (N0 : NoDup (map fst (processed_dfs empty_page))) by constructor.
  destruct a; unfold loop_result.
  - intros [= <-]. destruct (app1_fold files empty_page N0) as [N G].
    split; [assumption|]. intros k. unfold app1_loop. rewrite G.
    now destruct (last_write app1 k files).
  - unfold app2_loop.
    destruct (app2_from empty_page files) as [p'|e] eqn:H; [|discriminate].
    intros [= <-]. destruct (app2_fold files empty_page p' H N0) as [N G].
    split; [assumption|]. intros k. rewrite G.
    now destruct (last_write app2 k files).
Qed.

End Loops.

(* ================================================================== *)
(** ** Files, sheets and the two loops *)
(* ================================================================== *)

Section Files.

Context {L : Library}.

Lemma in_missing_cols (nd : DataFrame) (c : label) :
  In c (missing_cols nd) <-> In c required_cols /\ ~ In c (labels nd).
Proof.
  unfold missing_cols. rewrite filter_In, negb_true_iff.
  rewrite <- has_column_In. destruct (has_column nd c); split;
    intros [H1 H2]; split; congruence.
Qed.

Lemma analysis_skipped (a : script) (df : DataFrame) (filename : pystr) :
  missing_cols (normalize df) <> [] ->
  analyze_and_display a df filename
  = Ok (ReturnedNone
          (MissingColumns (match a with
                           | app1 => Some filename
                           | app2 => None
                           end)
                          (missing_cols (normalize df)))).
Proof.
  intros H. unfold analyze_and_display.
  destruct (missing_cols (normalize df)); [contradiction | reflexivity].
Qed.

(** C5.  When a required column is absent after stripping and renaming,
    the analysis returns [None] after one [st.error] naming exactly the
    required labels that are absent, and in both scripts the file adds
    nothing to the report mapping or to the displayed reports. *)
Theorem missing_columns_skip_the_file :
  forall (df : DataFrame) (filename : pystr),
    missing_cols (normalize df) <> [] ->
    analyze_and_display app1 df filename
    = Ok (ReturnedNone
            (MissingColumns (Some filename) (missing_cols (normalize df)))) /\
    analyze_and_display app2 df filename
    = Ok (ReturnedNone (MissingColumns None (missing_cols (normalize df)))) /\
    (forall c, In c (missing_cols (normalize df))
               <-> In c required_cols /\ ~ In c (labels (normalize df))) /\
    forall (p : page) (f : UploadedFile),
      read_excel f = Ok df -> name f = filename ->
      (processed_dfs (app1_step p f) = processed_dfs p /\
       reports (app1_step p f) = reports p /\
       errors (app1_step p f)
       = errors p
         ++ [MissingColumns (Some filename) (missing_cols (normalize df))]) /\
      exists p',
        app2_step p f = Ok p' /\
        processed_dfs p' = processed_dfs p /\
        reports p' = reports p /\
        errors p'
        = errors p ++ [MissingColumns None (missing_cols (normalize df))].
Proof.
  intros df filename H.
  pose proof (analysis_skipped app1 df filename H) as A1.
  pose proof (analysis_skipped app2 df filename H) as A2.
  split; [exact A1|]. split; [exact A2|].
  split; [intros c; apply in_missing_cols|].
  intros p f Hr Hn. subst filename. split.
  - unfold app1_step, process. rewrite Hr. cbn [bind]. rewrite A1.
    repeat split; reflexivity.
  - unfold app2_step, process. rewrite Hr. cbn [bind]. rewrite A2.
    cbn [bind]. eexists. repeat split; reflexivity.
Qed.

Lemma last_write_app (a : script) (k : pystr) (xs ys : list UploadedFile) :
  last_write a k (xs ++ ys)
  = match last_write a k ys with
    | Some d => Some d
    | None => last_write a k xs
    end.
Proof.
  induction xs as [|x xs IH]; simpl.
  - now destruct (last_write a k ys).
  - rewrite IH. now destruct (last_write a k ys).
Qed.

Lemma last_write_none (a : script) (k : pystr) (files : list UploadedFile) :
  (forall g, In g files -> writes a k g = None) -> last_write a k files = None.
Proof.
  induction files as [|f files IH]; intros H; simpl; [reflexivity|].
  rewrite IH by (intros; apply H; now right). apply H. now left.
Qed.






End Files.

Lemma missing_columns_skip_the_file_witness :
  @analyze_and_display reference app1 no_favorites (name no_favorites_file)
  = Ok (ReturnedNone
          (MissingColumns (Some (name no_favorites_file))
             (@missing_cols (@normalize reference no_favorites)))) /\
  @analyze_and_display reference app2 no_favorites (name no_favorites_file)
  = Ok (ReturnedNone
          (MissingColumns None
             (@missing_cols (@normalize reference no_favorites)))) /\
  (forall c, In c (@missing_cols (@normalize reference no_favorites))
             <-> In c required_cols
                 /\ ~ In c (labels (@normalize reference no_favorites))) /\
  forall (p : page) (f : UploadedFile),
    read_excel f = Ok no_favorites -> name f = name no_favorites_file ->
    (processed_dfs (@app1_step reference p f) = processed_dfs p /\
     reports (@app1_step reference p f) = reports p /\
     errors (@app1_step reference p f)
     = errors p
       ++ [MissingColumns (Some (name no_favorites_file))
             (@missing_cols (@normalize reference no_favorites))]) /\
    exists p',
      @app2_step reference p f = Ok p' /\
      processed_dfs p' = processed_dfs p /\
      reports p' = reports p /\
      errors p'
      = errors p
        ++ [MissingColumns None
              (@missing_cols (@normalize reference no_favorites))].
Proof.
  apply (@missing_columns_skip_the_file reference no_favorites
           (name no_favorites_file)).
  vm_compute. discriminate.
Defined.

(** The file without favorites is rejected naming that column. *)
Example no_favorites_names_the_column :
  @missing_cols (@normalize reference no_favorites) = [c_favorites].
Proof. vm_compute. reflexivity. Qed.


(** Both uploads give the sheet name of the first; one entry remains, and it
    is the frame of the second. *)
Example two_uploads_one_sheet :
  @sheet_name reference (name posts_file)
  = @sheet_name reference (name later_file) /\
  map fst (processed_dfs (@app1_loop reference two_uploads))
  = [utf8 "笔记列表明细表1xlsx"] /\
  map (fun kv => getitem (snd kv) c_title)
      (processed_dfs (@app1_loop reference two_uploads))
  = [[[txt "G"]]].
Proof.
  split; [vm_compute; reflexivity|].
  split; vm_compute; reflexivity.
Qed.



(** The table shown on the page does have the documented order. *)
Example shown_table_has_display_order :
  exists shown out,
    @analyze_and_display reference app1 posts posts_name
    = Ok (Returned shown out) /\
    labels (table shown) = display_cols.
Proof.
  eexists. eexists. split; vm_compute; reflexivity.
Qed.

(* ================================================================== *)
(** ** A file that raises *)
(* ================================================================== *)

Section Isolation.

Context {L : Library}.

(** [app2.py]: an exception in one file ends the loop; the files after it
    are not read. *)
Lemma app2_stops (before after : list UploadedFile) (f : UploadedFile)
  (e : exn) (p0 : page) :
  (forall g, In g before -> succeeds (process app2 g) = true) ->
  process app2 f = Raise e ->
  app2_from p0 (before ++ f :: after) = Raise e.
Proof.
  revert p0. induction before as [|g before IH]; intros p0 Hb Hf; simpl.
  - unfold app2_step. rewrite Hf. reflexivity.
  - unfold app2_step.
    assert (Hg := Hb g (or_introl eq_refl)).
    destruct (process app2 g) as [r|e']; [|discriminate].
    cbn [bind]. apply IH; [|assumption]. intros; apply Hb. now right.
Qed.

(** [app1.py]: every returned file reaches the report mapping, whatever the
    files before it did. *)
Lemma app1_continues (before after : list UploadedFile) (f : UploadedFile)
  (shown : display) (d : DataFrame) :
  process app1 f = Ok (Returned shown d) ->
  (forall g, In g after -> writes app1 (sheet_name (name f)) g = None) ->
  dict_get (processed_dfs (app1_loop (before ++ f :: after)))
           (sheet_name (name f))
  = Some d.
Proof.
  intros Hp Ha.
  destruct (loop_mapping app1 (before ++ f :: after) _ eq_refl) as [_ G].
  rewrite G, last_write_app. cbn [last_write].
  rewrite (last_write_none _ _ _ Ha). unfold writes.
  now rewrite str_eqb_refl, Hp.
Qed.

End Isolation.


(* ================================================================== *)
(** ** The column normalizer *)
(* ================================================================== *)

Lemma lookup_In (m : list (pystr * pystr)) (k v : pystr) :
  lookup m k = Some v -> In v (map snd m).
Proof.
  induction m as [|[k' v'] m IH]; simpl; [discriminate|].
  destruct (str_eqb k' k); [intros [= ->]; now left | right; auto].
Qed.

Lemma canonical_not_renamed (v : pystr) :
  In v (map snd rename_map) ->
  lookup rename_map v = None /\ In v required_cols.
Proof.
  unfold rename_map. cbn [map snd In]. intros H.
  repeat destruct H as [<-|H];
    try (split; [reflexivity | apply mem_In; reflexivity]).
  destruct H.
Qed.

Lemma required_not_renamed (l : pystr) :
  In l required_cols -> lookup rename_map l = None.
Proof.
  unfold required_cols. cbn [In]. intros H.
  repeat destruct H as [<-|H]; try reflexivity. destruct H.
Qed.

(** X1.  Renaming through [rename_map] sends every label it changes to one
    of the eleven required labels, leaves the required labels alone, and so
    changes nothing when applied twice. *)
Theorem rename_reaches_required_labels :
  forall l : pystr,
    rename (rename l) = rename l /\
    (In l required_cols -> rename l = l) /\
    (rename l <> l -> In (rename l) required_cols).
Proof.
  intros l. unfold rename.
  destruct (lookup rename_map l) as [v|] eqn:E.
  - destruct (canonical_not_renamed v (lookup_In _ _ _ E)) as [N R].
    rewrite N. repeat split; auto.
    intros Hl. apply required_not_renamed in Hl. congruence.
  - rewrite E. repeat split; auto. intros H. now contradiction H.
Qed.

Section Normalizer.

Context {L : Library}.

Lemma lstrip_snoc (s : pystr) (c : N) :
  isspace c = false -> lstrip (s ++ [c]) = lstrip s ++ [c].
Proof.
  intros H. induction s as [|x s IH]; simpl.
  - now rewrite H.
  - destruct (isspace x); [exact IH | reflexivity].
Qed.

Lemma lstrip_lstrip (s : pystr) : lstrip (lstrip s) = lstrip s.
Proof.
  induction s as [|x s IH]; simpl; [reflexivity|].
  destruct (isspace x) eqn:E; [exact IH|]. simpl. now rewrite E.
Qed.

(** Stripping the end of a string keeps a clean start clean. *)
Lemma rstrip_keeps_start (s : pystr) :
  lstrip s = s -> lstrip (rev (lstrip (rev s))) = rev (lstrip (rev s)).
Proof.
  destruct s as [|c s]; [reflexivity|]. simpl.
  destruct (isspace c) eqn:E.
  - intros H. exfalso.
    assert (K : length (lstrip s) <= length s).
    { clear. induction s as [|x s IH]; simpl; [lia|].
      destruct (isspace x); simpl; lia. }
    rewrite H in K. simpl in K. lia.
  - intros _. rewrite lstrip_snoc by assumption.
    rewrite rev_app_distr. simpl. now rewrite E.
Qed.

Lemma strip_strip (s : pystr) : strip (strip s) = strip s.
Proof.
  unfold strip.
  pose proof (rstrip_keeps_start (lstrip s) (lstrip_lstrip s)) as H.
  rewrite H, rev_involutive, lstrip_lstrip. reflexivity.
Qed.

Lemma lstrip_no_space (s : pystr) :
  existsb isspace s = false -> lstrip s = s.
Proof.
  destruct s as [|c s]; simpl; [reflexivity|].
  intros H. apply orb_false_iff in H as [-> _]. reflexivity.
Qed.

Lemma strip_no_space (s : pystr) :
  existsb isspace s = false -> strip s = s.
Proof.
  intros H. unfold strip. rewrite (lstrip_no_space s H).
  rewrite lstrip_no_space, rev_involutive; [reflexivity|].
  destruct (existsb isspace (rev s)) eqn:E; [|reflexivity].
  apply existsb_exists in E as (x & Hx & Hs).
  apply in_rev in Hx.
  assert (K : existsb isspace s = true)
    by (apply existsb_exists; eauto).
  congruence.
Qed.

Lemma relabel_twice (l : pystr) :
  canonical_clean = true ->
  rename (strip (rename (strip l))) = rename (strip l).
Proof.
  intros C. unfold rename at 2.
  destruct (lookup rename_map (strip l)) as [v|] eqn:E.
  - assert (Hv := lookup_In _ _ _ E).
    assert (Hs : existsb isspace v = false).
    { unfold canonical_clean in C. rewrite forallb_forall in C.
      apply in_map_iff in Hv as (kv & <- & Hkv).
      apply C in Hkv. now apply negb_true_iff in Hkv. }
    rewrite (strip_no_space v Hs). unfold rename.
    now rewrite E, (proj1 (canonical_not_renamed v Hv)).
  - rewrite strip_strip. unfold rename. now rewrite E.
Qed.

(** X2.  Normalising the labels touches nothing but the labels: the index
    and the contents of every column stay, in the same order.  When no
    canonical label holds a whitespace character, normalising a normalised
    frame changes nothing. *)
Theorem normalize_is_idempotent :
  canonical_clean = true ->
  forall df : DataFrame,
    normalize (normalize df) = normalize df /\
    index (normalize df) = index df /\
    map snd (columns (normalize df)) = map snd (columns df) /\
    labels (normalize df) = map (fun l => rename (strip l)) (labels df).
Proof.
  intros C df. unfold normalize, rename_columns, strip_columns, labels.
  cbn [index columns]. rewrite !map_map. cbn [fst snd].
  split; [|split; [reflexivity|split; reflexivity]].
  f_equal. apply map_ext. intros [l x]. cbn [fst snd].
  now rewrite relabel_twice.
Qed.

End Normalizer.

Lemma normalize_is_idempotent_witness :
  @normalize reference (@normalize reference posts) = @normalize reference posts
  /\ index (@normalize reference posts) = index posts
  /\ map snd (columns (@normalize reference posts)) = map snd (columns posts)
  /\ labels (@normalize reference posts)
     = map (fun l => rename (@strip reference l)) (labels posts).
Proof.
  apply (@normalize_is_idempotent reference). reflexivity.
Defined.

(* ================================================================== *)
(** ** The three outcomes of the analysis *)
(* ================================================================== *)

Section Outcomes.

Context {L : Library}.

Lemma prepare_analysable (nd : DataFrame) :
  rectangular nd = true -> analysable nd = true -> exists p, prepare nd = Ok p.
Proof.
  intros R A. unfold analysable in A.
  apply andb_true_iff in A as [U Hs]. apply negb_true_iff in Hs.
  rewrite forallb_forall in U.
  destruct (proj1 (unique_getitem nd c_time) (U c_time (or_introl eq_refl)))
    as [raw G].
  assert (Hlen : length raw = nrows nd).
  { apply (rectangular_length nd c_time raw R). rewrite G. now left. }
  unfold prepare. rewrite (sanitize_eval nd raw G Hlen), Hs.
  cbn [bind]. rewrite (time_range_rebuilt raw nd G). cbn [bind].
  destruct (coerce_numeric_succeeds numeric_cols
              (rebuilt time_view (row_order raw) nd)) as [d' ->].
  - intros c Hc. rewrite unique_rebuilt.
    + apply U. now right.
    + unfold numeric_cols in Hc. cbn [In] in Hc.
      repeat destruct Hc as [<-|Hc]; try reflexivity. destruct Hc.
  - cbn [bind]. eauto.
Qed.

Lemma returned_is_analysable (a : script) (df : DataFrame) (filename : pystr)
  (shown : display) (out : DataFrame) :
  rectangular df = true ->
  analyze_and_display a df filename = Ok (Returned shown out) ->
  missing_cols (normalize df) = [] /\ analysable (normalize df) = true.
Proof.
  intros R H. split; [now apply analysis_inv in H|].
  destruct (analysis_facts a df filename shown out R H)
    as (raw & G & _ & Hseq & U & _).
  unfold analysable. rewrite Hseq, andb_true_r.
  apply forallb_forall. intros c [<-|Hc]; [|now apply U].
  apply unique_getitem. eauto.
Qed.

Lemma not_skipped (a : script) (df : DataFrame) (filename : pystr)
  (msg : st_error) :
  analyze_and_display a df filename = Ok (ReturnedNone msg) ->
  missing_cols (normalize df) <> [].
Proof.
  unfold analyze_and_display.
  destruct (missing_cols (normalize df)); [|discriminate].
  destruct (prepare (normalize df)) as [p|e]; [|discriminate].
  cbn [bind].
  destruct (assign_metrics metrics (snd p)) as [d|e]; [|discriminate].
  cbn [bind]. destruct (select d display_cols); [|discriminate].
  cbn [bind]. destruct (mean d avg_cols); discriminate.
Qed.

(** X3.  What decides the outcome of [analyze_and_display] on a sheet: it
    returns [None] exactly when a required label is missing; otherwise it
    returns the processed frame exactly when the publish-time label and each
    of the eight numeric labels name one column and no column is labelled
    with the sequence label; otherwise it raises. *)
Theorem analysis_outcomes :
  forall (a : script) (df : DataFrame) (filename : pystr),
    rectangular df = true ->
    (missing_cols (normalize df) <> [] <->
     exists msg, analyze_and_display a df filename = Ok (ReturnedNone msg)) /\
    (missing_cols (normalize df) = [] /\ analysable (normalize df) = true <->
     exists shown out,
       analyze_and_display a df filename = Ok (Returned shown out)) /\
    (missing_cols (normalize df) = [] /\ analysable (normalize df) = false <->
     exists e, analyze_and_display a df filename = Raise e).
Proof.
  intros a df filename R.
  assert (Hret : missing_cols (normalize df) = [] ->
                 analysable (normalize df) = true ->
                 exists shown out,
                   analyze_and_display a df filename = Ok (Returned shown out)).
  { intros M A. destruct (prepare_analysable (normalize df)) as [p P];
      [now rewrite rectangular_normalize | assumption |].
    destruct (analysis_returned a df filename p R M P)
      as (out & tbl & means & _ & _ & _ & An). eauto. }
  split; [|split].
  - split.
    + intros M. eexists. now apply analysis_skipped.
    + intros [msg H]. eapply not_skipped; eauto.
  - split.
    + intros [M A]. now apply Hret.
    + intros (shown & out & H). eapply returned_is_analysable; eauto.
  - split.
    + intros [M A].
      destruct (analyze_and_display a df filename) as [[msg|shown out]|e] eqn:H.
      * apply not_skipped in H. contradiction.
      * apply (returned_is_analysable a df filename shown out R) in H.
        destruct H. congruence.
      * eauto.
    + intros [e H].
      destruct (missing_cols (normalize df)) as [|c cs] eqn:M.
      * split; [reflexivity|].
        destruct (analysable (normalize df)) eqn:A; [|reflexivity].
        destruct (Hret eq_refl eq_refl) as (shown & out & H'). congruence.
      * rewrite analysis_skipped in H by (rewrite M; discriminate).
        discriminate.
Qed.

(** X4.  A sheet that already has a column labelled with the sequence label
    is not analysed: [df.insert(0, "序号", ...)] raises ValueError, after the
    dates were parsed and before anything is shown. *)
Theorem sequence_column_is_refused :
  forall (a : script) (df : DataFrame) (filename : pystr),
    rectangular df = true ->
    missing_cols (normalize df) = [] ->
    unique (normalize df) c_time = true ->
    has_column (normalize df) c_seq = true ->
    analyze_and_display a df filename = Raise ValueError.
Proof.
  intros a df filename R M U Hs.
  apply unique_getitem in U as [raw G].
  assert (Hlen : length raw = nrows (normalize df)).
  { apply (rectangular_length (normalize df) c_time raw).
    - now rewrite rectangular_normalize.
    - rewrite G. now left. }
  unfold analyze_and_display, prepare.
  rewrite M, (sanitize_eval _ raw G Hlen), Hs. reflexivity.
Qed.

End Outcomes.

Lemma analysis_outcomes_witness :
  (@missing_cols (@normalize reference posts) <> [] <->
   exists msg,
     @analyze_and_display reference app1 posts posts_name
     = Ok (ReturnedNone msg)) /\
  (@missing_cols (@normalize reference posts) = []
   /\ @analysable (@normalize reference posts) = true <->
   exists shown out,
     @analyze_and_display reference app1 posts posts_name
     = Ok (Returned shown out)) /\
  (@missing_cols (@normalize reference posts) = []
   /\ @analysable (@normalize reference posts) = false <->
   exists e, @analyze_and_display reference app1 posts posts_name = Raise e).
Proof.
  apply (@analysis_outcomes reference app1 posts posts_name). reflexivity.
Defined.

Lemma sequence_column_is_refused_witness :
  @analyze_and_display reference app2 numbered (name numbered_file)
  = Raise ValueError.
Proof.
  apply (@sequence_column_is_refused reference app2 numbered
           (name numbered_file)); vm_compute; reflexivity.
Defined.

(* ================================================================== *)
(** ** The date range shown *)
(* ================================================================== *)

Lemma time_fold_min (ts : list Z) :
  match time_fold Z.min (map Time ts) with
  | None => ts = []
  | Some m => In m ts /\ forall t, In t ts -> (m <= t)%Z
  end.
Proof.
  induction ts as [|t ts IH]; simpl; [reflexivity|].
  destruct (time_fold Z.min (map Time ts)) as [u|].
  - destruct IH as [Hu Hle]. split.
    + destruct (Z.min_spec t u) as [[_ ->]|[_ ->]]; auto.
    + intros x [<-|Hx]; [lia|]. specialize (Hle x Hx). lia.
  - subst ts. split; [now left|]. intros x [<-|[]]. lia.
Qed.

Lemma time_fold_max (ts : list Z) :
  match time_fold Z.max (map Time ts) with
  | None => ts = []
  | Some m => In m ts /\ forall t, In t ts -> (t <= m)%Z
  end.
Proof.
  induction ts as [|t ts IH]; simpl; [reflexivity|].
  destruct (time_fold Z.max (map Time ts)) as [u|].
  - destruct IH as [Hu Hle]. split.
    + destruct (Z.max_spec t u) as [[_ ->]|[_ ->]]; auto.
    + intros x [<-|Hx]; [lia|]. specialize (Hle x Hx). lia.
  - subst ts. split; [now left|]. intros x [<-|[]]. lia.
Qed.

Section Range.

Context {L : Library}.

(** X5.  The date range shown for a returned frame brackets its publish
    times: with no row it is (NaT, NaT); otherwise its ends are the days of
    two publish times of the frame, and every publish time of the frame lies
    between them, to the nanosecond and to the day. *)
Theorem shown_range_brackets_times :
  forall (a : script) (df : DataFrame) (filename : pystr)
         (shown : display) (out : DataFrame),
    rectangular df = true ->
    analyze_and_display a df filename = Ok (Returned shown out) ->
    exists times : list Z,
      getitem out c_time = [map Time times] /\
      length times = nrows out /\
      match times with
      | [] => date_range shown = (None, None)
      | _ :: _ =>
          exists lo hi,
            date_range shown
            = (Some (lo / ns_per_day)%Z, Some (hi / ns_per_day)%Z) /\
            In lo times /\ In hi times /\
            forall t, In t times ->
              (lo <= t <= hi)%Z /\
              (lo / ns_per_day <= t / ns_per_day <= hi / ns_per_day)%Z
      end.
Proof.
  intros a df filename shown out R H.
  destruct (analysis_facts a df filename shown out R H)
    as (raw & G & _ & _ & _ & Hn & Hget & _ & Hd & _).
  set (times := map (fun i => time_of (nth i raw NA)) (row_order raw)).
  assert (Hp : parsed_times raw = map Time times).
  { unfold parsed_times, times. rewrite parsed_cells, map_map. reflexivity. }
  exists times. split; [|split].
  - rewrite Hget by (apply mem_not_In; reflexivity).
    replace (str_eqb c_seq c_time) with false by reflexivity.
    rewrite G. cbn [app map]. f_equal. exact Hp.
  - unfold times. now rewrite length_map.
  - rewrite Hd, Hp.
    pose proof (time_fold_min times) as Hmin.
    pose proof (time_fold_max times) as Hmax.
    destruct times as [|t0 ts] eqn:E; [reflexivity|].
    destruct (time_fold Z.min (map Time (t0 :: ts))) as [lo|];
      [|discriminate].
    destruct (time_fold Z.max (map Time (t0 :: ts))) as [hi|];
      [|discriminate].
    destruct Hmin as [Hlo Hle]. destruct Hmax as [Hhi Hge].
    exists lo, hi. split; [reflexivity|]. split; [assumption|].
    split; [assumption|]. intros t Ht.
    specialize (Hle t Ht). specialize (Hge t Ht).
    split; [lia|]. split; apply Z.div_le_mono; unfold ns_per_day; lia.
Qed.

End Range.

Lemma shown_range_brackets_times_witness :
  exists shown out,
    @analyze_and_display reference app1 posts posts_name
    = Ok (Returned shown out) /\
    exists times : list Z,
      getitem out c_time = [map Time times] /\
      length times = nrows out /\
      match times with
      | [] => date_range shown = (None, None)
      | _ :: _ =>
          exists lo hi,
            date_range shown
            = (Some (lo / ns_per_day)%Z, Some (hi / ns_per_day)%Z) /\
            In lo times /\ In hi times /\
            forall t, In t times ->
              (lo <= t <= hi)%Z /\
              (lo / ns_per_day <= t / ns_per_day <= hi / ns_per_day)%Z
      end.
Proof.
  eexists. eexists. split.
  - vm_compute. reflexivity.
  - eapply (@shown_range_brackets_times reference app1 posts posts_name).
    + vm_compute. reflexivity.
    + vm_compute. reflexivity.
Defined.

(* ================================================================== *)
(** ** The metrics, row by row *)
(* ================================================================== *)

Section RowFormulas.

Context {L : Library}.

Lemma number_at_ready (d : DataFrame) (c : label) (w : list float) (i : nat) :
  getitem d c = [map Flt w] -> i < length w ->
  number_at d i c = nth i (map Some w) None.
Proof.
  intros G Hi. unfold number_at. rewrite G.
  rewrite (nth_indep _ NA (Flt fzero)) by (now rewrite length_map).
  rewrite (nth_indep (map Some w) None (Some fzero))
    by (now rewrite length_map).
  now rewrite (map_nth Flt), (map_nth Some).
Qed.

Lemma eval_rows (d : DataFrame) (e : expr) :
  numeric_ready d ->
  (forall c, In c (expr_cols e) -> In c numeric_cols) ->
  forall v, eval d e = Ok v ->
    length v = nrows d /\
    forall i, i < nrows d -> nth i v None = eval_row (number_at d i) e.
Proof.
  intros R. induction e as [c|x IHx y IHy]; intros H v E; simpl in E.
  - destruct (R c) as (w & G & Hl); [apply H; now left|].
    unfold numeric_col in E. rewrite G, as_floats_Flt in E.
    injection E as <-. split; [now rewrite length_map|].
    intros i Hi. cbn [eval_row]. symmetry.
    apply number_at_ready; [assumption | lia].
  - destruct (eval d x) as [vx|] eqn:Ex; [|discriminate].
    destruct (eval d y) as [vy|] eqn:Ey; [|discriminate].
    cbn [bind] in E. injection E as <-.
    destruct (IHx (fun c Hc => H c (in_or_app _ _ c (or_introl Hc))) vx eq_refl)
      as [Lx Nx].
    destruct (IHy (fun c Hc => H c (in_or_app _ _ c (or_intror Hc))) vy eq_refl)
      as [Ly Ny].
    unfold series_add. split; [rewrite length_map2; congruence|].
    intros i Hi. cbn [eval_row].
    rewrite (nth_map2 _ _ _ nadd vx vy i None None None) by congruence.
    now rewrite Nx, Ny.
Qed.

(** Each derived cell is the ratio of its own row. *)
Lemma metric_cell (a : script) (df : DataFrame) (filename : pystr)
  (shown : display) (out : DataFrame) :
  rectangular df = true ->
  analyze_and_display a df filename = Ok (Returned shown out) ->
  forall m col i,
    In m metrics -> In col (getitem out (target m)) -> i < nrows out ->
    nth i col NA = of_nfloat (row_ratio out i m).
Proof.
  intros R H m col i Hm Hcol Hi.
  apply analysis_inv in H as (M & p & P & A & _).
  pose proof R as R'. rewrite <- rectangular_normalize in R'.
  destruct (calculated _ p R' M P)
    as (raw & out' & _ & _ & _ & A' & _ & Ro & _ & _ & Hall).
  rewrite A in A'. injection A' as <-.
  destruct (Hall m Hm) as (num & den & En & Ed & Ln & Ld & _ & Hc).
  rewrite (Hc col Hcol), nth_ratio by congruence.
  destruct (proj1 (Forall_forall _ _) metrics_ok m Hm) as [Hcols _].
  destruct (eval_rows out (numerator m) Ro
              (fun c Hc' => Hcols c (in_or_app _ _ c (or_introl Hc'))) num En)
    as [_ Nn].
  destruct (eval_rows out (denominator m) Ro
              (fun c Hc' => Hcols c (in_or_app _ _ c (or_intror Hc'))) den Ed)
    as [_ Nd].
  unfold row_ratio. now rewrite Nn, Nd.
Qed.

(** X6.  The column arithmetic computes, in every row of a returned frame,
    the ratio of that row alone: each cell of a derived column is the
    numerator expression of its metric over the denominator expression, both
    read at the same row, and null where the denominator is zero. *)
Theorem metrics_are_rowwise :
  forall (a : script) (df : DataFrame) (filename : pystr)
         (shown : display) (out : DataFrame),
    rectangular df = true ->
    analyze_and_display a df filename = Ok (Returned shown out) ->
    forall m col i,
      In m metrics -> In col (getitem out (target m)) -> i < nrows out ->
      nth i col NA
      = of_nfloat
          (ndiv (eval_row (number_at out i) (numerator m))
                (if nzero (eval_row (number_at out i) (denominator m))
                 then None
                 else eval_row (number_at out i) (denominator m))).
Proof.
  intros a df filename shown out R H m col i Hm Hcol Hi.
  exact (metric_cell a df filename shown out R H m col i Hm Hcol Hi).
Qed.

End RowFormulas.

Lemma metrics_are_rowwise_witness :
  exists shown out,
    @analyze_and_display reference app2 posts posts_name
    = Ok (Returned shown out) /\
    forall m col i,
      In m metrics -> In col (getitem out (target m)) -> i < nrows out ->
      nth i col NA
      = of_nfloat
          (ndiv (eval_row (number_at out i) (numerator m))
                (if nzero (eval_row (number_at out i) (denominator m))
                 then None
                 else eval_row (number_at out i) (denominator m))).
Proof.
  eexists. eexists. split.
  - vm_compute. reflexivity.
  - eapply (@metrics_are_rowwise reference app2 posts posts_name).
    + vm_compute. reflexivity.
    + vm_compute. reflexivity.
Defined.

(* ================================================================== *)
(** ** The table shown on the page *)
(* ================================================================== *)

Section Table.

Context {L : Library}.

Lemma assign_metric_inv (d d1 : DataFrame) (m : metric) :
  assign_metric d m = Ok d1 -> exists r, d1 = setitem d (target m) r.
Proof.
  unfold assign_metric.
  destruct (eval d (numerator m)) as [n|]; [|discriminate].
  destruct (eval d (denominator m)) as [dn|]; [|discriminate].
  cbn [bind]. destruct (truediv n (replace0 dn)) as [r|]; [|discriminate].
  cbn [bind]. intros [= <-]. eauto.
Qed.

Lemma length_getitem_after_setitem (d : DataFrame) (t c : label) (r : Series) :
  length (getitem (setitem d t r) c)
  = if str_eqb t c then Nat.max 1 (length (getitem d c))
    else length (getitem d c).
Proof.
  destruct (str_eqb t c) eqn:E.
  - apply str_eqb_eq in E. subst c. rewrite getitem_setitem_same.
    destruct (has_column d t) eqn:Hh.
    + rewrite length_map. apply has_column_getitem in Hh.
      destruct (getitem d t); [contradiction | simpl; lia].
    + apply getitem_nil_iff in Hh. now rewrite Hh.
  - apply str_eqb_neq in E. now rewrite getitem_setitem_other.
Qed.

Lemma assign_metrics_length (ms : list metric) :
  forall d out,
    assign_metrics ms d = Ok out ->
    forall c,
      length (getitem out c)
      = if mem c (map target ms) then Nat.max 1 (length (getitem d c))
        else length (getitem d c).
Proof.
  induction ms as [|m ms IH]; intros d out H c; simpl in H.
  - injection H as <-. reflexivity.
  - destruct (assign_metric d m) as [d1|] eqn:A; [|discriminate].
    cbn [bind] in H. apply assign_metric_inv in A as [r ->].
    rewrite (IH _ _ H c), length_getitem_after_setitem.
    cbn [map mem existsb]. fold (mem c (map target ms)).
    destruct (str_eqb (target m) c), (mem c (map target ms)); cbn [orb]; lia.
Qed.

Lemma singletons_select (d : DataFrame) (cs : list label) :
  (forall c, In c cs -> length (getitem d c) = 1) ->
  map fst (flat_map (fun c => map (pair c) (getitem d c)) cs) = cs.
Proof.
  induction cs as [|c cs IH]; intros H; simpl; [reflexivity|].
  rewrite map_app, IH by (intros; apply H; now right).
  assert (Hc := H c (or_introl eq_refl)).
  destruct (getitem d c) as [|s [|]]; try discriminate. reflexivity.
Qed.

(** The display columns of a returned frame are one column each when the
    sheet is well-formed and carries no derived label twice. *)
Lemma display_columns_unique (a : script) (df : DataFrame) (filename : pystr)
  (shown : display) (out : DataFrame) :
  well_formed df = true ->
  plain (normalize df) = true ->
  analyze_and_display a df filename = Ok (Returned shown out) ->
  forall c, In c display_cols \/ c = c_comment_rate ->
            length (getitem out c) = 1.
Proof.
  intros W Pl H c Hc.
  destruct (well_formed_parts df W) as (R & U & Hs & M).
  apply analysis_inv in H as (_ & p & P & A & _).
  pose proof R as R'. rewrite <- rectangular_normalize in R'.
  destruct (calculated _ p R' M P) as (raw & out' & _ & _ & Hp & _).
  rewrite (assign_metrics_length metrics _ _ A c), Hp, getitem_rebuilt.
  rewrite length_app, length_map.
  apply getitem_nil_iff in Hs.
  unfold plain in Pl. rewrite forallb_forall in Pl.
  assert (Hreq : forall r, In r required_cols ->
                           length (getitem (normalize df) r) = 1).
  { intros r Hr. specialize (U r Hr). unfold unique in U.
    now apply Nat.eqb_eq in U. }
  assert (Htg : forall t, In t (map target metrics) ->
                          length (getitem (normalize df) t) <= 1).
  { intros t Ht. apply in_map_iff in Ht as (m & <- & Hm).
    specialize (Pl m Hm). now apply Nat.leb_le in Pl. }
  assert (Cases :
            c = c_seq \/ In c required_cols \/ In c (map target metrics)).
  { destruct Hc as [Hc| ->]; [|right; right; apply mem_In; reflexivity].
    unfold display_cols in Hc. cbn [In] in Hc.
    repeat destruct Hc as [<-|Hc];
      first [ now left
            | right; left; apply mem_In; reflexivity
            | right; right; apply mem_In; reflexivity
            | destruct Hc ]. }
  destruct Cases as [->|[Hr|Ht]].
  - rewrite str_eqb_refl, Hs. reflexivity.
  - rewrite (Hreq c Hr).
    replace (mem c (map target metrics)) with false.
    + replace (str_eqb c_seq c) with false; [reflexivity|].
      unfold required_cols in Hr. cbn [In] in Hr.
      repeat destruct Hr as [<-|Hr]; try reflexivity. destruct Hr.
    + unfold required_cols in Hr. cbn [In] in Hr.
      repeat destruct Hr as [<-|Hr]; try reflexivity. destruct Hr.
  - specialize (Htg c Ht).
    replace (mem c (map target metrics)) with true
      by (symmetry; now apply mem_In).
    replace (str_eqb c_seq c) with false.
    + cbn [length]. lia.
    + cbn [map target metrics In] in Ht.
      repeat destruct Ht as [<-|Ht]; try reflexivity. destruct Ht.
Qed.

(** X8.  For a well-formed sheet that carries no derived label twice, the
    table shown on the page has exactly the eighteen display columns in
    their documented order, each taken from the returned frame, over the same
    rows.  The comment-rate column is in the returned frame and is not in the
    table. *)
Theorem shown_table_columns :
  forall (a : script) (df : DataFrame) (filename : pystr)
         (shown : display) (out : DataFrame),
    well_formed df = true ->
    plain (normalize df) = true ->
    analyze_and_display a df filename = Ok (Returned shown out) ->
    labels (table shown) = display_cols /\
    index (table shown) = index out /\
    (forall c col, In (c, col) (columns (table shown)) ->
                   getitem out c = [col]) /\
    length (getitem out c_comment_rate) = 1 /\
    getitem (table shown) c_comment_rate = [].
Proof.
  intros a df filename shown out W Pl H.
  pose proof (display_columns_unique a df filename shown out W Pl H) as U.
  apply analysis_inv in H as (_ & p & _ & _ & _ & S & _).
  unfold select in S.
  destruct (select_columns out display_cols) as [cols|] eqn:E; [|discriminate].
  cbn [bind] in S. injection S as S.
  apply select_columns_inv in E as [-> _].
  assert (Hl : labels (table shown) = display_cols).
  { rewrite <- S. unfold labels. cbn [columns].
    apply singletons_select. intros c Hc. apply U. now left. }
  split; [exact Hl|]. split; [now rewrite <- S|]. split; [|split].
  - intros c col Hin. rewrite <- S in Hin. cbn [columns] in Hin.
    apply in_flat_map in Hin as (c' & Hc' & Hin).
    apply in_map_iff in Hin as (col' & [= <- <-] & Hcol).
    specialize (U c' (or_introl Hc')).
    destruct (getitem out c') as [|s [|]]; try discriminate.
    destruct Hcol as [<-|[]]. reflexivity.
  - apply U. now right.
  - apply getitem_nil_iff. apply not_true_iff_false. intros K.
    apply has_column_In in K. rewrite Hl in K.
    apply mem_In in K. discriminate K.
Qed.

End Table.

Lemma shown_table_columns_witness :
  exists shown out,
    @analyze_and_display reference app1 posts posts_name
    = Ok (Returned shown out) /\
    labels (table shown) = display_cols /\
    index (table shown) = index out /\
    (forall c col, In (c, col) (columns (table shown)) ->
                   getitem out c = [col]) /\
    length (getitem out c_comment_rate) = 1 /\
    getitem (table shown) c_comment_rate = [].
Proof.
  eexists. eexists. split.
  - vm_compute. reflexivity.
  - eapply (@shown_table_columns reference app1 posts posts_name).
    + vm_compute. reflexivity.
    + vm_compute. reflexivity.
    + vm_compute. reflexivity.
Defined.

(* ================================================================== *)
(** ** The point labels of the line charts *)
(* ================================================================== *)

Lemma point_labels_never_raise (col : label) (points : list (cell * nfloat))
  (e : exn) :
  point_labels col points <> Raises e.
Proof.
  induction points as [|[x [y|]] points IH]; simpl; try discriminate;
    [|exact IH].
  unfold label_of.
  destruct (is_rate_column col).
  - destruct (point_labels col points); try discriminate. assumption.
  - destruct y as [q|s]; [|discriminate].
    destruct (Qlt_bool q 1 && Qlt_bool 0 q);
      destruct (point_labels col points); try discriminate; assumption.
Qed.

Lemma point_labels_percent (col : label) (points : list (cell * nfloat)) :
  is_rate_column col = true ->
  exists ls,
    point_labels col points = Labels ls /\
    length ls = length (filter (fun p => is_some (snd p)) points) /\
    Forall (fun t => text t = Percent (at_y t)) ls.
Proof.
  intros Hr. induction points as [|[x [y|]] points (ls & E & Hl & Hp)]; simpl.
  - exists []. repeat split. constructor.
  - unfold label_of. rewrite Hr, E. eexists. split; [reflexivity|].
    split; [simpl; now rewrite Hl|]. constructor; [reflexivity | assumption].
  - eauto.
Qed.

Lemma int_of_integer (z : Z) : int_of (inject_Z z) = z.
Proof. unfold int_of, inject_Z. cbn [Qnum Qden]. apply Z.quot_1_r. Qed.

Lemma integer_not_fraction (z : Z) :
  Qlt_bool (inject_Z z) 1 && Qlt_bool 0 (inject_Z z) = false.
Proof.
  unfold Qlt_bool, Qle_bool, inject_Z. cbn [Qnum Qden].
  destruct (1 * 1 <=? z * 1)%Z eqn:A, (z * 1 <=? 0 * 1)%Z eqn:B;
    try reflexivity.
  apply Z.leb_gt in A. apply Z.leb_gt in B. lia.
Qed.

Lemma point_labels_finite (col : label) (xs : list cell) (v : list float) :
  is_rate_column col = false ->
  Forall (fun y => exists q, y = Fin q) v ->
  length xs = length v ->
  exists ls,
    point_labels col (combine xs (map Some v)) = Labels ls /\
    length ls = length v /\
    Forall (fun t => forall z, at_y t = Fin (inject_Z z) -> text t = Whole z)
           ls.
Proof.
  intros Hr Hf. revert xs.
  induction Hf as [|y v [q ->] _ IH]; intros xs Hl.
  - destruct xs; [|discriminate]. exists []. repeat split. constructor.
  - destruct xs as [|x xs]; [discriminate|].
    destruct (IH xs) as (ls & E & Hlen & Hp); [now injection Hl|].
    cbn [map combine point_labels]. unfold label_of. rewrite Hr.
    destruct (Qlt_bool q 1 && Qlt_bool 0 q) eqn:F; rewrite E;
      (eexists; split; [reflexivity|]);
      (split; [simpl; now rewrite Hlen|]);
      (constructor; [|assumption]); cbn [at_y text]; intros z [= ->].
    + now rewrite integer_not_fraction in F.
    + now rewrite int_of_integer.
Qed.

Lemma point_labels_overflow (col : label) (points : list (cell * nfloat))
  (x : cell) (s : bool) :
  is_rate_column col = false ->
  In (x, Some (Inf s)) points ->
  point_labels col points = RaisesOverflow.
Proof.
  intros Hr. induction points as [|[x' [y|]] points IH]; intros Hin.
  - destruct Hin.
  - cbn [point_labels]. unfold label_of. rewrite Hr.
    destruct y as [q|s']; [|reflexivity].
    destruct Hin as [[= ]|Hin]. rewrite (IH Hin).
    now destruct (Qlt_bool q 1 && Qlt_bool 0 q).
  - cbn [point_labels]. destruct Hin as [[= ]|Hin]. now apply IH.
Qed.

Lemma plot_labels_all (cols : list label) (d : DataFrame)
  (n : label -> nat) (P : text_label -> Prop) :
  (forall c, In c cols ->
     exists l, column_labels d c = Labels l /\ length l = n c /\ Forall P l) ->
  exists ls,
    plot_with_labels cols d = Labels ls /\
    length ls = list_sum (map n cols) /\ Forall P ls.
Proof.
  induction cols as [|c cols IH]; intros H; simpl.
  - exists []. repeat split. constructor.
  - destruct (H c (or_introl eq_refl)) as (l & -> & Hl & Hp).
    destruct IH as (ls & -> & Hls & Hps); [intros; apply H; now right|].
    exists (l ++ ls). split; [reflexivity|].
    split; [rewrite length_app; lia | now apply Forall_app].
Qed.

Lemma plot_overflows (cols : list label) (d : DataFrame) (c : label) :
  In c cols ->
  column_labels d c = RaisesOverflow ->
  (forall c' e, In c' cols -> column_labels d c' <> Raises e) ->
  plot_with_labels cols d = RaisesOverflow.
Proof.
  induction cols as [|c0 cols IH]; intros Hin Hc Hne; [destruct Hin|].
  cbn [plot_with_labels].
  destruct (column_labels d c0) as [l|e|] eqn:E.
  - destruct Hin as [->|Hin]; [congruence|].
    rewrite IH; [reflexivity | assumption | assumption |].
    intros c' e Hc'. apply Hne. now right.
  - exfalso. apply (Hne c0 e); [now left | assumption].
  - reflexivity.
Qed.

Lemma in_combine_with (A B : Type) (xs : list A) (ys : list B) (y : B) :
  length xs = length ys -> In y ys -> exists x, In (x, y) (combine xs ys).
Proof.
  revert ys. induction xs as [|x xs IH]; intros [|y0 ys] Hl Hin;
    simpl in *; try discriminate; [destruct Hin|].
  destruct Hin as [->|Hin]; [eauto|].
  destruct (IH ys) as [x' Hx']; [now injection Hl | assumption | eauto].
Qed.

Lemma count_points (xs : list cell) (ys : list nfloat) :
  length xs = length ys ->
  length (filter (fun p : cell * nfloat => is_some (snd p)) (combine xs ys))
  = length (filter notna (map of_nfloat ys)).
Proof.
  revert ys. induction xs as [|x xs IH]; intros [|y ys] Hl;
    simpl in Hl; try discriminate; [reflexivity|].
  injection Hl as Hl. cbn [combine map].
  destruct y as [v|]; cbn [filter snd is_some of_nfloat notna length];
    now rewrite (IH ys Hl).
Qed.

Lemma holds_pd_NA_iff (d : DataFrame) (c : label) :
  holds_pd_NA d c = true
  <-> exists m,
        In m metrics /\ target m = c /\ zero_in d (denominator m) = true.
Proof.
  unfold holds_pd_NA. rewrite existsb_exists. split.
  - intros (m & Hm & H). apply andb_true_iff in H as [Ht Hz].
    apply str_eqb_eq in Ht. eauto.
  - intros (m & Hm & <- & Hz). exists m. split; [assumption|].
    now rewrite str_eqb_refl.
Qed.

(** No counter column is assigned by a metric: it never holds pd.NA. *)
Lemma numeric_no_pd_NA (d : DataFrame) (c : label) :
  In c numeric_cols -> holds_pd_NA d c = false.
Proof.
  intros Hc. apply not_true_is_false. intros H.
  apply holds_pd_NA_iff in H as (m & Hm & <- & _).
  exact (proj2 (proj1 (Forall_forall _ _) metrics_ok m Hm) Hc).
Qed.

Lemma zero_in_views (d : DataFrame) (v : list float) :
  getitem d c_views = [map Flt v] ->
  zero_in d (Col c_views) = existsb is_zero v.
Proof.
  intros G. unfold zero_in. cbn [eval]. unfold numeric_col.
  rewrite G, as_floats_Flt. clear G.
  induction v as [|x v IH]; cbn [map existsb nzero];
    [reflexivity | now rewrite IH].
Qed.

Section Charts.

Context {L : Library}.

Lemma length_sequence_column (n : nat) : length (sequence_column n) = n.
Proof. unfold sequence_column. now rewrite length_map, length_seq. Qed.

(** What the charts read in a returned frame. *)
Lemma charted (a : script) (df : DataFrame) (filename : pystr)
  (shown : display) (out : DataFrame) :
  rectangular df = true ->
  analyze_and_display a df filename = Ok (Returned shown out) ->
  getitem out c_seq = [sequence_column (nrows out)] /\ numeric_ready out.
Proof.
  intros R H. split.
  - destruct (analysis_facts a df filename shown out R H)
      as (raw & _ & _ & Hseq & _ & Hn & Hget & _).
    rewrite Hget by (apply mem_not_In; reflexivity).
    rewrite str_eqb_refl, Hn. apply getitem_nil_iff in Hseq.
    now rewrite Hseq.
  - apply analysis_inv in H as (M & p & P & A & _).
    pose proof R as R'. rewrite <- rectangular_normalize in R'.
    destruct (calculated _ p R' M P)
      as (raw & out' & _ & _ & _ & A' & _ & Ro & _).
    rewrite A in A'. now injection A' as <-.
Qed.

Lemma base_column_points (d : DataFrame) (c : label) :
  getitem d c_seq = [sequence_column (nrows d)] ->
  numeric_ready d ->
  In c numeric_cols ->
  exists v,
    getitem d c = [map Flt v] /\ length v = nrows d /\
    column_labels d c
    = point_labels c (combine (sequence_column (nrows d)) (map Some v)).
Proof.
  intros Hs R Hc. destruct (R c Hc) as (v & G & Hl).
  exists v. repeat split; try assumption.
  unfold column_labels, numeric_col. rewrite Hs, G, as_floats_Flt.
  now rewrite (numeric_no_pd_NA d c Hc).
Qed.

Lemma base_is_numeric (c : label) : In c base_columns -> In c numeric_cols.
Proof.
  unfold base_columns. cbn [In]. intros H.
  repeat destruct H as [<-|H]; try (apply mem_In; reflexivity). destruct H.
Qed.

Lemma base_is_not_rate (c : label) :
  In c base_columns -> is_rate_column c = false.
Proof.
  unfold base_columns. cbn [In]. intros H.
  repeat destruct H as [<-|H]; try reflexivity. destruct H.
Qed.

(** X9.  The base-data chart of [app1.py] on a returned frame whose five
    plotted counters are all finite: labelling raises nothing and writes one
    label for every point of every plotted column, and a point whose value is
    a whole number is labelled with that number. *)
Theorem base_chart_labels :
  forall (a : script) (df : DataFrame) (filename : pystr)
         (shown : display) (out : DataFrame),
    rectangular df = true ->
    analyze_and_display a df filename = Ok (Returned shown out) ->
    (forall c col x,
       In c base_columns -> In col (getitem out c) -> In x col ->
       exists q, x = Flt (Fin q)) ->
    exists ls,
      plot_with_labels base_columns out = Labels ls /\
      length ls = 5 * nrows out /\
      Forall (fun t => forall z, at_y t = Fin (inject_Z z) -> text t = Whole z)
             ls.
Proof.
  intros a df filename shown out R H Hfin.
  destruct (charted a df filename shown out R H) as [Hs Ro].
  destruct (plot_labels_all base_columns out (fun _ => nrows out)
              (fun t => forall z, at_y t = Fin (inject_Z z) -> text t = Whole z))
    as (ls & E & Hl & Hp).
  - intros c Hc.
    destruct (base_column_points out c Hs Ro (base_is_numeric c Hc))
      as (v & G & Hv & ->).
    destruct (point_labels_finite c (sequence_column (nrows out)) v
                (base_is_not_rate c Hc)) as (ls & E & Hl & Hp).
    + apply Forall_forall. intros y Hy.
      destruct (Hfin c (map Flt v) (Flt y) Hc) as [q [= ->]];
        [rewrite G; now left | now apply in_map | eauto].
    + now rewrite length_sequence_column.
    + exists ls. repeat split; try assumption. congruence.
  - exists ls. split; [assumption|]. split; [|assumption].
    rewrite Hl. unfold base_columns, list_sum. simpl. lia.
Qed.

(** X10.  When one of the five plotted counters of a returned frame holds
    an infinity, labelling the base-data chart of [app1.py] raises
    OverflowError: [int(y)] is reached with an infinite [y]. *)
Theorem infinite_counter_overflows :
  forall (a : script) (df : DataFrame) (filename : pystr)
         (shown : display) (out : DataFrame) (c : label) (col : Series)
         (s : bool),
    rectangular df = true ->
    analyze_and_display a df filename = Ok (Returned shown out) ->
    In c base_columns -> In col (getitem out c) -> In (Flt (Inf s)) col ->
    plot_with_labels base_columns out = RaisesOverflow.
Proof.
  intros a df filename shown out c col s R H Hc Hcol Hinf.
  destruct (charted a df filename shown out R H) as [Hs Ro].
  apply (plot_overflows base_columns out c Hc).
  - destruct (base_column_points out c Hs Ro (base_is_numeric c Hc))
      as (v & G & Hv & ->).
    rewrite G in Hcol. destruct Hcol as [<-|[]].
    apply in_map_iff in Hinf as (y & [= ->] & Hy).
    destruct (in_combine_with _ _ (sequence_column (nrows out)) (map Some v)
                (Some (Inf s)))
      as [x Hx];
      [now rewrite length_sequence_column, length_map | now apply in_map |].
    apply (point_labels_overflow c _ x s (base_is_not_rate c Hc) Hx).
  - intros c' e Hc'.
    destruct (base_column_points out c' Hs Ro (base_is_numeric c' Hc'))
      as (v & _ & _ & ->).
    apply point_labels_never_raise.
Qed.

Lemma trend_is_rate (c : label) :
  In c trend_columns ->
  is_rate_column c = true /\ In c display_cols /\ In c (map target metrics).
Proof.
  unfold trend_columns. cbn [In]. intros H.
  repeat destruct H as [<-|H];
    try (split; [reflexivity | split; apply mem_In; reflexivity]).
  destruct H.
Qed.

(** The three rates of the trend chart are all taken over the views. *)
Lemma trend_reads_views (m : metric) (c : label) :
  In m metrics -> In c trend_columns -> target m = c ->
  denominator m = Col c_views.
Proof.
  unfold metrics, trend_columns. cbn [In]. intros Hm Hc E.
  repeat destruct Hm as [<-|Hm]; try destruct Hm; cbn [target] in E;
    try reflexivity;
    repeat destruct Hc as [<-|Hc]; try destruct Hc;
    vm_compute in E; discriminate.
Qed.

Lemma trend_without_pd_NA (d : DataFrame) (c : label) :
  numeric_ready d ->
  (forall col x,
     In col (getitem d c_views) -> In (Flt x) col -> is_zero x = false) ->
  In c trend_columns ->
  holds_pd_NA d c = false.
Proof.
  intros R Hz Hc. apply not_true_is_false. intros H.
  apply holds_pd_NA_iff in H as (m & Hm & Ht & Z).
  rewrite (trend_reads_views m c Hm Hc Ht) in Z.
  destruct (R c_views) as (v & G & _); [apply mem_In; reflexivity|].
  rewrite (zero_in_views d v G) in Z.
  apply existsb_exists in Z as (x & Hx & Zx).
  rewrite (Hz (map Flt v) x) in Zx;
    [discriminate | rewrite G; now left | now apply in_map].
Qed.

(** X11.  The trend chart of [app1.py] on the frame returned for a
    well-formed sheet that carries no derived label twice and has no
    retained row with zero views: drawing and labelling raise nothing, every
    label is a percentage of its point's value, and there is one label for
    each cell of like-rate, favorite-rate and engagement-rate that is not
    null. *)
Theorem trend_chart_labels :
  forall (a : script) (df : DataFrame) (filename : pystr)
         (shown : display) (out : DataFrame),
    well_formed df = true ->
    plain (normalize df) = true ->
    analyze_and_display a df filename = Ok (Returned shown out) ->
    (forall col x,
       In col (getitem out c_views) -> In (Flt x) col -> is_zero x = false) ->
    exists ls,
      plot_with_labels trend_columns out = Labels ls /\
      length ls
      = list_sum (map (fun c => length (filter notna (concat (getitem out c))))
                      trend_columns) /\
      Forall (fun t => text t = Percent (at_y t)) ls.
Proof.
  intros a df filename shown out W Pl H Hz.
  destruct (well_formed_parts df W) as (R & _).
  destruct (charted a df filename shown out R H) as [Hs Ro].
  pose proof (display_columns_unique a df filename shown out W Pl H) as U.
  destruct (analysis_facts a df filename shown out R H)
    as (_ & _ & _ & _ & _ & _ & _ & _ & _ & Hall).
  apply plot_labels_all. intros c Hc.
  pose proof (trend_without_pd_NA out c Ro Hz Hc) as Hna.
  destruct (trend_is_rate c Hc) as (Hr & Hd & Ht).
  apply in_map_iff in Ht as (m & <- & Hm).
  destruct (Hall m Hm) as (num & den & Ln & Ld & Hcol).
  specialize (U (target m) (or_introl Hd)).
  destruct (getitem out (target m)) as [|col [|]] eqn:G; try discriminate.
  pose proof (Hcol col (or_introl eq_refl)) as ->.
  unfold column_labels, numeric_col. rewrite Hs, G, Hna.
  unfold ratio at 1. rewrite as_floats_of_nfloat.
  destruct (point_labels_percent (target m)
              (combine (sequence_column (nrows out))
                       (map2 ndiv num (replace0 den))) Hr)
    as (ls & E & Hl & Hp).
  exists ls. repeat split; try assumption.
  rewrite Hl, count_points.
  - cbn [concat]. rewrite app_nil_r. reflexivity.
  - rewrite length_sequence_column, length_map2;
      unfold replace0; rewrite ?length_map; congruence.
Qed.

(** X18.  A retained row with zero views breaks the trend chart of
    [app1.py]: the like-rate column then holds pd.NA, and the first
    [ax.plot] raises TypeError before any label is written. *)
Theorem zero_views_break_trend_chart :
  forall (a : script) (df : DataFrame) (filename : pystr)
         (shown : display) (out : DataFrame) (col : Series) (x : float),
    well_formed df = true ->
    plain (normalize df) = true ->
    analyze_and_display a df filename = Ok (Returned shown out) ->
    In col (getitem out c_views) -> In (Flt x) col -> is_zero x = true ->
    plot_with_labels trend_columns out = Raises TypeError.
Proof.
  intros a df filename shown out col x W Pl H Hcol Hx Zx.
  destruct (well_formed_parts df W) as (R & _).
  destruct (charted a df filename shown out R H) as [Hs Ro].
  assert (Hd : In c_like_rate display_cols) by (apply mem_In; reflexivity).
  pose proof (display_columns_unique a df filename shown out W Pl H
                c_like_rate (or_introl Hd)) as U.
  destruct (analysis_facts a df filename shown out R H)
    as (_ & _ & _ & _ & _ & _ & _ & _ & _ & Hall).
  destruct (Hall _ (or_introl eq_refl)) as (num & den & _ & _ & Hlike).
  cbn [target] in Hlike.
  assert (P : holds_pd_NA out c_like_rate = true).
  { apply holds_pd_NA_iff. eexists. split; [left; reflexivity|].
    split; [reflexivity|]. cbn [denominator].
    destruct (Ro c_views) as (v & G & _); [apply mem_In; reflexivity|].
    rewrite (zero_in_views out v G). apply existsb_exists.
    exists x. split; [|assumption].
    rewrite G in Hcol. destruct Hcol as [<-|[]].
    now apply in_map_iff in Hx as (y & [= ->] & Hy). }
  destruct (getitem out c_like_rate) as [|s [|]] eqn:G; try discriminate.
  unfold trend_columns. cbn [plot_with_labels].
  unfold column_labels, numeric_col. rewrite Hs, G, P.
  rewrite (Hlike s (or_introl eq_refl)). unfold ratio.
  now rewrite as_floats_of_nfloat.
Qed.

End Charts.

(** The export [later] has one row, with 300 views. *)
Lemma base_chart_labels_witness :
  exists shown out ls,
    @analyze_and_display reference app1 later (name later_file)
    = Ok (Returned shown out) /\
    plot_with_labels base_columns out = Labels ls /\
    length ls = 5 * nrows out /\
    Forall (fun t => forall z, at_y t = Fin (inject_Z z) -> text t = Whole z)
           ls.
Proof.
  eexists. eexists.
  assert (H : @analyze_and_display reference app1 later (name later_file)
              = Ok (Returned ?[shown] ?[out]))
    by (vm_compute; reflexivity).
  destruct (@base_chart_labels reference app1 later (name later_file) _ _
              eq_refl H)
    as (ls & E & Hl & Hp).
  - intros c col x Hc Hcol Hx. cbn [base_columns In] in Hc.
    repeat destruct Hc as [<-|Hc]; try (destruct Hc);
      vm_compute in Hcol; destruct Hcol as [<-|[]];
      cbn [In] in Hx; repeat destruct Hx as [<-|Hx]; try (destruct Hx);
      eexists; reflexivity.
  - exists ls. split; [exact H|]. split; [exact E|].
    split; [exact Hl|exact Hp].
Defined.

(** The second exposure count of the sample [unbounded] is infinite. *)
Lemma infinite_counter_overflows_witness :
  exists shown out,
    @analyze_and_display reference app1 unbounded (utf8 "unbounded.xlsx")
    = Ok (Returned shown out) /\
    plot_with_labels base_columns out = RaisesOverflow.
Proof.
  eexists. eexists. split.
  - vm_compute. reflexivity.
  - eapply (@infinite_counter_overflows reference app1 unbounded
              (utf8 "unbounded.xlsx") _ _ c_exposure _ false).
    + vm_compute. reflexivity.
    + vm_compute. reflexivity.
    + apply mem_In. reflexivity.
    + vm_compute. left. reflexivity.
    + right. left. reflexivity.
Defined.

Lemma trend_chart_labels_witness :
  exists shown out ls,
    @analyze_and_display reference app1 later (name later_file)
    = Ok (Returned shown out) /\
    plot_with_labels trend_columns out = Labels ls /\
    length ls
    = list_sum (map (fun c => length (filter notna (concat (getitem out c))))
                    trend_columns) /\
    Forall (fun t => text t = Percent (at_y t)) ls.
Proof.
  eexists. eexists.
  assert (H : @analyze_and_display reference app1 later (name later_file)
              = Ok (Returned ?[shown] ?[out]))
    by (vm_compute; reflexivity).
  destruct (@trend_chart_labels reference app1 later (name later_file) _ _
              eq_refl eq_refl H) as (ls & E & Hl & Hp).
  - intros col x Hcol Hx. vm_compute in Hcol. destruct Hcol as [<-|[]].
    cbn [In] in Hx. destruct Hx as [[= <-]|[]]. reflexivity.
  - exists ls. split; [exact H|]. split; [exact E|].
    split; [exact Hl|exact Hp].
Defined.

(** The sample [posts] keeps a row without views. *)
Lemma zero_views_break_trend_chart_witness :
  exists shown out,
    @analyze_and_display reference app1 posts posts_name
    = Ok (Returned shown out) /\
    In (Flt (Fin 0)) (concat (getitem out c_views)) /\
    plot_with_labels trend_columns out = Raises TypeError.
Proof.
  eexists. eexists.
  assert (H : @analyze_and_display reference app1 posts posts_name
              = Ok (Returned ?[shown] ?[out]))
    by (vm_compute; reflexivity).
  split; [exact H|]. split; [vm_compute; left; reflexivity|].
  eapply (@zero_views_break_trend_chart reference app1 posts posts_name _ _
            _ (Fin 0) eq_refl eq_refl H).
  - vm_compute. left. reflexivity.
  - vm_compute. left. reflexivity.
  - reflexivity.
Defined.

(** On [later] the trend chart has three percentage labels and the base
    chart five; on [posts], whose first retained row has no views, the trend
    chart stops at its first line. *)
Example later_chart_labels :
  exists shown out l1 l2,
    @analyze_and_display reference app1 later (name later_file)
    = Ok (Returned shown out) /\
    plot_with_labels trend_columns out = Labels l1 /\ length l1 = 3 /\
    plot_with_labels base_columns out = Labels l2 /\ length l2 = 5.
Proof.
  eexists. eexists. eexists. eexists.
  split; [vm_compute; reflexivity|].
  split; [vm_compute; reflexivity|].
  split; [vm_compute; reflexivity|].
  split; vm_compute; reflexivity.
Qed.

(* ================================================================== *)
(** ** What the loops leave on the page *)
(* ================================================================== *)

Lemma filter_twice (A : Type) (f g : A -> bool) (l : list A) :
  filter f (filter g l) = filter (fun x => g x && f x) l.
Proof.
  induction l as [|x l IH]; simpl; [reflexivity|].
  destruct (g x); simpl; [destruct (f x)|]; now rewrite IH.
Qed.



Section Accounting.

Context {L : Library}.






(** The unguarded loop ends with a page exactly when no file raises. *)
Lemma app2_completes (files : list UploadedFile) :
  forall p0,
    (exists p, app2_from p0 files = Ok p)
    <-> existsb (raises app2) files = false.
Proof.
  induction files as [|f files IH]; intros p0; cbn [app2_from existsb].
  - split; [reflexivity | eauto].
  - unfold app2_step, raises at 1.
    destruct (process app2 f) as [r|e]; cbn [bind succeeds negb orb].
    + apply IH.
    + split; [intros [p H]; discriminate | discriminate].
Qed.

Lemma app2_first_raise (files : list UploadedFile) :
  forall p0 e,
    app2_from p0 files = Raise e ->
    exists before f after,
      files = before ++ f :: after /\
      existsb (raises app2) before = false /\
      process app2 f = Raise e.
Proof.
  induction files as [|f files IH]; intros p0 e H; cbn [app2_from] in H.
  - discriminate.
  - unfold app2_step in H. destruct (process app2 f) as [r|e'] eqn:P.
    + cbn [bind] in H. destruct (IH _ _ H) as (b & g & a & -> & Hb & Hg).
      exists (f :: b), g, a. split; [reflexivity|]. split; [|assumption].
      cbn [existsb]. unfold raises at 1. now rewrite P.
    + cbn [bind] in H. injection H as <-.
      exists [], f, files. auto.
Qed.

Lemma not_raising (files : list UploadedFile) :
  existsb (raises app2) files = false ->
  forall g, In g files -> succeeds (process app2 g) = true.
Proof.
  intros H g Hg.
  destruct (succeeds (process app2 g)) eqn:E; [reflexivity|].
  assert (K : existsb (raises app2) files = true).
  { apply existsb_exists. exists g. split; [assumption|].
    unfold raises. now rewrite E. }
  congruence.
Qed.


(** X13.  [app2.py] ends in the exception of the first file whose
    processing raises, and reaches the end of its loop exactly when no file
    raises. *)
Theorem app2_ends_with_first_exception :
  forall files : list UploadedFile,
    (forall e,
       app2_loop files = Raise e
       <-> exists before f after,
             files = before ++ f :: after /\
             existsb (raises app2) before = false /\
             process app2 f = Raise e) /\
    ((exists p, app2_loop files = Ok p)
     <-> existsb (raises app2) files = false).
Proof.
  intros files. split.
  - intros e. split.
    + apply app2_first_raise.
    + intros (b & f & a & -> & Hb & Hf). unfold app2_loop.
      apply app2_stops; [|assumption]. now apply not_raising.
  - apply app2_completes.
Qed.



(** X16.  Characters that are not alphanumeric leave no trace in a sheet
    name, and a sheet name is its own sheet name. *)
Theorem sheet_name_forgets_other_characters :
  forall pre mid post : pystr,
    sheet_name (pre ++ filter (fun ch => negb (isalnum ch)) mid ++ post)
    = sheet_name (pre ++ post) /\
    sheet_name (sheet_name pre) = sheet_name pre.
Proof.
  intros pre mid post. unfold sheet_name. split.
  - rewrite !filter_app, filter_twice.
    rewrite (filter_none _ _ mid); [reflexivity|].
    intros x _. now destruct (isalnum x).
  - rewrite (filter_all _ isalnum (firstn 31 (filter isalnum pre))).
    + rewrite firstn_firstn. reflexivity.
    + intros x Hx.
      exact (proj1 (Forall_forall _ _) (sheet_name_alnum pre) x Hx).
Qed.

(** X17.  Whatever follows the 31st alphanumeric character of a file name
    is lost: such names share a sheet. *)
Theorem long_names_share_a_sheet :
  forall pre post : pystr,
    31 <= length (filter isalnum pre) ->
    sheet_name (pre ++ post) = sheet_name pre.
Proof.
  intros pre post H. unfold sheet_name.
  rewrite filter_app, firstn_app.
  replace (31 - length (filter isalnum pre)) with 0 by lia.
  cbn [firstn]. apply app_nil_r.
Qed.

End Accounting.


Example mixed_uploads_sheets :
  exists p shown d,
    @app2_loop reference mixed_uploads = Ok p /\
    @process reference app2 later_file = Ok (Returned shown d) /\
    @returned_names reference app2 mixed_uploads
    = [@sheet_name reference posts_name; @sheet_name reference posts_name] /\
    map fst (processed_dfs p) = [@sheet_name reference posts_name] /\
    dict_get (processed_dfs p) (@sheet_name reference posts_name) = Some d /\
    length (reports p) = 2.
Proof.
  eexists. eexists. eexists.
  split; [vm_compute; reflexivity|].
  split; [vm_compute; reflexivity|].
  split; [vm_compute; reflexivity|].
  split; [vm_compute; reflexivity|].
  split; [vm_compute; reflexivity|]. vm_compute. reflexivity.
Qed.

Lemma long_names_share_a_sheet_witness :
  31 <= length (filter (@isalnum reference)
                       (utf8 "notes-export-2024-03-01-to-2024-03-31-account"))
  /\ @sheet_name reference
       (utf8 "notes-export-2024-03-01-to-2024-03-31-account"
        ++ utf8 "-copy.xlsx")
     = @sheet_name reference
         (utf8 "notes-export-2024-03-01-to-2024-03-31-account").
Proof.
  assert (H : 31 <= length (filter (@isalnum reference)
                (utf8 "notes-export-2024-03-01-to-2024-03-31-account")))
    by (apply Nat.leb_le; vm_compute; reflexivity).
  split; [exact H|].
  exact (@long_names_share_a_sheet reference _ _ H).
Defined.
